(** * video-bot: a shallow embedding of the three server variants

    The repository holds three revisions of one Express server that proxies
    a text-to-video service:

    - [Direct]    (src/server.js, first file): no local storage;
    - [InMemory]  (src/server.js, second file): a [Map] from job id to
      generation id, filled by a background poller;
    - [FileStore] (src/unnamed/part_000): completed videos are written
      under a served directory by a background flow.

    JavaScript values are modelled by [jsval]; asynchronous functions are
    functions in the monad [M], which threads a [World] (the event trace,
    the in-memory [videoStore] and the file system) and propagates thrown
    errors.  The upstream service, the disk and the few Node built-ins the
    code relies on are supplied by a [Host]. *)

From Stdlib Require Import ZArith Lia.
From stdpp Require Import base tactics option list strings pretty countable gmap.

Local Open Scope string_scope.
Local Open Scope Z_scope.

(** ** JavaScript values

    The scalars that travel through the program (job ids, statuses,
    prompts, generation ids), plus the two kinds of inherited members a
    property lookup on an object literal can return.  JSON numbers are
    restricted to integers printed in plain decimal. *)

Inductive jsval : Type :=
  | VUndef
  | VNull
  | VBool (b : bool)
  | VNum (n : Z)
  | VStr (s : string)
  | VFun (name : string)     (* a built-in function, e.g. [Object] *)
  | VObjProto.               (* the object [Object.prototype] *)

#[global] Instance jsval_eq_dec : EqDecision jsval.
Proof. solve_decision. Defined.

(** [ToBoolean]: what [!x], [x || y], [x && y] and [x ? a : b] test. *)
Definition truthy (v : jsval) : bool :=
  match v with
  | VUndef | VNull => false
  | VBool b => b
  | VNum n => negb (n =? 0)
  | VStr s => negb (String.eqb s "")
  | VFun _ | VObjProto => true
  end.

(** [ToString]: template literals, string concatenation, property keys. *)
Definition ToString (v : jsval) : string :=
  match v with
  | VUndef => "undefined"
  | VNull => "null"
  | VBool true => "true"
  | VBool false => "false"
  | VNum n => pretty n
  | VStr s => s
  | VFun name => "function " +:+ name +:+ "() { [native code] }"
  | VObjProto => "[object Object]"
  end.

(** [a || b] *)
Definition js_or (a b : jsval) : jsval := if truthy a then a else b.

(** A destructuring default, [{ x = d }]: it replaces [undefined] only. *)
Definition default_to (d v : jsval) : jsval :=
  match v with VUndef => d | _ => v end.

(** [x === "literal"] *)
Definition strict_eq_str (v : jsval) (lit : string) : bool :=
  match v with
  | VStr s => String.eqb s lit
  | _ => false
  end.

(** ** Object literals used as lookup tables

    [table[key]] first looks among the literal's own properties and then
    follows the prototype chain to [Object.prototype]. *)

Definition Object_prototype (key : string) : jsval :=
  if String.eqb key "constructor" then VFun "Object"
  else if String.eqb key "__proto__" then VObjProto
  else if existsb (String.eqb key)
            ["hasOwnProperty"; "isPrototypeOf"; "propertyIsEnumerable";
             "toString"; "toLocaleString"; "valueOf";
             "__defineGetter__"; "__defineSetter__";
             "__lookupGetter__"; "__lookupSetter__"]
       then VFun key
  else VUndef.

Fixpoint own_property (fields : list (string * jsval)) (key : string)
  : option jsval :=
  match fields with
  | [] => None
  | (k, v) :: rest => if String.eqb k key then Some v else own_property rest key
  end.

Definition js_get (fields : list (string * jsval)) (key : jsval) : jsval :=
  match own_property fields (ToString key) with
  | Some v => v
  | None => Object_prototype (ToString key)
  end.

(** ** Helper functions (identical in the three files, up to two messages) *)

Definition progress : list (string * jsval) :=
  [("preprocessing", VNum 20);
   ("queued", VNum 30);
   ("running", VNum 60);
   ("processing", VNum 85);
   ("succeeded", VNum 100);
   ("failed", VNum 0)].

Definition getProgressFromStatus (status : jsval) : jsval :=
  js_or (js_get progress status) (VNum 10).

(** [ready] and [pending] are the two texts of the ['succeeded'] row. *)
Definition messages (ready pending : string) (videoReady : bool)
  : list (string * jsval) :=
  [("preprocessing", VStr "Video is being prepared...");
   ("queued", VStr "Video is in queue...");
   ("running", VStr "Video is being generated...");
   ("processing", VStr "Video is processing...");
   ("succeeded", VStr (if videoReady then ready else pending));
   ("failed", VStr "Video generation failed")].

(** The parameter default [videoReady = false] replaces [undefined]. *)
Definition statusMessage (ready pending : string)
    (status videoReady : jsval) : jsval :=
  let videoReady := match videoReady with VUndef => VBool false | v => v end in
  js_or (js_get (messages ready pending (truthy videoReady)) status)
        (VStr ("Status: " +:+ ToString status)).

(** The status strings of the two tables. *)
Definition known_statuses : list string :=
  ["preprocessing"; "queued"; "running"; "processing"; "succeeded"; "failed"].

Definition jsval_encode (v : jsval) : nat * bool * Z * string :=
  match v with
  | VUndef => (0%nat, false, 0, "")
  | VNull => (1%nat, false, 0, "")
  | VBool b => (2%nat, b, 0, "")
  | VNum n => (3%nat, false, n, "")
  | VStr s => (4%nat, false, 0, s)
  | VFun s => (5%nat, false, 0, s)
  | VObjProto => (6%nat, false, 0, "")
  end.

Definition jsval_decode (c : nat * bool * Z * string) : jsval :=
  let '(tag, b, n, s) := c in
  match tag with
  | 0%nat => VUndef
  | 1%nat => VNull
  | 2%nat => VBool b
  | 3%nat => VNum n
  | 4%nat => VStr s
  | 5%nat => VFun s
  | _ => VObjProto
  end.

#[global] Instance jsval_countable : Countable jsval :=
  inj_countable' jsval_encode jsval_decode
    (fun v => match v with
              | VUndef | VNull | VBool _ | VNum _ | VStr _ | VFun _ | VObjProto
                => eq_refl
              end).

(** ** The upstream service's JSON

    A parsed body is [null] or a job object; a field that is absent reads
    as [undefined].  [generations] is absent, [null], or an array whose
    entries are generation objects or [null]. *)

Inductive generation : Type :=
  | GenNull
  | GenObj (id : jsval).

Inductive generations : Type :=
  | GensUndef
  | GensNull
  | GensArr (l : list generation).

Record job : Type := Job {
  job_id : jsval;
  job_status : jsval;
  job_generations : generations;
  job_prompt : jsval;
  job_created_at : jsval;
  job_finished_at : jsval
}.

Inductive json_body : Type :=
  | JNull
  | JJob (j : job).

(** ** HTTP as seen through node-fetch *)

Record request : Type := Request {
  url : string;
  method : string;
  headers : list (string * jsval);
  body : option string
}.

(** [json] and [buffer] are what [response.json()] and
    [response.buffer()] settle to: [inl] is the rejection message. *)
Record response : Type := Response {
  status : Z;
  statusText : string;
  json : string + json_body;
  buffer : string + list Byte.byte
}.

Definition ok (r : response) : bool := (200 <=? status r) && (status r <? 300).

Inductive fetch_result : Type :=
  | Rejected (message : string)
  | Resolved (r : response).

(** What Express sends back. *)
Inductive payload : Type :=
  | Json (fields : list (string * jsval))
  | Bytes (data : list Byte.byte)
  | File (path : string).

Record reply : Type := Reply {
  code : Z;
  reply_headers : list (string * string);
  sent : payload
}.

(** [res.json(obj)] and [res.status(c).json(obj)] *)
Definition res_json (fields : list (string * jsval)) : reply :=
  Reply 200 [] (Json fields).
Definition res_status_json (c : Z) (fields : list (string * jsval)) : reply :=
  Reply c [] (Json fields).

(** The field a client reads from the JSON text of a reply:
    [JSON.stringify] leaves out members that are [undefined] or functions. *)
Definition reported (key : string) (r : reply) : option jsval :=
  match sent r with
  | Json fields =>
      match own_property fields key with
      | Some VUndef | Some (VFun _) | None => None
      | Some v => Some v
      end
  | _ => None
  end.

(** ** The world the server runs in *)

(** An entry of [videoStore]; a member the literal does not list reads as
    [undefined]. *)
Record VideoData : Type := mkVideoData {
  vd_generationId : jsval;
  vd_status : jsval;
  vd_prompt : jsval
}.

Inductive task : Type :=
  | monitorVideoGeneration_task (jobId : jsval)
  | processVideoInBackground_task (jobId prompt : jsval).

Inductive event : Type :=
  | EFetch (req : request) (res : fetch_result)
  | ESleep (ms : Z)
  | EStoreGet (key : jsval)
  | EStoreSet (key : jsval) (value : VideoData)
  | EStoreSize
  | EExistsSync (path : string)
  | EWriteFile (path : string) (data : list Byte.byte) (error : option string)
  | EClock
  | ESpawn (t : task).

(** [trace] lists the effects performed so far, newest first. *)
Record World : Type := mkWorld {
  trace : list event;
  videoStore : gmap jsval VideoData;
  files : gmap string (list Byte.byte)
}.

Record Env : Type := mkEnv {
  AZURE_VIDEO_ENDPOINT : option string;
  AZURE_VIDEO_KEY : option string;
  AZURE_VIDEO_API_VERSION : option string;
  HOME : option string;
  WEBSITE_SITE_NAME : option string
}.

(** Everything outside the program.  The answers of the upstream service
    and of the disk may depend on the moment they are asked, counted in
    effects performed so far. *)
Record Host : Type := mkHost {
  process_env : Env;
  dirname : string;
  upstream : nat -> request -> fetch_result;
  writeFile_error : nat -> string -> option string;
  toISOString : nat -> string;
  path_join : list string -> string;
  JSON_stringify : list (string * jsval) -> string;
  JSON_stringify_body : json_body -> string
}.

(** [process.env.X] as a value *)
Definition env_val (o : option string) : jsval :=
  match o with Some s => VStr s | None => VUndef end.

(** [s.replace(/\/$/, '')]: drop one slash at the very end. *)
Fixpoint strip_trailing_slash (s : string) : string :=
  match s with
  | "" => ""
  | String c rest =>
      match rest with
      | "" => if Ascii.eqb c (Ascii.ascii_of_nat 47) then "" else s
      | _ => String c (strip_trailing_slash rest)
      end
  end.

(** ** The monad of asynchronous code *)

Inductive outcome (A : Type) : Type :=
  | Return (a : A)
  | Throw (message : string).
Arguments Return {A} a.
Arguments Throw {A} message.

Definition M (A : Type) : Type := World -> outcome A * World.

Definition ret {A} (a : A) : M A := fun w => (Return a, w).
Definition throw {A} (message : string) : M A := fun w => (Throw message, w).
Definition bind {A B} (m : M A) (k : A -> M B) : M B :=
  fun w => match m w with
           | (Return a, w') => k a w'
           | (Throw e, w') => (Throw e, w')
           end.
(** [try { body } catch (error) { handler(error.message) }] *)
Definition try_catch {A} (body : M A) (handler : string -> M A) : M A :=
  fun w => match body w with
           | (Return a, w') => (Return a, w')
           | (Throw e, w') => handler e w'
           end.

Notation "'let*' x ':=' m 'in' k" := (bind m (fun x => k))
  (at level 10, x name, m at level 100, k at level 200).
Notation "m ';;;' k" := (bind m (fun _ => k))
  (at level 100, k at level 200, right associativity).

Definition emit (e : event) : M unit :=
  fun w => (Return tt, mkWorld (e :: trace w) (videoStore w) (files w)).


(** A string holding one double-quote character. *)
Definition dquote : string := String (Ascii.ascii_of_nat 34) "".

(** V8's message for reading a member of [null] or [undefined]. *)
Definition cannot_read (receiver member : string) : string :=
  "Cannot read properties of " +:+ receiver +:+ " (reading '" +:+ member +:+ "')".

(** The body of a [/generate-video] request; an absent member is
    [undefined]. *)
Record generate_body : Type := GenerateBody {
  req_prompt : jsval;
  req_model : jsval;
  req_duration : jsval;
  req_quality : jsval
}.

Definition maxAttempts : nat := 60.
Definition checkInterval : Z := 10000.

(** ** Effects shared by the three files *)

Section Effects.
Context (host : Host).

(** [await fetch(url, options)] *)
Definition fetch (req : request) : M response :=
  fun w =>
    let answer := upstream host (length (trace w)) req in
    let w' := mkWorld (EFetch req answer :: trace w) (videoStore w) (files w) in
    match answer with
    | Rejected message => (Throw message, w')
    | Resolved r => (Return r, w')
    end.

(** [await response.json()] *)
Definition response_json (r : response) : M json_body :=
  match json r with
  | inl message => throw message
  | inr data => ret data
  end.

(** [await response.buffer()], [await response.arrayBuffer()] *)
Definition response_buffer (r : response) : M (list Byte.byte) :=
  match buffer r with
  | inl message => throw message
  | inr data => ret data
  end.

(** [data.member] on a parsed body *)
Definition member (data : json_body) (name : string) (read : job -> jsval)
  : M jsval :=
  match data with
  | JNull => throw (cannot_read "null" name)
  | JJob j => ret (read j)
  end.

(** [await new Promise(resolve => setTimeout(resolve, ms))] *)
Definition sleep (ms : Z) : M unit := emit (ESleep ms).

(** [videoStore.get(key)], [videoStore.set(key, value)], [videoStore.size] *)
Definition storeGet (key : jsval) : M (option VideoData) :=
  fun w => (Return (videoStore w !! key),
            mkWorld (EStoreGet key :: trace w) (videoStore w) (files w)).
Definition storeSet (key : jsval) (value : VideoData) : M unit :=
  fun w => (Return tt,
            mkWorld (EStoreSet key value :: trace w)
                    (<[key := value]> (videoStore w)) (files w)).
Definition storeSize : M Z :=
  fun w => (Return (Z.of_nat (size (videoStore w))),
            mkWorld (EStoreSize :: trace w) (videoStore w) (files w)).

(** [existsSync(path)] and [await fs.writeFile(path, data)]; a write
    that fails leaves the file system as it was. *)
Definition existsSync (path : string) : M bool :=
  fun w => (Return (bool_decide (is_Some (files w !! path))),
            mkWorld (EExistsSync path :: trace w) (videoStore w) (files w)).
Definition writeFile (path : string) (data : list Byte.byte) : M unit :=
  fun w =>
    let error := writeFile_error host (length (trace w)) path in
    let tr := EWriteFile path data error :: trace w in
    match error with
    | Some message => (Throw message, mkWorld tr (videoStore w) (files w))
    | None => (Return tt, mkWorld tr (videoStore w) (<[path := data]> (files w)))
    end.

(** [new Date().toISOString()] *)
Definition now : M string :=
  fun w => (Return (toISOString host (length (trace w))),
            mkWorld (EClock :: trace w) (videoStore w) (files w)).

(** Calling an [async] function without awaiting it. *)
Definition spawn (t : task) : M unit := emit (ESpawn t).

Definition endpoint : jsval := env_val (AZURE_VIDEO_ENDPOINT (process_env host)).
Definition key : jsval := env_val (AZURE_VIDEO_KEY (process_env host)).

(** [process.env.AZURE_VIDEO_ENDPOINT.replace(/\/$/, '')] *)
Definition baseEndpoint : M string :=
  match AZURE_VIDEO_ENDPOINT (process_env host) with
  | None => throw (cannot_read "undefined" "replace")
  | Some e => ret (strip_trailing_slash e)
  end.

(** [process.env.AZURE_VIDEO_API_VERSION || 'preview'] *)
Definition apiVersion : string :=
  ToString (js_or (env_val (AZURE_VIDEO_API_VERSION (process_env host)))
                  (VStr "preview")).

Definition jobsEndpoint (base : string) : string :=
  base +:+ "/openai/v1/video/generations/jobs?api-version=" +:+ apiVersion.

Definition statusEndpoint (base : string) (jobId : jsval) : string :=
  base +:+ "/openai/v1/video/generations/jobs/" +:+ ToString jobId
       +:+ "?api-version=" +:+ apiVersion.

(** The submission request of [/generate-video]. *)
Definition submit (base : string) (requestBody : list (string * jsval))
  : request :=
  Request (jobsEndpoint base) "POST"
          [("Content-Type", VStr "application/json"); ("Api-key", key)]
          (Some (JSON_stringify host requestBody)).

(** A [GET] carrying only the [Api-key] header. *)
Definition get (u : string) : request := Request u "GET" [("Api-key", key)] None.

(** [requestBody] of the first and third file. *)
Definition requestBody (model prompt : jsval) : list (string * jsval) :=
  [("model", model); ("prompt", prompt);
   ("height", VStr "720"); ("width", VStr "1280");
   ("n_seconds", VStr "5"); ("n_variants", VStr "1")].

Definition missing_prompt : reply :=
  res_json [("success", VBool false);
            ("error", VStr "Please provide a video prompt")].

Definition generation_failed (message : string) : reply :=
  res_json [("success", VBool false);
            ("error", VStr ("Video generation failed: " +:+ message))].

Definition service_error (prefix : string) (r : response) (data : json_body)
  : string :=
  prefix +:+ pretty (status r) +:+ " - " +:+ JSON_stringify_body host data.

Definition started (jobId st : jsval) (note : string) : reply :=
  res_json [("success", VBool true);
            ("jobId", jobId);
            ("status", st);
            ("message", VStr "Video generation started successfully!");
            ("note", VStr note)].
End Effects.

(** ** src/server.js, first file: no local storage

    Only the submission handler and the status message are needed from
    this file; its status check asks the upstream for a URL on every call
    and keeps nothing. *)

Module Direct.
Section Server.
Context (host : Host).

Definition getStatusMessage : jsval -> jsval -> jsval :=
  statusMessage "Video ready!" "Finalizing video...".

(** [app.post("/generate-video", ...)] *)
Definition generate_video (b : generate_body) : M reply :=
  try_catch
    (let prompt := req_prompt b in
     let model := default_to (VStr "sora-2025-05-02") (req_model b) in
     if negb (truthy prompt) then ret missing_prompt
     else if negb (truthy (endpoint host)) || negb (truthy (key host)) then
       ret (res_json [("success", VBool false);
                      ("error", VStr "Video service configuration missing")])
     else
       let* base := baseEndpoint host in
       let* response := fetch host (submit host base (requestBody model prompt)) in
       let* responseData := response_json response in
       if (status response =? 201) || (status response =? 202) then
         let* jobId := member responseData "id" job_id in
         let* st := member responseData "status" job_status in
         ret (started jobId st "Video will be ready in 2-5 minutes.")
       else
         throw (service_error host "Video service error: " response responseData))
    (fun message => ret (generation_failed message)).
End Server.
End Direct.

(** ** src/server.js, second file: the in-memory store *)

Module InMemory.

(** What [checkVideoStatus] resolves to. *)
Inductive status_result : Type :=
  | StatusOk (st : jsval) (gens : generations) (prompt : jsval)
  | StatusError (error : string).

(** How one turn of the polling loop ends. *)
Inductive ctl : Type := Break | Continue.

(** [x] in [if (x && x.length > 0)], [x.length] and [x[i]] for a
    [generations] member. *)
Definition gens_truthy (g : generations) : bool :=
  match g with GensArr _ => true | _ => false end.
Definition gens_length (g : generations) : Z :=
  match g with GensArr l => Z.of_nat (length l) | _ => 0 end.
Definition gens_at (g : generations) (i : nat) : option generation :=
  match g with GensArr l => l !! i | _ => None end.

(** [requestBody], with the width and height picked from [quality]. *)
Definition requestBody (prompt quality : jsval) (n_seconds : string)
  : list (string * jsval) :=
  let width := if strict_eq_str quality "1080" then "1920"
               else if strict_eq_str quality "720" then "1280" else "854" in
  let height := if strict_eq_str quality "1080" then "1080"
                else if strict_eq_str quality "720" then "720" else "480" in
  [("model", VStr "sora"); ("prompt", prompt);
   ("height", VStr height); ("width", VStr width);
   ("n_seconds", VStr n_seconds); ("n_variants", VStr "1")].

(** [duration.toString()] *)
Definition toString (v : jsval) : M string :=
  match v with
  | VNull => throw (cannot_read "null" "toString")
  | VUndef => throw (cannot_read "undefined" "toString")
  | v => ret (ToString v)
  end.

Section Server.
Context (host : Host).

Definition getStatusMessage : jsval -> jsval -> jsval :=
  statusMessage "Video ready for download!" "Finalizing video...".

(** [element.id], where [element] is [generations[i]] *)
Definition generation_id (element : option generation) : M jsval :=
  match element with
  | Some (GenObj id) => ret id
  | Some GenNull => throw (cannot_read "null" "id")
  | None => throw (cannot_read "undefined" "id")
  end.

Definition checkVideoStatus (jobId : jsval) : M status_result :=
  try_catch
    (let* base := baseEndpoint host in
     let* response := fetch host (get host (statusEndpoint host base jobId)) in
     if negb (ok response) then
       throw ("Status check failed: " +:+ pretty (status response))
     else
       let* data := response_json response in
       let* st := member data "status" job_status in
       ret (StatusOk st
              (match data with JJob j => job_generations j | JNull => GensUndef end)
              (match data with JJob j => job_prompt j | JNull => VUndef end)))
    (fun message => ret (StatusError message)).

(** The body of the [for] loop of [monitorVideoGeneration], with its
    [try]/[catch]. *)
Definition monitor_attempt (jobId : jsval) : M ctl :=
  try_catch
    (let* st := checkVideoStatus jobId in
     match st with
     | StatusOk s gens prompt =>
         if strict_eq_str s "succeeded" then
           (if gens_truthy gens && (0 <? gens_length gens) then
              let* generationId := generation_id (gens_at gens 0) in
              storeSet jobId (mkVideoData generationId (VStr "ready") prompt)
            else ret tt) ;;;
           ret Break
         else if strict_eq_str s "failed" then
           storeSet jobId (mkVideoData VUndef (VStr "failed") VUndef) ;;;
           ret Break
         else
           sleep checkInterval ;;; ret Continue
     | StatusError _ =>
         sleep checkInterval ;;; ret Continue
     end)
    (fun _ => ret Continue).

(** [for (let attempt = 1; attempt <= maxAttempts; attempt++)], counted
    by the turns still to run. *)
Fixpoint monitor_loop (remaining : nat) (jobId : jsval) : M unit :=
  match remaining with
  | O => ret tt
  | S n =>
      let* c := monitor_attempt jobId in
      match c with
      | Break => ret tt
      | Continue => monitor_loop n jobId
      end
  end.

Definition monitorVideoGeneration (jobId : jsval) : M unit :=
  monitor_loop maxAttempts jobId.

(** [app.post("/generate-video", ...)] *)
Definition generate_video (b : generate_body) : M reply :=
  try_catch
    (let prompt := req_prompt b in
     let duration := default_to (VStr "5") (req_duration b) in
     let quality := default_to (VStr "720") (req_quality b) in
     if negb (truthy prompt) then ret missing_prompt
     else if negb (truthy (endpoint host)) || negb (truthy (key host)) then
       ret (res_json [("success", VBool false);
                      ("error", VStr "Video service configuration missing")])
     else
       let* base := baseEndpoint host in
       let* n_seconds := toString duration in
       let* response :=
         fetch host (submit host base (requestBody prompt quality n_seconds)) in
       let* responseData := response_json response in
       if (status response =? 201) || (status response =? 202) then
         let* jobId := member responseData "id" job_id in
         spawn (monitorVideoGeneration_task jobId) ;;;
         let* st := member responseData "status" job_status in
         ret (started jobId st "Video will be ready in 2-5 minutes.")
       else
         throw (service_error host "Video service error: " response responseData))
    (fun message => ret (generation_failed message)).

(** [videoData && videoData.status === 'ready'] *)
Definition ready (videoData : option VideoData) : jsval :=
  match videoData with
  | None => VUndef
  | Some d => VBool (strict_eq_str (vd_status d) "ready")
  end.

(** [app.post("/check-video-status", ...)], given [req.body.jobId] *)
Definition check_video_status (jobId : jsval) : M reply :=
  try_catch
    (if negb (truthy jobId) then
       ret (res_json [("success", VBool false);
                      ("error", VStr "Job ID is required")])
     else
       let* st := checkVideoStatus jobId in
       match st with
       | StatusOk s _ _ =>
           let* videoData := storeGet jobId in
           let videoReady := ready videoData in
           ret (res_json [("success", VBool true);
                          ("jobId", jobId);
                          ("status", s);
                          ("progress", getProgressFromStatus s);
                          ("videoReady", videoReady);
                          ("message", getStatusMessage s videoReady)])
       | StatusError e =>
           ret (res_json [("success", VBool false); ("error", VStr e)])
       end)
    (fun message =>
       ret (res_json [("success", VBool false);
                      ("error", VStr ("Status check failed: " +:+ message))])).

Definition job_id_required : reply :=
  res_status_json 400 [("error", VStr "Job ID is required")].

(** [app.get("/download-video", ...)], given [req.query.jobId] *)
Definition download_video (jobId : jsval) : M reply :=
  try_catch
    (if negb (truthy jobId) then ret job_id_required
     else
       let* videoData := storeGet jobId in
       match videoData with
       | Some d =>
           if negb (strict_eq_str (vd_status d) "ready") then
             ret (res_status_json 404 [("error", VStr "Video not ready or not found")])
           else
             let* base := baseEndpoint host in
             let downloadUrl :=
               base +:+ "/openai/v1/video/generations/"
                    +:+ ToString (vd_generationId d)
                    +:+ "/content/video?api-version=" +:+ apiVersion host in
             let* response := fetch host (get host downloadUrl) in
             if negb (ok response) then
               throw ("Download failed with status: " +:+ pretty (status response))
             else
               let* videoBuffer := response_buffer response in
               ret (Reply 200
                      [("Content-Type", "video/mp4");
                       ("Content-Disposition",
                        "attachment; filename=" +:+ dquote +:+ "ai-video-"
                          +:+ ToString jobId +:+ ".mp4" +:+ dquote);
                       ("Content-Length", pretty (length videoBuffer));
                       ("Cache-Control", "no-cache")]
                      (Bytes videoBuffer))
       | None =>
           ret (res_status_json 404 [("error", VStr "Video not ready or not found")])
       end)
    (fun message =>
       ret (res_status_json 500 [("error", VStr ("Download failed: " +:+ message))])).

(** [app.get("/get-video-info", ...)], given [req.query.jobId] *)
Definition get_video_info (jobId : jsval) : M reply :=
  try_catch
    (if negb (truthy jobId) then ret job_id_required
     else
       let* videoData := storeGet jobId in
       match videoData with
       | None => ret (res_status_json 404 [("error", VStr "Video data not found")])
       | Some d =>
           ret (res_json [("success", VBool true);
                          ("jobId", jobId);
                          ("status", vd_status d);
                          ("generationId", vd_generationId d);
                          ("prompt", vd_prompt d)])
       end)
    (fun _ => ret (res_status_json 500 [("error", VStr "Failed to get video info")])).

(** [app.get("/health", ...)] *)
Definition health : M reply :=
  let* timestamp := now host in
  let* active_jobs := storeSize in
  ret (res_json [("status", VStr "healthy");
                 ("video_generation", VStr "enabled");
                 ("message", VStr "AI Video Generator - Production Ready");
                 ("timestamp", VStr timestamp);
                 ("active_jobs", VNum active_jobs)]).

(** [app.get("/", ...)] *)
Definition root : M reply :=
  ret (Reply 200 [] (File (path_join host [dirname host; "index.html"]))).

(** One step of the running server: a request handled, a turn of some
    job's poller, or a whole poller run. *)
Inductive op : Type :=
  | PostGenerateVideo (b : generate_body)
  | PostCheckVideoStatus (jobId : jsval)
  | GetDownloadVideo (jobId : jsval)
  | GetVideoInfo (jobId : jsval)
  | GetHealth
  | GetRoot
  | PollerTurn (jobId : jsval)
  | PollerRun (jobId : jsval).

Definition after {A} (m : M A) (w : World) : World := snd (m w).

Definition step (o : op) (w : World) : World :=
  match o with
  | PostGenerateVideo b => after (generate_video b) w
  | PostCheckVideoStatus j => after (check_video_status j) w
  | GetDownloadVideo j => after (download_video j) w
  | GetVideoInfo j => after (get_video_info j) w
  | GetHealth => after health w
  | GetRoot => after root w
  | PollerTurn j => after (monitor_attempt j) w
  | PollerRun j => after (monitorVideoGeneration j) w
  end.

Definition steps (os : list op) (w : World) : World :=
  fold_left (fun w o => step o w) os w.

(** The job a poller step belongs to. *)
Definition poller_of (o : op) : option jsval :=
  match o with
  | PollerTurn j | PollerRun j => Some j
  | _ => None
  end.
End Server.
End InMemory.

(** ** src/unnamed/part_000: videos saved under a served directory *)

Module FileStore.

Inductive status_result : Type :=
  | StatusOk (st generationId prompt createdAt finishedAt : jsval)
  | StatusError (error : string).

(** What [waitForVideoCompletion] resolves to. *)
Inductive wait_result : Type :=
  | WaitOk (st generationId : jsval)
  | WaitError (error : string).

(** [data.generations?.[0]?.id] *)
Definition first_generation_id (g : generations) : jsval :=
  match g with
  | GensArr (GenObj id :: _) => id
  | _ => VUndef
  end.

Section Server.
Context (host : Host).

Definition getStatusMessage : jsval -> jsval -> jsval :=
  statusMessage "Video ready for download!"
                "Video generated, preparing download...".

(** [path.join(process.env.HOME || __dirname, 'site', 'wwwroot', 'videos')] *)
Definition videosDir : string :=
  path_join host
    [ToString (js_or (env_val (HOME (process_env host))) (VStr (dirname host)));
     "site"; "wwwroot"; "videos"].

Definition fileName (jobId : jsval) : string :=
  "video-" +:+ ToString jobId +:+ ".mp4".

Definition videoPath (jobId : jsval) : string :=
  path_join host [videosDir; fileName jobId].

Definition checkVideoStatus (jobId : jsval) : M status_result :=
  try_catch
    (let* base := baseEndpoint host in
     let* response := fetch host (get host (statusEndpoint host base jobId)) in
     if negb (ok response) then
       throw ("Status check failed: " +:+ pretty (status response)
                +:+ " " +:+ statusText response)
     else
       let* data := response_json response in
       let* st := member data "status" job_status in
       match data with
       | JJob j =>
           ret (StatusOk st (first_generation_id (job_generations j))
                  (job_prompt j) (job_created_at j) (job_finished_at j))
       | JNull => ret (StatusOk st VUndef VUndef VUndef VUndef)
       end)
    (fun message => ret (StatusError message)).

(** The body of the [for] loop of [waitForVideoCompletion]: [Some r]
    when it returns [r], [None] when the loop goes on. *)
Definition wait_attempt (jobId : jsval) : M (option wait_result) :=
  try_catch
    (let* st := checkVideoStatus jobId in
     match st with
     | StatusOk s generationId _ _ _ =>
         if strict_eq_str s "succeeded" then
           ret (Some (WaitOk s generationId))
         else if strict_eq_str s "failed" then
           ret (Some (WaitError "Video generation failed"))
         else
           sleep checkInterval ;;; ret None
     | StatusError _ =>
         sleep checkInterval ;;; ret None
     end)
    (fun _ => ret None).

Fixpoint wait_loop (remaining : nat) (jobId : jsval) : M wait_result :=
  match remaining with
  | O => ret (WaitError "Video generation timeout after 10 minutes")
  | S n =>
      let* r := wait_attempt jobId in
      match r with
      | Some result => ret result
      | None => wait_loop n jobId
      end
  end.

Definition waitForVideoCompletion (jobId : jsval) : M wait_result :=
  wait_loop maxAttempts jobId.

(** The candidate content URLs, in the order of the array literal. *)
Definition endpoints (base : string) (jobId generationId : jsval)
  : list string :=
  [base +:+ "/openai/v1/video/generations/" +:+ ToString generationId
        +:+ "/content?api-version=" +:+ apiVersion host;
   base +:+ "/openai/v1/video/generations/jobs/" +:+ ToString jobId
        +:+ "/generations/" +:+ ToString generationId
        +:+ "/content?api-version=" +:+ apiVersion host].

(** [for (const endpoint of endpoints)], starting from
    [videoBuffer = null]: the result is the final [videoBuffer]. *)
Fixpoint download_loop (candidates : list string)
  : M (option (list Byte.byte)) :=
  match candidates with
  | [] => ret None
  | endpoint :: rest =>
      let* got :=
        try_catch
          (let* response := fetch host (get host endpoint) in
           if ok response then
             let* videoBuffer := response_buffer response in
             ret (Some videoBuffer)
           else ret None)
          (fun _ => ret None) in
      match got with
      | Some videoBuffer => ret (Some videoBuffer)
      | None => download_loop rest
      end
  end.

Definition saveVideoToStorage (jobId : jsval) (videoBuffer : list Byte.byte)
  : M unit :=
  try_catch
    (writeFile host (path_join host [videosDir; fileName jobId]) videoBuffer)
    (fun _ => ret tt).

Definition downloadAndSaveVideo (jobId generationId : jsval) : M unit :=
  try_catch
    (let* base := baseEndpoint host in
     let* videoBuffer := download_loop (endpoints base jobId generationId) in
     match videoBuffer with
     | None => ret tt
     | Some data => saveVideoToStorage jobId data
     end)
    (fun _ => ret tt).

Definition processVideoInBackground (jobId prompt : jsval) : M unit :=
  try_catch
    (let* videoResult := waitForVideoCompletion jobId in
     match videoResult with
     | WaitOk _ generationId => downloadAndSaveVideo jobId generationId
     | WaitError _ => ret tt
     end)
    (fun _ => ret tt).

(** [app.post("/generate-video", ...)] *)
Definition generate_video (b : generate_body) : M reply :=
  try_catch
    (let prompt := req_prompt b in
     let model := default_to (VStr "sora-2025-05-02") (req_model b) in
     if negb (truthy prompt) then ret missing_prompt
     else if negb (truthy (endpoint host)) || negb (truthy (key host)) then
       ret (res_json [("success", VBool false);
                      ("error", VStr "Azure Video configuration missing")])
     else
       let* base := baseEndpoint host in
       let* response := fetch host (submit host base (requestBody model prompt)) in
       let* responseData := response_json response in
       if (status response =? 201) || (status response =? 202) then
         let* jobId := member responseData "id" job_id in
         spawn (processVideoInBackground_task jobId prompt) ;;;
         let* st := member responseData "status" job_status in
         ret (started jobId st
                "Video will be ready in 2-5 minutes. Please check status periodically.")
       else
         throw (service_error host "Azure API error: " response responseData))
    (fun message => ret (generation_failed message)).

(** [app.post("/check-video-status", ...)], given [req.body.jobId] *)
Definition check_video_status (jobId : jsval) : M reply :=
  try_catch
    (if negb (truthy jobId) then
       ret (res_json [("success", VBool false);
                      ("error", VStr "Job ID is required")])
     else
       let* st := checkVideoStatus jobId in
       match st with
       | StatusOk s generationId _ _ _ =>
           let* present := existsSync (videoPath jobId) in
           let downloadUrl :=
             if present then VStr ("/videos/video-" +:+ ToString jobId +:+ ".mp4")
             else VNull in
           ret (res_json [("success", VBool true);
                          ("jobId", jobId);
                          ("status", s);
                          ("progress", getProgressFromStatus s);
                          ("downloadUrl", downloadUrl);
                          ("videoReady", VBool (truthy downloadUrl));
                          ("generationId", generationId);
                          ("message",
                           getStatusMessage s (VBool (truthy downloadUrl)))])
       | StatusError e =>
           ret (res_json [("success", VBool false); ("error", VStr e)])
       end)
    (fun message =>
       ret (res_json [("success", VBool false);
                      ("error", VStr ("Status check failed: " +:+ message))])).

(** [app.get("/health", ...)] *)
Definition health : M reply :=
  let isAzure := truthy (env_val (WEBSITE_SITE_NAME (process_env host))) in
  let* timestamp := now host in
  ret (res_json [("status", VStr "healthy");
                 ("deployment", VStr (if isAzure then "azure-webapp" else "local"));
                 ("video_generation", VStr "enabled");
                 ("storage", VStr "local-filesystem");
                 ("region", VStr (if isAzure then "azure" else "local"));
                 ("message", VStr "AI Video Bot - Production Ready");
                 ("timestamp", VStr timestamp)]).

(** One step of the running server. *)
Inductive op : Type :=
  | PostGenerateVideo (b : generate_body)
  | PostCheckVideoStatus (jobId : jsval)
  | GetHealth
  | Background (jobId prompt : jsval).

Definition step (o : op) (w : World) : World :=
  match o with
  | PostGenerateVideo b => snd (generate_video b w)
  | PostCheckVideoStatus j => snd (check_video_status j w)
  | GetHealth => snd (health w)
  | Background j p => snd (processVideoInBackground j p w)
  end.

Definition steps (os : list op) (w : World) : World :=
  fold_left (fun w o => step o w) os w.
End Server.
End FileStore.

(** ** Notions used to state the properties *)

(** The world after one more effect, and after a write to [videoStore]. *)
Definition record (e : event) (w : World) : World :=
  mkWorld (e :: trace w) (videoStore w) (files w).
Definition stored (k : jsval) (v : VideoData) (w : World) : World :=
  mkWorld (EStoreSet k v :: trace w) (<[k := v]> (videoStore w)) (files w).

(** The request by which the status of job [jobId] is fetched, when the
    endpoint is configured. *)
Definition status_request (host : Host) (jobId : jsval) : option request :=
  match AZURE_VIDEO_ENDPOINT (process_env host) with
  | None => None
  | Some e => Some (get host (statusEndpoint host (strip_trailing_slash e) jobId))
  end.

(** What the second file's [checkVideoStatus] makes of an answer. *)
Definition status_of (a : fetch_result) : InMemory.status_result :=
  match a with
  | Rejected message => InMemory.StatusError message
  | Resolved r =>
      if negb (ok r) then
        InMemory.StatusError ("Status check failed: " +:+ pretty (status r))
      else
        match json r with
        | inl message => InMemory.StatusError message
        | inr JNull => InMemory.StatusError (cannot_read "null" "status")
        | inr (JJob j) =>
            InMemory.StatusOk (job_status j) (job_generations j) (job_prompt j)
        end
  end.

(** The two entries a poller writes. *)
Definition ready_entry (generationId prompt : jsval) : VideoData :=
  mkVideoData generationId (VStr "ready") prompt.
Definition failed_entry : VideoData :=
  mkVideoData VUndef (VStr "failed") VUndef.


(** [needle] occurs somewhere inside [hay]. *)
Fixpoint contains (needle hay : string) : bool :=
  String.prefix needle hay
  || match hay with
     | "" => false
     | String _ rest => contains needle rest
     end.

(** How many upstream requests, and how many writes to [videoStore], a
    trace records. *)
Definition is_fetch (e : event) : bool :=
  match e with EFetch _ _ => true | _ => false end.
Definition is_store_set (e : event) : bool :=
  match e with EStoreSet _ _ => true | _ => false end.
Definition is_sleep (e : event) : bool :=
  match e with ESleep _ => true | _ => false end.
Definition is_write (e : event) : bool :=
  match e with EWriteFile _ _ _ => true | _ => false end.
Definition count (p : event -> bool) (w : World) : nat :=
  length (filter (fun e => p e = true) (trace w)).

(** The effects [m] performs when started in [w], newest first. *)
Definition events_of {A} (m : M A) (w : World) : list event :=
  take (length (trace (snd (m w))) - length (trace w)) (trace (snd (m w))).

(** A turn of the poller, by what its status fetch observes. *)
Definition turn (j : jsval) (st : InMemory.status_result) (w : World)
  : outcome InMemory.ctl * World :=
  match st with
  | InMemory.StatusOk s gens p =>
      if strict_eq_str s "succeeded" then
        match gens with
        | GensArr (GenObj g :: _) => (Return InMemory.Break, stored j (ready_entry g p) w)
        | GensArr (GenNull :: _) => (Return InMemory.Continue, w)
        | _ => (Return InMemory.Break, w)
        end
      else if strict_eq_str s "failed" then
        (Return InMemory.Break, stored j failed_entry w)
      else (Return InMemory.Continue, record (ESleep checkInterval) w)
  | InMemory.StatusError _ =>
      (Return InMemory.Continue, record (ESleep checkInterval) w)
  end.

(** Each of [n] consecutive turns, the first of which starts when [start]
    effects have been performed, observes 'running': a turn that does so
    performs two effects, its fetch and its pause, so that turn [i] asks
    at moment [start + 2 * i]. *)
Definition answers_running (host : Host) (q : request) (start n : nat) : Prop :=
  forall i, (i < n)%nat -> exists r jb,
    upstream host (start + 2 * i) q = Resolved r /\ ok r = true
    /\ json r = inr (JJob jb) /\ job_status jb = VStr "running".

(** What the third file's [checkVideoStatus] makes of an answer, and a
    turn of its waiting loop by what the status fetch observes. *)
Definition file_status_of (a : fetch_result) : FileStore.status_result :=
  match a with
  | Rejected message => FileStore.StatusError message
  | Resolved r =>
      if negb (ok r) then
        FileStore.StatusError
          ("Status check failed: " +:+ pretty (status r) +:+ " " +:+ statusText r)
      else
        match json r with
        | inl message => FileStore.StatusError message
        | inr JNull => FileStore.StatusError (cannot_read "null" "status")
        | inr (JJob j) =>
            FileStore.StatusOk (job_status j)
              (FileStore.first_generation_id (job_generations j))
              (job_prompt j) (job_created_at j) (job_finished_at j)
        end
  end.

Definition wait_turn (st : FileStore.status_result) (w : World)
  : outcome (option FileStore.wait_result) * World :=
  match st with
  | FileStore.StatusOk s generationId _ _ _ =>
      if strict_eq_str s "succeeded" then
        (Return (Some (FileStore.WaitOk s generationId)), w)
      else if strict_eq_str s "failed" then
        (Return (Some (FileStore.WaitError "Video generation failed")), w)
      else (Return None, record (ESleep checkInterval) w)
  | FileStore.StatusError _ => (Return None, record (ESleep checkInterval) w)
  end.

(** The reply of [/generate-video] once the upstream has answered [a];
    [prefix] and [note] are the texts in which the files differ. *)
Definition submission_reply (host : Host) (prefix note : string)
    (a : fetch_result) : reply :=
  match a with
  | Rejected message => generation_failed message
  | Resolved r =>
      match json r with
      | inl message => generation_failed message
      | inr data =>
          if (status r =? 201) || (status r =? 202) then
            match data with
            | JNull => generation_failed (cannot_read "null" "id")
            | JJob jb => started (job_id jb) (job_status jb) note
            end
          else generation_failed (service_error host prefix r data)
      end
  end.

(** The job id a background task is started for, if the answer is an
    acceptance. *)
Definition accepted_id (a : fetch_result) : option jsval :=
  match a with
  | Resolved r =>
      match json r with
      | inr (JJob jb) =>
          if (status r =? 201) || (status r =? 202) then Some (job_id jb) else None
      | _ => None
      end
  | Rejected _ => None
  end.

(** The events of a submission: the fetch, then the spawned task. *)
Definition submission_events (q : request) (a : fetch_result)
    (t : jsval -> task) : list event :=
  match accepted_id a with
  | Some id => [ESpawn (t id); EFetch q a]
  | None => [EFetch q a]
  end.

(** What the reply [o] of a submission is once the upstream has answered
    with [r]: an acceptance, a refusal whose body parses as JSON, or a
    body that does not parse.  [prefix] and [note] are the texts in which
    the three files differ. *)
Definition submission_contract (host : Host) (prefix note : string)
    (r : response) (o : outcome reply) : Prop :=
  (forall jb,
      status r = 201 \/ status r = 202 ->
      json r = inr (JJob jb) ->
      o = Return (res_json [("success", VBool true);
                            ("jobId", job_id jb);
                            ("status", job_status jb);
                            ("message", VStr "Video generation started successfully!");
                            ("note", VStr note)]))
  /\ (forall data,
        status r <> 201 -> status r <> 202 ->
        json r = inr data ->
        let text := prefix +:+ pretty (status r) +:+ " - "
                           +:+ JSON_stringify_body host data in
        o = Return (res_json [("success", VBool false);
                              ("error", VStr ("Video generation failed: " +:+ text))])
        /\ contains (pretty (status r)) ("Video generation failed: " +:+ text) = true
        /\ contains (JSON_stringify_body host data)
                    ("Video generation failed: " +:+ text) = true)
  /\ (forall message,
        json r = inl message ->
        o = Return (res_json [("success", VBool false);
                              ("error", VStr ("Video generation failed: " +:+ message))])).

(** The bytes a content candidate delivers: the fetch resolves, the
    response is [ok] and its body is read to the end. *)
Definition candidate_bytes (a : fetch_result) : option (list Byte.byte) :=
  match a with
  | Rejected _ => None
  | Resolved r =>
      if ok r then match buffer r with inr data => Some data | inl _ => None end
      else None
  end.

(** [tried_in_order candidates evs o]: [evs] are fetches of a prefix of
    [candidates], oldest first and in the listed order; every one but the
    last delivers nothing; either the last one delivers the bytes [o], or
    all candidates were tried, none delivered, and [o] is [None]. *)
Inductive tried_in_order
  : list request -> list event -> option (list Byte.byte) -> Prop :=
  | tried_none : tried_in_order [] [] None
  | tried_hit q qs a data :
      candidate_bytes a = Some data ->
      tried_in_order (q :: qs) [EFetch q a] (Some data)
  | tried_miss q qs a evs o :
      candidate_bytes a = None ->
      tried_in_order qs evs o ->
      tried_in_order (q :: qs) (EFetch q a :: evs) o.

(** The event [e] is the fetch of [q], and it delivers nothing. *)
Definition fruitless (q : request) (e : event) : Prop :=
  exists a, e = EFetch q a /\ candidate_bytes a = None.

(** [m] takes every world to one related to it by [R]. *)
Definition preserves {A} (R : World -> World -> Prop) (m : M A) : Prop :=
  forall w, R w (snd (m w)).

(** The store and the files are the same in both worlds. *)
Definition same_state (w w' : World) : Prop :=
  videoStore w' = videoStore w /\ files w' = files w.

(** Every file of the first world still exists in the second. *)
Definition files_kept (w w' : World) : Prop :=
  forall p, is_Some (files w !! p) -> is_Some (files w' !! p).

(** The URL from which [/download-video] fetches generation [g]. *)
Definition content_video_url (host : Host) (e : string) (g : jsval) : string :=
  strip_trailing_slash e +:+ "/openai/v1/video/generations/" +:+ ToString g
    +:+ "/content/video?api-version=" +:+ apiVersion host.

(** The entry that observing the job body [jb] makes the poller write. *)
Definition observed_entry (jb : job) : option VideoData :=
  if strict_eq_str (job_status jb) "succeeded" then
    match job_generations jb with
    | GensArr (GenObj g :: _) => Some (ready_entry g (job_prompt jb))
    | _ => None
    end
  else if strict_eq_str (job_status jb) "failed" then Some failed_entry
  else None.

(** The reply [{success:false, error:<text>}]. *)
Definition error_reply (r : reply) : Prop :=
  exists e, r = res_json [("success", VBool false); ("error", VStr e)].

(** ** Sample hosts and worlds, for evaluating the code *)

Definition sample_env : Env :=
  mkEnv (Some "https://video.test/") (Some "secret") None None None.

Definition sample_host (up : nat -> request -> fetch_result)
    (disk : nat -> string -> option string) : Host :=
  mkHost sample_env "/app" up disk
         (fun _ => "2025-01-01T00:00:00.000Z")
         (String.concat "/")
         (fun fields => "{" +:+ String.concat "," (map fst fields) +:+ "}")
         (fun data => match data with
                      | JNull => "null"
                      | JJob j => "{id:" +:+ ToString (job_id j) +:+ "}"
                      end).

Definition sample_job (st : string) (gens : generations) : job :=
  Job (VStr "job-1") (VStr st) gens (VStr "a cat on a skateboard") VUndef VUndef.

(** An upstream answer with status code [c] whose body is a job in state
    [st]; its bytes are [data]. *)
Definition answer (c : Z) (st : string) (gens : generations)
    (data : list Byte.byte) : fetch_result :=
  Resolved (Response c "" (inr (JJob (sample_job st gens))) (inr data)).

Definition no_disk_error : nat -> string -> option string := fun _ _ => None.

Definition host_running : Host :=
  sample_host (fun _ _ => answer 200 "running" GensUndef []) no_disk_error.
Definition host_failed : Host :=
  sample_host (fun _ _ => answer 200 "failed" GensUndef []) no_disk_error.
Definition host_down : Host :=
  sample_host (fun _ _ => Rejected "connect ECONNREFUSED") no_disk_error.

Definition host_accepted : Host :=
  sample_host (fun _ _ => answer 202 "queued" GensUndef []) no_disk_error.
Definition host_rejected : Host :=
  sample_host (fun _ _ => answer 500 "error" GensUndef []) no_disk_error.
(** A gateway error page: status 502, a body that is not JSON. *)
Definition not_json : string :=
  "invalid json response body at https://video.test/openai/v1/video/generations/jobs"
  +:+ "?api-version=preview reason: Unexpected token < in JSON at position 0".
Definition bad_gateway : response :=
  Response 502 "Bad Gateway" (inl not_json)
           (inr []).
Definition host_bad_gateway : Host :=
  sample_host (fun _ _ => Resolved bad_gateway) no_disk_error.
Definition body1 : generate_body :=
  GenerateBody (VStr "a cat on a skateboard") VUndef VUndef VUndef.

Definition gen1 : jsval := VStr "gen-1".
Definition one_generation : generations := GensArr [GenObj gen1].
Definition two_bytes : list Byte.byte := [Byte.x00; Byte.x01].

(** The job has succeeded and its content can be fetched. *)
Definition host_succeeded : Host :=
  sample_host (fun _ _ => answer 200 "succeeded" one_generation two_bytes)
              no_disk_error.
(** The job has failed; from moment 2 on (after a poller turn started in
    an empty trace has fetched and written) the upstream is down. *)
Definition host_failed_then_down : Host :=
  sample_host (fun t _ => if (t <? 2)%nat
                          then answer 200 "failed" GensUndef []
                          else Rejected "connect ECONNREFUSED")
              no_disk_error.
(** The job has succeeded, but what is asked at moments 1 and 2 (the two
    content candidates of a background flow started in an empty trace) is
    answered 404. *)
Definition host_content_missing : Host :=
  sample_host (fun t _ => if (t =? 1)%nat || (t =? 2)%nat
                          then answer 404 "succeeded" one_generation []
                          else answer 200 "succeeded" one_generation two_bytes)
              no_disk_error.
(** What is asked at moment 0 is answered 404; later answers deliver the
    bytes. *)
Definition host_second_candidate : Host :=
  sample_host (fun t _ => if (t =? 0)%nat
                          then answer 404 "succeeded" one_generation []
                          else answer 200 "succeeded" one_generation two_bytes)
              no_disk_error.

Definition job1 : jsval := VStr "job-1".
Definition w0 : World := mkWorld [] ∅ ∅.

(** ** src/server.js, first file: the streaming proxy *)

Module DirectProxy.

(** What [/proxy-video] does with [res]: it answers with JSON, or it
    sets headers and pipes the upstream body, whatever that yields. *)
Inductive proxied : Type :=
  | Answered (r : reply)
  | Piped (piped_headers : list (string * string))
          (stream : string + list Byte.byte).

Section Server.
Context (host : Host).

(** [app.get("/proxy-video", ...)], given [req.query.url] *)
Definition proxy_video (u : jsval) : M proxied :=
  try_catch
    (if negb (truthy u) then
       ret (Answered (res_status_json 400 [("error", VStr "URL parameter required")]))
     else
       let* response := fetch host (get host (ToString u)) in
       if negb (ok response) then
         throw ("Proxy fetch failed: " +:+ pretty (status response))
       else
         ret (Piped [("Content-Type", "video/mp4");
                     ("Cache-Control", "public, max-age=3600")]
                    (buffer response)))
    (fun _ =>
       ret (Answered (res_status_json 500 [("error", VStr "Video streaming failed")]))).
End Server.
End DirectProxy.

(** ** Further notions *)

(** An environment variable that is not set, or set to the empty string. *)
Definition unset (o : option string) : Prop := o = None \/ o = Some "".

(** [m] never lets an exception escape. *)
Definition never_throws {A} (m : M A) : Prop :=
  forall w, exists a, fst (m w) = Return a.

(** The time spent in pauses, in milliseconds. *)
Definition pause (e : event) : Z :=
  match e with ESleep ms => ms | _ => 0 end.
Definition total_pause (w : World) : Z :=
  foldr (fun e acc => pause e + acc) 0 (trace w).

(** The two shapes of a store entry. *)
Definition entry_shape (d : VideoData) : Prop :=
  d = failed_entry \/ exists g p, d = ready_entry g p.
Definition store_shapes (w : World) : Prop :=
  forall k d, videoStore w !! k = Some d -> entry_shape d.

(** The headers [/download-video] sets before sending [data]. *)
Definition download_headers (jobId : jsval) (data : list Byte.byte)
  : list (string * string) :=
  [("Content-Type", "video/mp4");
   ("Content-Disposition",
    "attachment; filename=" +:+ dquote +:+ "ai-video-" +:+ ToString jobId
      +:+ ".mp4" +:+ dquote);
   ("Content-Length", pretty (length data));
   ("Cache-Control", "no-cache")].

(** The reply of [/download-video] once the upstream has answered the
    content request with [a]. *)
Definition download_failed (message : string) : reply :=
  res_status_json 500 [("error", VStr ("Download failed: " +:+ message))].
Definition download_reply (jobId : jsval) (a : fetch_result) : reply :=
  match a with
  | Rejected message => download_failed message
  | Resolved r =>
      if ok r then
        match buffer r with
        | inl message => download_failed message
        | inr data => Reply 200 (download_headers jobId data) (Bytes data)
        end
      else download_failed ("Download failed with status: " +:+ pretty (status r))
  end.
Definition not_ready : reply :=
  res_status_json 404 [("error", VStr "Video not ready or not found")].

(** More sample hosts. *)
Definition host_unconfigured : Host :=
  mkHost (mkEnv None (Some "secret") None None None) "/app"
         (fun _ _ => Rejected "unreachable") no_disk_error
         (fun _ => "2025-01-01T00:00:00.000Z") (String.concat "/")
         (fun _ => "{}") (fun _ => "null").
Definition host_not_found : Host :=
  sample_host (fun _ _ => Resolved (Response 404 "Not Found" (inl "no body") (inl "no body")))
              no_disk_error.
Definition host_no_generation : Host :=
  sample_host (fun _ _ => answer 200 "succeeded" (GensArr []) []) no_disk_error.
Definition host_null_generation : Host :=
  sample_host (fun _ _ => answer 200 "succeeded" (GensArr [GenNull]) []) no_disk_error.


(** A world in which the video of [job1] is on disk. *)
Definition w_saved : World :=
  mkWorld [] ∅ {[ FileStore.videoPath host_failed job1 := two_bytes ]}.


(** A world in which the store holds a ready entry for [job1]. *)
Definition w_ready : World :=
  mkWorld [] {[ job1 := ready_entry gen1 (VStr "a cat on a skateboard") ]} ∅.

(** The status request for [job1] under [sample_env], and two answers. *)
Definition status_request1 : request :=
  Request "https://video.test/openai/v1/video/generations/jobs/job-1?api-version=preview"
          "GET" [("Api-key", VStr "secret")] None.
Definition not_found : response :=
  Response 404 "Not Found" (inl "no body") (inl "no body").
Definition failed_answer : response :=
  Response 200 "" (inr (JJob (sample_job "failed" GensUndef))) (inr []).

(** A submission whose [duration] is [null]. *)
Definition body_null_duration : generate_body :=
  GenerateBody (VStr "a cat on a skateboard") VUndef VNull VUndef.

(** A step of the third file's server that is a background flow. *)
Definition is_flow (o : FileStore.op) : bool :=
  match o with FileStore.Background _ _ => true | _ => false end.

(** The job has succeeded and its content can be fetched, but the disk
    refuses every write. *)
Definition host_disk_full : Host :=
  sample_host (fun _ _ => answer 200 "succeeded" one_generation two_bytes)
              (fun _ _ => Some "ENOSPC: no space left on device").
(** A response with status 200 whose body cannot be read. *)
Definition unreadable : response :=
  Response 200 "OK" (inl "Premature close") (inl "Premature close").
(** What is asked at moment 0 is answered by [unreadable]; later answers
    deliver the bytes. *)
Definition host_unreadable_first : Host :=
  sample_host (fun t _ => if (t =? 0)%nat
                          then Resolved unreadable
                          else answer 200 "succeeded" one_generation two_bytes)
              no_disk_error.
(** The answers to a status check used below. *)
Definition succeeded_answer : response :=
  Response 200 "" (inr (JJob (sample_job "succeeded" one_generation)))
           (inr two_bytes).

(** * Properties *)

(** ** The status tables *)

Lemma own_property_progress_unknown (s : string) :
  s ∉ known_statuses -> own_property progress s = None.
Proof.
  unfold known_statuses, progress. intros H. cbn [own_property].
  repeat match goal with
         | |- context [String.eqb ?a s] =>
             destruct (String.eqb_spec a s) as [<-|_];
             [exfalso; apply H; apply (bool_decide_unpack _); reflexivity|]
         end.
  reflexivity.
Qed.

Lemma own_property_messages_unknown (ready pending : string) (b : bool) (s : string) :
  s ∉ known_statuses -> own_property (messages ready pending b) s = None.
Proof.
  unfold known_statuses, messages. intros H. cbn [own_property].
  repeat match goal with
         | |- context [String.eqb ?a s] =>
             destruct (String.eqb_spec a s) as [<-|_];
             [exfalso; apply H; apply (bool_decide_unpack _); reflexivity|]
         end.
  reflexivity.
Qed.

(** Away from the names every object inherits, an unrecognized status
    string falls back to 10 and to "Status: <status>". *)
Lemma unrecognized_status_defaults (ready pending s : string) (videoReady : jsval) :
  s ∉ known_statuses ->
  Object_prototype s = VUndef ->
  getProgressFromStatus (VStr s) = VNum 10
  /\ statusMessage ready pending (VStr s) videoReady = VStr ("Status: " +:+ s).
Proof.
  intros Hs Hp. unfold getProgressFromStatus, statusMessage, js_get. simpl ToString.
  rewrite own_property_progress_unknown, own_property_messages_unknown, Hp by done.
  done.
Qed.

(** C8 (evaluated at the status string "constructor"): the string is in
    neither table, yet [getProgressFromStatus] returns the inherited
    function [Object] instead of 10, and [getStatusMessage] returns the
    same function in all three files instead of "Status: constructor";
    the reply of a status check then carries neither member. *)
Theorem unrecognized_status_inherited_member :
  ("constructor" ∉ known_statuses)
  /\ getProgressFromStatus (VStr "constructor") = VFun "Object"
  /\ (forall videoReady,
        Direct.getStatusMessage (VStr "constructor") videoReady = VFun "Object"
        /\ InMemory.getStatusMessage (VStr "constructor") videoReady = VFun "Object"
        /\ FileStore.getStatusMessage (VStr "constructor") videoReady = VFun "Object")
  /\ (forall fields,
        reported "progress"
          (res_json (("progress", getProgressFromStatus (VStr "constructor")) :: fields))
        = None).
Proof.
  split.
  { apply (bool_decide_unpack _). reflexivity. }
  split; [reflexivity|].
  split; [|reflexivity].
  intros v. destruct v as [| |[]| | | |]; repeat split.
Qed.

(** C9: the status 'failed' yields progress 10, because its table entry 0
    is falsy and the fallback of [||] replaces it; and no status at all
    (string or otherwise) yields progress 0. *)
Theorem failed_progress_is_10_never_0 :
  getProgressFromStatus (VStr "failed") = VNum 10
  /\ own_property progress "failed" = Some (VNum 0)
  /\ (forall s : string, getProgressFromStatus (VStr s) <> VNum 0)
  /\ (forall v : jsval, getProgressFromStatus v <> VNum 0).
Proof.
  assert (forall v : jsval, getProgressFromStatus v <> VNum 0) as H.
  { intros v. unfold getProgressFromStatus, js_or.
    destruct (truthy (js_get progress v)) eqn:E; [|discriminate].
    intros Heq. rewrite Heq in E. discriminate. }
  repeat split; auto.
Qed.

(** ** Requests refused before any effect *)

(** C6: a [/generate-video] request without a prompt (more generally,
    with a falsy one) is answered by exactly
    [{success:false, error:"Please provide a video prompt"}] in all three
    files, and the world is left as it was: no upstream request, no
    spawned task, no store or file access. *)
Theorem missing_prompt_refused (host : Host) (b : generate_body) (w : World) :
  truthy (req_prompt b) = false ->
  Direct.generate_video host b w = (Return (missing_prompt), w)
  /\ InMemory.generate_video host b w = (Return (missing_prompt), w)
  /\ FileStore.generate_video host b w = (Return (missing_prompt), w)
  /\ missing_prompt
     = Reply 200 [] (Json [("success", VBool false);
                           ("error", VStr "Please provide a video prompt")]).
Proof.
  intros H.
  unfold Direct.generate_video, InMemory.generate_video,
    FileStore.generate_video, try_catch.
  rewrite H. repeat split.
Qed.

(** C10: [GET /download-video] and [GET /get-video-info] without a
    [jobId] (more generally, with a falsy one) answer 400 with
    [{error:"Job ID is required"}], not 404, and perform no effect: the
    store is not read and no upstream request is made. *)
Theorem missing_job_id_is_400 (host : Host) (jobId : jsval) (w : World) :
  truthy jobId = false ->
  InMemory.download_video host jobId w = (Return InMemory.job_id_required, w)
  /\ InMemory.get_video_info jobId w = (Return InMemory.job_id_required, w)
  /\ InMemory.job_id_required
     = Reply 400 [] (Json [("error", VStr "Job ID is required")])
  /\ code InMemory.job_id_required <> 404.
Proof.
  intros H.
  unfold InMemory.download_video, InMemory.get_video_info, try_catch.
  rewrite H. repeat split. discriminate.
Qed.

(** ** The in-memory store: how the poller and the handlers run *)

Section InMemoryRuns.
Context (host : Host).
Import InMemory.

Lemma checkVideoStatus_run (j : jsval) (w : World) :
  checkVideoStatus host j w =
  match status_request host j with
  | None => (Return (StatusError (cannot_read "undefined" "replace")), w)
  | Some q =>
      let a := upstream host (length (trace w)) q in
      (Return (status_of a), record (EFetch q a) w)
  end.
Proof.
  unfold checkVideoStatus, status_request, baseEndpoint, try_catch, bind, throw, ret.
  destruct (AZURE_VIDEO_ENDPOINT (process_env host)) as [e|]; [|reflexivity].
  cbv zeta. unfold fetch, status_of, record.
  destruct (upstream host _ _) as [m|r]; [reflexivity|].
  destruct (negb (ok r)); [reflexivity|].
  unfold response_json, member, throw, ret.
  destruct (json r) as [m|[|jb]]; reflexivity.
Qed.

Lemma monitor_attempt_run (j : jsval) (w : World) :
  monitor_attempt host j w =
  match checkVideoStatus host j w with
  | (Return st, w1) => turn j st w1
  | (Throw _, w1) => (Return Continue, w1)
  end.
Proof.
  unfold monitor_attempt, try_catch, bind at 1.
  rewrite checkVideoStatus_run.
  destruct (status_request host j) as [q|]; [|reflexivity].
  cbv zeta. destruct (status_of _) as [s gens p|e]; [|reflexivity].
  unfold turn. destruct (strict_eq_str s "succeeded").
  - destruct gens as [| |[|[|g] l]]; reflexivity.
  - destruct (strict_eq_str s "failed"); reflexivity.
Qed.

Lemma monitor_attempt_effect (j : jsval) (w : World) :
  monitor_attempt host j w =
  match status_request host j with
  | None => (Return Continue, record (ESleep checkInterval) w)
  | Some q =>
      let a := upstream host (length (trace w)) q in
      turn j (status_of a) (record (EFetch q a) w)
  end.
Proof.
  rewrite monitor_attempt_run, checkVideoStatus_run.
  destruct (status_request host j); reflexivity.
Qed.

Lemma count_record (p : event -> bool) (e : event) (w : World) :
  count p (record e w) = (count p w + (if p e then 1 else 0))%nat.
Proof.
  unfold count, record. simpl. rewrite filter_cons.
  destruct (decide (p e = true)) as [H|H]; [rewrite H|destruct (p e); [done|]];
    simpl; lia.
Qed.

Lemma count_stored (p : event -> bool) (k : jsval) (v : VideoData) (w : World) :
  count p (stored k v w)
  = (count p w + (if p (EStoreSet k v) then 1 else 0))%nat.
Proof. apply (count_record p (EStoreSet k v) w). Qed.

(** What a turn adds to the trace and to the store. *)
Lemma turn_effect (j : jsval) (st : status_result) (w : World) :
  let w' := snd (turn j st w) in
  count is_fetch w' = count is_fetch w
  /\ (count is_store_set w' <= count is_store_set w + 1)%nat
  /\ files w' = files w
  /\ (forall k, k <> j -> videoStore w' !! k = videoStore w !! k)
  /\ (forall k, is_Some (videoStore w !! k) -> is_Some (videoStore w' !! k)).
Proof.
  destruct st as [s gens p|e]; simpl.
  - destruct (strict_eq_str s "succeeded").
    + destruct gens as [| |[|[|g] l]]; simpl;
        rewrite ?count_stored; simpl; repeat split; auto; try lia.
      * intros k Hk. by rewrite lookup_insert_ne.
      * intros k Hk. destruct (decide (j = k)) as [->|];
          [rewrite lookup_insert_eq|rewrite lookup_insert_ne]; eauto.
    + destruct (strict_eq_str s "failed"); simpl;
        rewrite ?count_stored, ?count_record; simpl; repeat split; auto; try lia.
      * intros k Hk. by rewrite lookup_insert_ne.
      * intros k Hk. destruct (decide (j = k)) as [->|];
          [rewrite lookup_insert_eq|rewrite lookup_insert_ne]; eauto.
  - rewrite !count_record; simpl; repeat split; auto; lia.
Qed.

Lemma turn_returns (j : jsval) (st : status_result) (w : World) :
  exists c, fst (turn j st w) = Return c
    /\ (c = Continue ->
        videoStore (snd (turn j st w)) = videoStore w
        /\ count is_store_set (snd (turn j st w)) = count is_store_set w).
Proof.
  destruct st as [s gens p|e]; simpl.
  - destruct (strict_eq_str s "succeeded").
    + destruct gens as [| |[|[|g] l]]; simpl; eexists; split; eauto; done.
    + destruct (strict_eq_str s "failed"); simpl; eexists; split; eauto;
        first [done|intros _; by rewrite count_record].
  - eexists; split; eauto.
Qed.

Lemma monitor_attempt_returns (j : jsval) (w : World) :
  exists c, fst (monitor_attempt host j w) = Return c
    /\ (c = Continue ->
        videoStore (snd (monitor_attempt host j w)) = videoStore w
        /\ count is_store_set (snd (monitor_attempt host j w)) = count is_store_set w).
Proof.
  rewrite monitor_attempt_effect.
  destruct (status_request host j) as [q|]; simpl.
  - destruct (turn_returns j (status_of (upstream host (length (trace w)) q))
                (record (EFetch q (upstream host (length (trace w)) q)) w))
      as (c & Hc & Hk).
    exists c. split; [done|]. intros Hcont. destruct (Hk Hcont) as [H1 H2].
    rewrite H1, H2, count_record. simpl. split; [done|lia].
  - exists Continue. split; [done|]. intros _. by rewrite count_record.
Qed.

Lemma monitor_attempt_frame (j : jsval) (w : World) :
  let w' := snd (monitor_attempt host j w) in
  (count is_fetch w' <= count is_fetch w + 1)%nat
  /\ (count is_store_set w' <= count is_store_set w + 1)%nat
  /\ files w' = files w
  /\ (forall k, k <> j -> videoStore w' !! k = videoStore w !! k)
  /\ (forall k, is_Some (videoStore w !! k) -> is_Some (videoStore w' !! k)).
Proof.
  rewrite monitor_attempt_effect.
  destruct (status_request host j) as [q|]; cbv zeta.
  - pose proof (turn_effect j (status_of (upstream host (length (trace w)) q))
                  (record (EFetch q (upstream host (length (trace w)) q)) w)) as H.
    cbv zeta in H. destruct H as (H1 & H2 & H3 & H4 & H5).
    rewrite H1, H3. rewrite !count_record in *. simpl in *.
    repeat split; auto; lia.
  - simpl. rewrite !count_record. simpl. repeat split; auto; lia.
Qed.

Lemma monitor_loop_S (j : jsval) (n : nat) (w : World) :
  monitor_loop host (S n) j w =
  match monitor_attempt host j w with
  | (Return Break, w1) => (Return tt, w1)
  | (Return Continue, w1) => monitor_loop host n j w1
  | (Throw e, w1) => (Throw e, w1)
  end.
Proof.
  cbn [monitor_loop]. unfold bind.
  destruct (monitor_attempt host j w) as [[[]|] ?]; reflexivity.
Qed.

Lemma monitor_loop_frame (j : jsval) (n : nat) (w : World) :
  let w' := snd (monitor_loop host n j w) in
  fst (monitor_loop host n j w) = Return tt
  /\ (count is_fetch w' <= count is_fetch w + n)%nat
  /\ (count is_store_set w' <= count is_store_set w + 1)%nat
  /\ files w' = files w
  /\ (forall k, k <> j -> videoStore w' !! k = videoStore w !! k)
  /\ (forall k, is_Some (videoStore w !! k) -> is_Some (videoStore w' !! k)).
Proof.
  revert w. induction n as [|n IH]; intros w; cbv zeta.
  - simpl. repeat split; auto; lia.
  - rewrite monitor_loop_S.
    destruct (monitor_attempt_returns j w) as (c & Hc & Hk).
    pose proof (monitor_attempt_frame j w) as Hf. cbv zeta in Hf.
    destruct (monitor_attempt host j w) as [o w1]. simpl in *. subst o.
    destruct Hf as (F1 & F2 & F3 & F4 & F5).
    destruct c.
    + simpl. repeat split; auto; lia.
    + destruct (Hk eq_refl) as [K1 K2].
      specialize (IH w1). cbv zeta in IH.
      destruct IH as (I0 & I1 & I2 & I3 & I4 & I5).
      repeat split; auto; try lia; try congruence.
      * intros k Hne. rewrite I4 by done. auto.
Qed.

Lemma answers_running_next (q : request) (start n : nat) :
  answers_running host q start (S n) ->
  answers_running host q (S (S start)) n.
Proof.
  intros H i Hi. destruct (H (S i)) as (r & jb & Hu & Hrest); [lia|].
  exists r, jb. split; [|done].
  by replace (S (S start) + 2 * i)%nat with (start + 2 * S i)%nat by lia.
Qed.

Lemma status_of_running (q : request) (start n : nat) :
  answers_running host q start (S n) ->
  exists gens p,
    status_of (upstream host start q) = StatusOk (VStr "running") gens p.
Proof.
  intros H. destruct (H 0%nat) as (r & jb & Hu & Hok & Hj & Hs); [lia|].
  rewrite Nat.add_0_r in Hu. rewrite Hu.
  unfold status_of. rewrite Hok, Hj, Hs. simpl. eauto.
Qed.

Lemma monitor_loop_running (j : jsval) (q : request) (n : nat) (w : World) :
  status_request host j = Some q ->
  answers_running host q (length (trace w)) n ->
  let w' := snd (monitor_loop host n j w) in
  videoStore w' = videoStore w
  /\ files w' = files w
  /\ count is_fetch w' = (count is_fetch w + n)%nat
  /\ count is_sleep w' = (count is_sleep w + n)%nat
  /\ count is_store_set w' = count is_store_set w.
Proof.
  intros Hq. revert w. induction n as [|n IH]; intros w Hrun; cbv zeta.
  - simpl. repeat split; lia.
  - rewrite monitor_loop_S, monitor_attempt_effect, Hq. cbv zeta.
    destruct (status_of_running q (length (trace w)) n Hrun) as (gens & p & ->).
    simpl. specialize (IH (record (ESleep checkInterval)
                             (record (EFetch q (upstream host (length (trace w)) q)) w))
                          (answers_running_next q _ n Hrun)).
    cbv zeta in IH. destruct IH as (I1 & I2 & I3 & I4 & I5).
    rewrite I1, I2, I3, I4, I5, !count_record. simpl. repeat split; lia.
Qed.

(** A turn whose status fetch fails is followed by the remaining turns. *)
Lemma monitor_loop_after_error (j : jsval) (n : nat) (w : World) (e : string) :
  fst (checkVideoStatus host j w) = Return (StatusError e) ->
  monitor_loop host (S n) j w
  = monitor_loop host n j
      (record (ESleep checkInterval) (snd (checkVideoStatus host j w))).
Proof.
  intros H. rewrite monitor_loop_S, monitor_attempt_run.
  destruct (checkVideoStatus host j w) as [o w1]. simpl in *. subst o.
  reflexivity.
Qed.
End InMemoryRuns.

(** ** The file store: how the waiting loop runs *)

Section FileStoreRuns.
Context (host : Host).
Import FileStore.

Lemma file_checkVideoStatus_run (j : jsval) (w : World) :
  checkVideoStatus host j w =
  match status_request host j with
  | None => (Return (StatusError (cannot_read "undefined" "replace")), w)
  | Some q =>
      let a := upstream host (length (trace w)) q in
      (Return (file_status_of a), record (EFetch q a) w)
  end.
Proof.
  unfold checkVideoStatus, status_request, baseEndpoint, try_catch, bind, throw, ret.
  destruct (AZURE_VIDEO_ENDPOINT (process_env host)) as [e|]; [|reflexivity].
  cbv zeta. unfold fetch, file_status_of, record.
  destruct (upstream host _ _) as [m|r]; [reflexivity|].
  destruct (negb (ok r)); [reflexivity|].
  unfold response_json, member, throw, ret.
  destruct (json r) as [m|[|jb]]; reflexivity.
Qed.

Lemma wait_attempt_run (j : jsval) (w : World) :
  wait_attempt host j w =
  match checkVideoStatus host j w with
  | (Return st, w1) => wait_turn st w1
  | (Throw _, w1) => (Return None, w1)
  end.
Proof.
  unfold wait_attempt, try_catch, bind at 1.
  rewrite file_checkVideoStatus_run.
  destruct (status_request host j) as [q|]; [|reflexivity].
  cbv zeta. destruct (file_status_of _) as [s g p c f|e]; [|reflexivity].
  unfold wait_turn. destruct (strict_eq_str s "succeeded"); [reflexivity|].
  destruct (strict_eq_str s "failed"); reflexivity.
Qed.

Lemma wait_attempt_effect (j : jsval) (w : World) :
  wait_attempt host j w =
  match status_request host j with
  | None => (Return None, record (ESleep checkInterval) w)
  | Some q =>
      let a := upstream host (length (trace w)) q in
      wait_turn (file_status_of a) (record (EFetch q a) w)
  end.
Proof.
  rewrite wait_attempt_run, file_checkVideoStatus_run.
  destruct (status_request host j); reflexivity.
Qed.

Lemma wait_loop_S (j : jsval) (n : nat) (w : World) :
  wait_loop host (S n) j w =
  match wait_attempt host j w with
  | (Return (Some result), w1) => (Return result, w1)
  | (Return None, w1) => wait_loop host n j w1
  | (Throw e, w1) => (Throw e, w1)
  end.
Proof.
  cbn [wait_loop]. unfold bind.
  destruct (wait_attempt host j w) as [[[]|] ?]; reflexivity.
Qed.

Lemma wait_turn_frame (st : status_result) (w : World) :
  let w' := snd (wait_turn st w) in
  (exists r, fst (wait_turn st w) = Return r)
  /\ count is_fetch w' = count is_fetch w
  /\ videoStore w' = videoStore w
  /\ files w' = files w.
Proof.
  destruct st as [s g p c f|e]; simpl.
  - destruct (strict_eq_str s "succeeded"); [simpl; eauto|].
    destruct (strict_eq_str s "failed"); simpl; eauto.
  - eauto.
Qed.

Lemma wait_attempt_frame (j : jsval) (w : World) :
  let w' := snd (wait_attempt host j w) in
  (exists r, fst (wait_attempt host j w) = Return r)
  /\ (count is_fetch w' <= count is_fetch w + 1)%nat
  /\ videoStore w' = videoStore w
  /\ files w' = files w.
Proof.
  rewrite wait_attempt_effect.
  destruct (status_request host j) as [q|]; cbv zeta.
  - pose proof (wait_turn_frame (file_status_of (upstream host (length (trace w)) q))
                  (record (EFetch q (upstream host (length (trace w)) q)) w)) as H.
    cbv zeta in H. destruct H as (H0 & H1 & H2 & H3).
    rewrite H1, H2, H3, count_record. simpl. repeat split; auto; lia.
  - simpl. rewrite count_record. simpl. repeat split; eauto; lia.
Qed.

Lemma wait_loop_frame (j : jsval) (n : nat) (w : World) :
  let w' := snd (wait_loop host n j w) in
  (exists r, fst (wait_loop host n j w) = Return r)
  /\ (count is_fetch w' <= count is_fetch w + n)%nat
  /\ videoStore w' = videoStore w
  /\ files w' = files w.
Proof.
  revert w. induction n as [|n IH]; intros w; cbv zeta.
  - simpl. repeat split; eauto; lia.
  - rewrite wait_loop_S.
    pose proof (wait_attempt_frame j w) as Hf. cbv zeta in Hf.
    destruct (wait_attempt host j w) as [o w1]. simpl in *.
    destruct Hf as ([r ->] & F1 & F2 & F3).
    destruct r as [result|].
    + simpl. repeat split; eauto; lia.
    + specialize (IH w1). cbv zeta in IH. destruct IH as (I0 & I1 & I2 & I3).
      repeat split; auto; try lia; congruence.
Qed.

Lemma file_status_of_running (q : request) (start n : nat) :
  answers_running host q start (S n) ->
  exists g p c f,
    file_status_of (upstream host start q) = StatusOk (VStr "running") g p c f.
Proof.
  intros H. destruct (H 0%nat) as (r & jb & Hu & Hok & Hj & Hs); [lia|].
  rewrite Nat.add_0_r in Hu. rewrite Hu.
  unfold file_status_of. rewrite Hok, Hj, Hs. simpl. eauto 6.
Qed.

Lemma wait_loop_running (j : jsval) (q : request) (n : nat) (w : World) :
  status_request host j = Some q ->
  answers_running host q (length (trace w)) n ->
  let w' := snd (wait_loop host n j w) in
  fst (wait_loop host n j w)
  = Return (WaitError "Video generation timeout after 10 minutes")
  /\ videoStore w' = videoStore w
  /\ files w' = files w
  /\ count is_fetch w' = (count is_fetch w + n)%nat
  /\ count is_sleep w' = (count is_sleep w + n)%nat
  /\ count is_write w' = count is_write w.
Proof.
  intros Hq. revert w. induction n as [|n IH]; intros w Hrun; cbv zeta.
  - simpl. repeat split; lia.
  - rewrite wait_loop_S, wait_attempt_effect, Hq. cbv zeta.
    destruct (file_status_of_running q (length (trace w)) n Hrun)
      as (g & p & c & f & ->).
    simpl. specialize (IH (record (ESleep checkInterval)
                             (record (EFetch q (upstream host (length (trace w)) q)) w))
                          (answers_running_next host q _ n Hrun)).
    cbv zeta in IH. destruct IH as (I0 & I1 & I2 & I3 & I4 & I5).
    rewrite I0, I1, I2, I3, I4, I5, !count_record. simpl. repeat split; lia.
Qed.

(** A turn whose status fetch fails is followed by the remaining turns. *)
Lemma wait_loop_after_error (j : jsval) (n : nat) (w : World) (e : string) :
  fst (checkVideoStatus host j w) = Return (StatusError e) ->
  wait_loop host (S n) j w
  = wait_loop host n j
      (record (ESleep checkInterval) (snd (checkVideoStatus host j w))).
Proof.
  intros H. rewrite wait_loop_S, wait_attempt_run.
  destruct (checkVideoStatus host j w) as [o w1]. simpl in *. subst o.
  reflexivity.
Qed.

Lemma processVideoInBackground_running (j p : jsval) (q : request) (w : World) :
  status_request host j = Some q ->
  answers_running host q (length (trace w)) maxAttempts ->
  let w' := snd (processVideoInBackground host j p w) in
  fst (processVideoInBackground host j p w) = Return tt
  /\ files w' = files w
  /\ count is_fetch w' = (count is_fetch w + 60)%nat
  /\ count is_write w' = count is_write w.
Proof.
  intros Hq Hrun. cbv zeta.
  pose proof (wait_loop_running j q maxAttempts w Hq Hrun) as H. cbv zeta in H.
  unfold processVideoInBackground, try_catch, bind, waitForVideoCompletion.
  destruct (wait_loop host maxAttempts j w) as [o w1]. simpl in H.
  destruct H as (-> & _ & H2 & H3 & _ & H5). simpl. auto.
Qed.
End FileStoreRuns.

(** ** The bounded polling loop *)

(** C1: the poller of the second file ([monitorVideoGeneration]) and the
    waiting loop of the third ([waitForVideoCompletion]) always come to an
    end having issued at most 60 status fetches; a turn whose fetch fails
    is followed by the remaining turns; and when each of the 60 turns
    observes 'running', exactly 60 fetches and 60 pauses happen and
    nothing is written: the store is unchanged with no write to it at
    all, the waiting loop reports its timeout and the background flow
    writes no file. *)
Theorem poller_bounded_by_60 (host : Host) (j : jsval) (w : World) :
  (* at most 60 status fetches, and the loop ends *)
  (fst (InMemory.monitorVideoGeneration host j w) = Return tt
   /\ (count is_fetch (snd (InMemory.monitorVideoGeneration host j w))
       <= count is_fetch w + 60)%nat)
  /\ ((exists r, fst (FileStore.waitForVideoCompletion host j w) = Return r)
      /\ (count is_fetch (snd (FileStore.waitForVideoCompletion host j w))
          <= count is_fetch w + 60)%nat)
  (* a failed status fetch does not end the loop *)
  /\ (forall n e,
        fst (InMemory.checkVideoStatus host j w) = Return (InMemory.StatusError e) ->
        InMemory.monitor_loop host (S n) j w
        = InMemory.monitor_loop host n j
            (record (ESleep checkInterval) (snd (InMemory.checkVideoStatus host j w))))
  /\ (forall n e,
        fst (FileStore.checkVideoStatus host j w) = Return (FileStore.StatusError e) ->
        FileStore.wait_loop host (S n) j w
        = FileStore.wait_loop host n j
            (record (ESleep checkInterval) (snd (FileStore.checkVideoStatus host j w))))
  (* sixty observations of 'running' *)
  /\ (forall q,
        status_request host j = Some q ->
        answers_running host q (length (trace w)) 60 ->
        (let w' := snd (InMemory.monitorVideoGeneration host j w) in
         videoStore w' = videoStore w
         /\ count is_store_set w' = count is_store_set w
         /\ count is_fetch w' = (count is_fetch w + 60)%nat
         /\ count is_sleep w' = (count is_sleep w + 60)%nat)
        /\ (let w' := snd (FileStore.waitForVideoCompletion host j w) in
            fst (FileStore.waitForVideoCompletion host j w)
            = Return (FileStore.WaitError "Video generation timeout after 10 minutes")
            /\ files w' = files w
            /\ count is_fetch w' = (count is_fetch w + 60)%nat
            /\ count is_sleep w' = (count is_sleep w + 60)%nat)
        /\ (forall p,
              let w' := snd (FileStore.processVideoInBackground host j p w) in
              files w' = files w /\ count is_write w' = count is_write w)).
Proof.
  split; [|split; [|split; [|split]]].
  - pose proof (monitor_loop_frame host j maxAttempts w) as H. cbv zeta in H.
    unfold InMemory.monitorVideoGeneration. tauto.
  - pose proof (wait_loop_frame host j maxAttempts w) as H. cbv zeta in H.
    unfold FileStore.waitForVideoCompletion. tauto.
  - intros n e. apply monitor_loop_after_error.
  - intros n e. apply wait_loop_after_error.
  - intros q Hq Hrun. split; [|split].
    + pose proof (monitor_loop_running host j q maxAttempts w Hq Hrun) as H.
      cbv zeta in *. unfold InMemory.monitorVideoGeneration. tauto.
    + pose proof (wait_loop_running host j q maxAttempts w Hq Hrun) as H.
      cbv zeta in *. unfold FileStore.waitForVideoCompletion. tauto.
    + intros p.
      pose proof (processVideoInBackground_running host j p q w Hq Hrun) as H.
      cbv zeta in *. tauto.
Qed.

Lemma poller_bounded_by_60_witness :
  (status_request host_running job1
   = Some (get host_running (statusEndpoint host_running "https://video.test" job1))
   /\ answers_running host_running
        (get host_running (statusEndpoint host_running "https://video.test" job1))
        (length (trace w0)) 60
   /\ (let w' := snd (InMemory.monitorVideoGeneration host_running job1 w0) in
       videoStore w' = videoStore w0
       /\ count is_store_set w' = count is_store_set w0
       /\ count is_fetch w' = (count is_fetch w0 + 60)%nat
       /\ count is_sleep w' = (count is_sleep w0 + 60)%nat)
   /\ (let w' := snd (FileStore.waitForVideoCompletion host_running job1 w0) in
       fst (FileStore.waitForVideoCompletion host_running job1 w0)
       = Return (FileStore.WaitError "Video generation timeout after 10 minutes")
       /\ files w' = files w0
       /\ count is_fetch w' = (count is_fetch w0 + 60)%nat
       /\ count is_sleep w' = (count is_sleep w0 + 60)%nat))
  /\ (fst (InMemory.checkVideoStatus host_down job1 w0)
      = Return (InMemory.StatusError "connect ECONNREFUSED")
      /\ InMemory.monitor_loop host_down 1 job1 w0
         = InMemory.monitor_loop host_down 0 job1
             (record (ESleep checkInterval)
                (snd (InMemory.checkVideoStatus host_down job1 w0))))
  /\ (fst (FileStore.checkVideoStatus host_down job1 w0)
      = Return (FileStore.StatusError "connect ECONNREFUSED")
      /\ FileStore.wait_loop host_down 1 job1 w0
         = FileStore.wait_loop host_down 0 job1
             (record (ESleep checkInterval)
                (snd (FileStore.checkVideoStatus host_down job1 w0)))).
Proof.
  assert (answers_running host_running
            (get host_running (statusEndpoint host_running "https://video.test" job1))
            (length (trace w0)) 60) as Hrun.
  { intros i Hi. eexists _, _. repeat split. }
  split; [|split].
  - split; [reflexivity|]. split; [exact Hrun|].
    destruct (poller_bounded_by_60 host_running job1 w0) as (_ & _ & _ & _ & H).
    destruct (H _ eq_refl Hrun) as (HB & HC & _). exact (conj HB HC).
  - split; [reflexivity|].
    destruct (poller_bounded_by_60 host_down job1 w0) as (_ & _ & H & _).
    exact (H 0%nat "connect ECONNREFUSED" eq_refl).
  - split; [reflexivity|].
    destruct (poller_bounded_by_60 host_down job1 w0) as (_ & _ & _ & H & _).
    exact (H 0%nat "connect ECONNREFUSED" eq_refl).
Defined.

(** With a job id that the store does not hold, both handlers answer 404
    after one look into the store. *)
Lemma absent_job_is_404 (host : Host) (jobId : jsval) (w : World) :
  truthy jobId = true ->
  videoStore w !! jobId = None ->
  InMemory.download_video host jobId w
  = (Return (res_status_json 404 [("error", VStr "Video not ready or not found")]),
     record (EStoreGet jobId) w)
  /\ InMemory.get_video_info jobId w
     = (Return (res_status_json 404 [("error", VStr "Video data not found")]),
        record (EStoreGet jobId) w).
Proof.
  intros Hj Hs.
  unfold InMemory.download_video, InMemory.get_video_info, try_catch, bind,
    storeGet, ret.
  rewrite Hj. cbn [negb]. cbv beta iota. rewrite Hs. by split.
Qed.

Lemma missing_prompt_refused_witness :
  InMemory.generate_video host_running (GenerateBody VUndef VUndef VUndef VUndef) w0
  = (Return missing_prompt, w0).
Proof.
  exact (proj1 (proj2 (missing_prompt_refused host_running
                         (GenerateBody VUndef VUndef VUndef VUndef) w0 eq_refl))).
Defined.

Lemma missing_job_id_is_400_witness :
  InMemory.download_video host_running VUndef w0
  = (Return InMemory.job_id_required, w0).
Proof.
  exact (proj1 (missing_job_id_is_400 host_running VUndef w0 eq_refl)).
Defined.

(** ** Submission *)

Lemma new_events (evs : list event) (w : World) :
  take (length (evs ++ trace w)%list - length (trace w)) (evs ++ trace w)%list = evs.
Proof.
  rewrite length_app.
  replace (length evs + length (trace w) - length (trace w))%nat
    with (length evs) by lia.
  by rewrite take_app_length.
Qed.

Lemma events_of_eq {A} (m : M A) (w : World) (evs : list event) :
  trace (snd (m w)) = (evs ++ trace w)%list -> events_of m w = evs.
Proof. intros H. unfold events_of. rewrite H. apply new_events. Qed.

Ltac run :=
  cbv beta iota zeta delta
    [ret throw bind try_catch fetch response_json response_buffer member
     baseEndpoint emit spawn sleep fst snd].

Section Submission.
Context (host : Host).

Lemma direct_generate_video_run (b : generate_body) (w : World) :
  events_of (Direct.generate_video host b) w = []
  \/ exists q,
      let a := upstream host (length (trace w)) q in
      fst (Direct.generate_video host b w)
      = Return (submission_reply host "Video service error: "
                  "Video will be ready in 2-5 minutes." a)
      /\ events_of (Direct.generate_video host b) w = [EFetch q a].
Proof.
  unfold events_of, Direct.generate_video, endpoint, key, submission_reply. run.
  destruct (negb (truthy (req_prompt b))); run.
  { left. apply (new_events [] w). }
  destruct (_ || _); run.
  { left. apply (new_events [] w). }
  destruct (AZURE_VIDEO_ENDPOINT (process_env host)) as [e|]; run.
  2:{ left. apply (new_events [] w). }
  right. match goal with |- context [upstream host _ ?q] => exists q end. run.
  destruct (upstream host _ _) as [m|r]; run.
  { split; [reflexivity|]. apply (new_events [_] w). }
  destruct (json r) as [m|data]; run.
  { split; [reflexivity|]. apply (new_events [_] w). }
  destruct ((status r =? 201) || (status r =? 202)); run.
  - destruct data; run; (split; [reflexivity|]); apply (new_events [_] w).
  - split; [reflexivity|]. apply (new_events [_] w).
Qed.

Lemma memory_generate_video_run (b : generate_body) (w : World) :
  events_of (InMemory.generate_video host b) w = []
  \/ exists q,
      let a := upstream host (length (trace w)) q in
      fst (InMemory.generate_video host b w)
      = Return (submission_reply host "Video service error: "
                  "Video will be ready in 2-5 minutes." a)
      /\ events_of (InMemory.generate_video host b) w
         = submission_events q a monitorVideoGeneration_task.
Proof.
  unfold events_of, InMemory.generate_video, endpoint, key, submission_reply,
    submission_events, accepted_id. run.
  destruct (negb (truthy (req_prompt b))); run.
  { left. apply (new_events [] w). }
  destruct (_ || _); run.
  { left. apply (new_events [] w). }
  destruct (AZURE_VIDEO_ENDPOINT (process_env host)) as [e|]; run.
  2:{ left. apply (new_events [] w). }
  unfold InMemory.toString.
  destruct (default_to (VStr "5") (req_duration b)); run;
    try (left; apply (new_events [] w));
    (right; match goal with |- context [upstream host _ ?q] => exists q end; run;
     destruct (upstream host _ _) as [m|r]; run;
       [split; [reflexivity|]; apply (new_events [_] w)|];
     destruct (json r) as [m|data]; run;
       [split; [reflexivity|]; apply (new_events [_] w)|];
     destruct ((status r =? 201) || (status r =? 202)); run;
       [destruct data; run; (split; [reflexivity|]);
          [apply (new_events [_] w)|apply (new_events [_; _] w)]
       |split; [reflexivity|]; destruct data; apply (new_events [_] w)]).
Qed.

Lemma file_generate_video_run (b : generate_body) (w : World) :
  events_of (FileStore.generate_video host b) w = []
  \/ exists q,
      let a := upstream host (length (trace w)) q in
      fst (FileStore.generate_video host b w)
      = Return (submission_reply host "Azure API error: "
                  "Video will be ready in 2-5 minutes. Please check status periodically."
                  a)
      /\ events_of (FileStore.generate_video host b) w
         = submission_events q a
             (fun id => processVideoInBackground_task id (req_prompt b)).
Proof.
  unfold events_of, FileStore.generate_video, endpoint, key, submission_reply,
    submission_events, accepted_id. run.
  destruct (negb (truthy (req_prompt b))); run.
  { left. apply (new_events [] w). }
  destruct (_ || _); run.
  { left. apply (new_events [] w). }
  destruct (AZURE_VIDEO_ENDPOINT (process_env host)) as [e|]; run.
  2:{ left. apply (new_events [] w). }
  right. match goal with |- context [upstream host _ ?q] => exists q end. run.
  destruct (upstream host _ _) as [m|r]; run.
  { split; [reflexivity|]. apply (new_events [_] w). }
  destruct (json r) as [m|data]; run.
  { split; [reflexivity|]. apply (new_events [_] w). }
  destruct ((status r =? 201) || (status r =? 202)); run.
  - destruct data; run; (split; [reflexivity|]);
      [apply (new_events [_] w)|apply (new_events [_; _] w)].
  - split; [reflexivity|]. destruct data; apply (new_events [_] w).
Qed.

Lemma fetch_in_submission_events (q q0 : request) (a a0 : fetch_result)
    (t : jsval -> task) :
  EFetch q a ∈ submission_events q0 a0 t -> a = a0.
Proof.
  unfold submission_events. destruct (accepted_id a0); intros H.
  - apply elem_of_cons in H as [H|H]; [discriminate|].
    apply list_elem_of_singleton in H. congruence.
  - apply list_elem_of_singleton in H. congruence.
Qed.
End Submission.

Lemma prefix_app (n b : string) : String.prefix n (n +:+ b) = true.
Proof.
  induction n as [|c n IH]; simpl; [by destruct b|].
  destruct (Ascii.ascii_dec c c); [exact IH|congruence].
Qed.

Lemma prefix_refl (n : string) : String.prefix n n = true.
Proof.
  induction n as [|c n IH]; simpl; [done|].
  destruct (Ascii.ascii_dec c c); [exact IH|congruence].
Qed.

Lemma contains_unfold (n h : string) :
  contains n h
  = String.prefix n h
    || match h with "" => false | String _ rest => contains n rest end.
Proof. destruct h; reflexivity. Qed.

Lemma contains_here (n h : string) :
  String.prefix n h = true -> contains n h = true.
Proof. intros H. by rewrite contains_unfold, H. Qed.

Lemma contains_skip (n a h : string) :
  contains n h = true -> contains n (a +:+ h) = true.
Proof.
  intros H. induction a as [|c a IH]; [done|].
  change (String c a +:+ h) with (String c (a +:+ h)).
  rewrite contains_unfold, IH. apply orb_true_r.
Qed.

Lemma submission_reply_contract (host : Host) (prefix note : string) (r : response) :
  submission_contract host prefix note r
    (Return (submission_reply host prefix note (Resolved r))).
Proof.
  unfold submission_contract, submission_reply. split; [|split].
  - intros jb Hs ->.
    replace ((status r =? 201) || (status r =? 202)) with true; [done|].
    symmetry. destruct Hs as [->| ->]; reflexivity.
  - intros data H1 H2 ->.
    replace ((status r =? 201) || (status r =? 202)) with false.
    2:{ symmetry. apply orb_false_iff. split; by apply Z.eqb_neq. }
    split; [done|]. split.
    + apply (contains_skip _ "Video generation failed: "), contains_skip,
        contains_here, prefix_app.
    + apply (contains_skip _ "Video generation failed: ").
      do 3 apply contains_skip. apply contains_here, prefix_refl.
  - by intros message ->.
Qed.

(** C5, as the code has it: once the upstream has answered a submission,
    (1) status 201 or 202 with a job body gives
    [{success:true, jobId, status, message, note}] with the body's id and
    status; (2) any other status with a body that parses as JSON gives
    [{success:false, error}] whose text contains the status code and the
    serialized body; (3) a body that does not parse gives
    [{success:false, error}] carrying the parser's message, whatever the
    status.  This holds in all three files. *)
Theorem submission_reply_by_status (host : Host) (b : generate_body) (w : World)
    (q : request) (r : response) :
  (EFetch q (Resolved r) ∈ events_of (Direct.generate_video host b) w ->
   submission_contract host "Video service error: "
     "Video will be ready in 2-5 minutes." r
     (fst (Direct.generate_video host b w)))
  /\ (EFetch q (Resolved r) ∈ events_of (InMemory.generate_video host b) w ->
      submission_contract host "Video service error: "
        "Video will be ready in 2-5 minutes." r
        (fst (InMemory.generate_video host b w)))
  /\ (EFetch q (Resolved r) ∈ events_of (FileStore.generate_video host b) w ->
      submission_contract host "Azure API error: "
        "Video will be ready in 2-5 minutes. Please check status periodically." r
        (fst (FileStore.generate_video host b w))).
Proof.
  split; [|split]; intros H.
  - destruct (direct_generate_video_run host b w) as [E|(q0 & E1 & E2)].
    + rewrite E in H. by apply elem_of_nil in H.
    + cbv zeta in *. rewrite E2 in H. apply list_elem_of_singleton in H.
      rewrite E1. injection H as _ <-. apply submission_reply_contract.
  - destruct (memory_generate_video_run host b w) as [E|(q0 & E1 & E2)].
    + rewrite E in H. by apply elem_of_nil in H.
    + cbv zeta in *. rewrite E2 in H. apply fetch_in_submission_events in H.
      rewrite E1, <- H. apply submission_reply_contract.
  - destruct (file_generate_video_run host b w) as [E|(q0 & E1 & E2)].
    + rewrite E in H. by apply elem_of_nil in H.
    + cbv zeta in *. rewrite E2 in H. apply fetch_in_submission_events in H.
      rewrite E1, <- H. apply submission_reply_contract.
Qed.

(** C5 fails as stated: behind a gateway that answers 502 with a page that
    is not JSON, the reply's error text is the parser's message and does
    not contain the status code. *)
Lemma refusal_without_status_code :
  (exists q, events_of (Direct.generate_video host_bad_gateway body1) w0
             = [EFetch q (Resolved bad_gateway)])
  /\ status bad_gateway = 502
  /\ fst (Direct.generate_video host_bad_gateway body1 w0)
     = Return (res_json
                 [("success", VBool false);
                  ("error", VStr ("Video generation failed: " +:+ not_json))])
  /\ contains (pretty (status bad_gateway))
       ("Video generation failed: " +:+ not_json) = false.
Proof. split; [eexists; reflexivity|]. repeat split. Qed.

Lemma submission_reply_by_status_witness :
  fst (InMemory.generate_video host_accepted body1 w0)
  = Return (res_json [("success", VBool true);
                      ("jobId", VStr "job-1");
                      ("status", VStr "queued");
                      ("message", VStr "Video generation started successfully!");
                      ("note", VStr "Video will be ready in 2-5 minutes.")])
  /\ fst (Direct.generate_video host_rejected body1 w0)
     = Return (res_json
                 [("success", VBool false);
                  ("error", VStr "Video generation failed: Video service error: 500 - {id:job-1}")])
  /\ fst (FileStore.generate_video host_bad_gateway body1 w0)
     = Return (res_json
                 [("success", VBool false);
                  ("error", VStr ("Video generation failed: " +:+ not_json))]).
Proof.
  split; [|split].
  - pose proof (submission_reply_by_status host_accepted body1 w0
                  (submit host_accepted "https://video.test"
                     (InMemory.requestBody (VStr "a cat on a skateboard")
                        (VStr "720") "5"))
                  (Response 202 "" (inr (JJob (sample_job "queued" GensUndef)))
                     (inr []))) as (_ & H & _).
    destruct H as (H & _ & _).
    + vm_compute. apply list_elem_of_further, list_elem_of_here.
    + exact (H _ (or_intror eq_refl) eq_refl).
  - pose proof (submission_reply_by_status host_rejected body1 w0
                  (submit host_rejected "https://video.test"
                     (requestBody (VStr "sora-2025-05-02")
                        (VStr "a cat on a skateboard")))
                  (Response 500 "" (inr (JJob (sample_job "error" GensUndef)))
                     (inr []))) as (H & _ & _).
    destruct H as (_ & H & _).
    + vm_compute. apply list_elem_of_here.
    + refine (proj1 (H _ _ _ eq_refl)); discriminate.
  - pose proof (submission_reply_by_status host_bad_gateway body1 w0
                  (submit host_bad_gateway "https://video.test"
                     (requestBody (VStr "sora-2025-05-02")
                        (VStr "a cat on a skateboard")))
                  bad_gateway) as (_ & _ & H).
    destruct H as (_ & _ & H).
    + vm_compute. apply list_elem_of_here.
    + exact (H _ eq_refl).
Defined.

(** ** Content download *)

Section Download.
Context (host : Host).
Import FileStore.

Lemma download_loop_cons (c : string) (rest : list string) (w : World) :
  download_loop host (c :: rest) w =
  let a := upstream host (length (trace w)) (get host c) in
  match candidate_bytes a with
  | Some data => (Return (Some data), record (EFetch (get host c) a) w)
  | None => download_loop host rest (record (EFetch (get host c) a) w)
  end.
Proof.
  cbn [download_loop]. unfold candidate_bytes, record. run.
  destruct (upstream host _ _) as [m|r]; run; [reflexivity|].
  destruct (ok r); run; [|reflexivity].
  destruct (buffer r); reflexivity.
Qed.

Lemma download_loop_run (cands : list string) (w : World) :
  exists evs o,
    download_loop host cands w
    = (Return o, mkWorld (rev evs ++ trace w)%list (videoStore w) (files w))
    /\ tried_in_order (map (get host) cands) evs o.
Proof.
  revert w. induction cands as [|c rest IH]; intros w.
  - exists [], None. split; [by destruct w|constructor].
  - rewrite download_loop_cons. cbv zeta.
    destruct (candidate_bytes _) as [data|] eqn:E.
    + eexists [_], (Some data). split; [reflexivity|]. by constructor.
    + destruct (IH (record (EFetch (get host c)
                          (upstream host (length (trace w)) (get host c))) w))
        as (evs & o & -> & Ht).
      eexists (_ :: evs), o. split; [|by constructor].
      simpl. by rewrite <- app_assoc.
Qed.

Lemma saveVideoToStorage_run (j : jsval) (data : list Byte.byte) (w : World) :
  saveVideoToStorage host j data w =
  let error := writeFile_error host (length (trace w)) (videoPath host j) in
  (Return tt,
   mkWorld (EWriteFile (videoPath host j) data error :: trace w) (videoStore w)
           (match error with
            | None => <[videoPath host j := data]> (files w)
            | Some _ => files w
            end)).
Proof.
  unfold saveVideoToStorage, writeFile, videoPath. run.
  destruct (writeFile_error host _ _); reflexivity.
Qed.

Lemma tried_in_order_none (qs : list request) (evs : list event) :
  tried_in_order qs evs None -> Forall2 fruitless qs evs.
Proof.
  intros H. remember None as o eqn:Ho. induction H; try discriminate.
  - constructor.
  - constructor; [by eexists|auto].
Qed.

Lemma tried_in_order_some (qs : list request) (evs : list event)
    (data : list Byte.byte) :
  tried_in_order qs evs (Some data) ->
  exists before q a after,
    qs = (before ++ q :: after)%list
    /\ candidate_bytes a = Some data
    /\ exists misses, evs = (misses ++ [EFetch q a])%list
                      /\ Forall2 fruitless before misses.
Proof.
  intros H. remember (Some data) as o eqn:Ho. induction H; try discriminate.
  - injection Ho as ->. exists [], q, a, qs. repeat split; auto.
    exists []. split; [done|constructor].
  - destruct (IHtried_in_order Ho) as (before & q' & a' & after & -> & Hc & ms & -> & Hf).
    exists (q :: before), q', a', after. repeat split; auto.
    exists (EFetch q a :: ms). split; [done|]. constructor; [by eexists|done].
Qed.
End Download.

(** ** What a computation leaves untouched

    The combinators of [M] and the effects that only add to the trace
    preserve every reflexive and transitive relation between worlds that
    adding an event respects. *)

Create HintDb preserve discriminated.

Section Preservation.
Context (host : Host) (R : World -> World -> Prop).
Context (R_refl : forall w, R w w).
Context (R_trans : forall w1 w2 w3, R w1 w2 -> R w2 w3 -> R w1 w3).
Context (R_record : forall e w, R w (record e w)).

Lemma preserves_ret {A} (a : A) : preserves R (ret a).
Proof. intros w. apply R_refl. Qed.

Lemma preserves_throw {A} (e : string) : preserves R (@throw A e).
Proof. intros w. apply R_refl. Qed.

Lemma preserves_bind {A B} (m : M A) (k : A -> M B) :
  preserves R m -> (forall a, preserves R (k a)) -> preserves R (bind m k).
Proof.
  intros Hm Hk w. unfold bind. specialize (Hm w).
  destruct (m w) as [[a|e] w1]; simpl in *; [|done].
  eapply R_trans; [exact Hm|apply Hk].
Qed.

Lemma preserves_try_catch {A} (m : M A) (h : string -> M A) :
  preserves R m -> (forall e, preserves R (h e)) -> preserves R (try_catch m h).
Proof.
  intros Hm Hh w. unfold try_catch. specialize (Hm w).
  destruct (m w) as [[a|e] w1]; simpl in *; [done|].
  eapply R_trans; [exact Hm|apply Hh].
Qed.

Lemma preserves_emit (e : event) : preserves R (emit e).
Proof. intros w. apply R_record. Qed.

Lemma preserves_fetch (q : request) : preserves R (fetch host q).
Proof.
  intros w. unfold fetch.
  destruct (upstream host _ _); apply (R_record (EFetch q _) w).
Qed.

Lemma preserves_storeGet (k : jsval) : preserves R (storeGet k).
Proof. intros w. apply (R_record (EStoreGet k) w). Qed.

Lemma preserves_storeSize : preserves R storeSize.
Proof. intros w. apply (R_record EStoreSize w). Qed.

Lemma preserves_existsSync (p : string) : preserves R (existsSync p).
Proof. intros w. apply (R_record (EExistsSync p) w). Qed.

Lemma preserves_now : preserves R (now host).
Proof. intros w. apply (R_record EClock w). Qed.

Lemma preserves_response_json (r : response) : preserves R (response_json r).
Proof. unfold response_json. destruct (json r); intros w; apply R_refl. Qed.

Lemma preserves_response_buffer (r : response) : preserves R (response_buffer r).
Proof. unfold response_buffer. destruct (buffer r); intros w; apply R_refl. Qed.

Lemma preserves_member (d : json_body) (n : string) (f : job -> jsval) :
  preserves R (member d n f).
Proof. destruct d; intros w; apply R_refl. Qed.

Lemma preserves_baseEndpoint : preserves R (baseEndpoint host).
Proof.
  unfold baseEndpoint. destruct (AZURE_VIDEO_ENDPOINT _); intros w; apply R_refl.
Qed.

Lemma preserves_toString (v : jsval) : preserves R (InMemory.toString v).
Proof. destruct v; intros w; apply R_refl. Qed.

Lemma preserves_if {A} (c : bool) (m1 m2 : M A) :
  preserves R m1 -> preserves R m2 -> preserves R (if c then m1 else m2).
Proof. by destruct c. Qed.

Hint Resolve preserves_ret preserves_throw preserves_emit preserves_fetch
  preserves_storeGet preserves_storeSize preserves_existsSync preserves_now
  preserves_response_json preserves_response_buffer preserves_member
  preserves_baseEndpoint preserves_toString : preserve.

Ltac preserve :=
  repeat first
    [ progress intros
    | solve [auto with preserve]
    | apply preserves_try_catch
    | apply preserves_bind
    | apply preserves_if
    | match goal with
      | |- preserves _ (match ?x with _ => _ end) => destruct x
      end ].

Lemma preserves_memory_generate_video (b : generate_body) :
  preserves R (InMemory.generate_video host b).
Proof. unfold InMemory.generate_video, spawn, sleep. preserve. Qed.

Lemma preserves_memory_checkVideoStatus (j : jsval) :
  preserves R (InMemory.checkVideoStatus host j).
Proof. unfold InMemory.checkVideoStatus. preserve. Qed.

Lemma preserves_memory_check_video_status (j : jsval) :
  preserves R (InMemory.check_video_status host j).
Proof.
  unfold InMemory.check_video_status. 
  pose proof preserves_memory_checkVideoStatus. preserve.
Qed.

Lemma preserves_download_video (j : jsval) :
  preserves R (InMemory.download_video host j).
Proof. unfold InMemory.download_video. preserve. Qed.

Lemma preserves_get_video_info (j : jsval) :
  preserves R (InMemory.get_video_info j).
Proof. unfold InMemory.get_video_info. preserve. Qed.

Lemma preserves_memory_health : preserves R (InMemory.health host).
Proof. unfold InMemory.health. preserve. Qed.

Section WithWrites.
Context (R_write : forall p d w,
            R w (mkWorld (EWriteFile p d None :: trace w) (videoStore w)
                         (<[p := d]> (files w)))).

Lemma preserves_writeFile (p : string) (d : list Byte.byte) :
  preserves R (writeFile host p d).
Proof.
  intros w. unfold writeFile.
  destruct (writeFile_error host _ _) as [m|]; simpl.
  - apply (R_record (EWriteFile p d (Some m)) w).
  - apply R_write.
Qed.

Lemma preserves_file_checkVideoStatus (j : jsval) :
  preserves R (FileStore.checkVideoStatus host j).
Proof. unfold FileStore.checkVideoStatus. preserve. Qed.

Lemma preserves_wait_loop (n : nat) (j : jsval) :
  preserves R (FileStore.wait_loop host n j).
Proof.
  induction n as [|n IH]; cbn [FileStore.wait_loop]; [preserve|].
  pose proof preserves_file_checkVideoStatus.
  unfold FileStore.wait_attempt, sleep. preserve.
Qed.

Lemma preserves_download_loop (cands : list string) :
  preserves R (FileStore.download_loop host cands).
Proof. induction cands as [|c rest IH]; cbn [FileStore.download_loop]; preserve. Qed.

Lemma preserves_processVideoInBackground (j p : jsval) :
  preserves R (FileStore.processVideoInBackground host j p).
Proof.
  pose proof preserves_wait_loop. pose proof preserves_download_loop.
  pose proof preserves_writeFile.
  unfold FileStore.processVideoInBackground, FileStore.waitForVideoCompletion,
    FileStore.downloadAndSaveVideo, FileStore.saveVideoToStorage.
  preserve.
Qed.

Lemma preserves_file_generate_video (b : generate_body) :
  preserves R (FileStore.generate_video host b).
Proof. unfold FileStore.generate_video, spawn. preserve. Qed.

Lemma preserves_file_check_video_status (j : jsval) :
  preserves R (FileStore.check_video_status host j).
Proof.
  pose proof preserves_file_checkVideoStatus.
  unfold FileStore.check_video_status. preserve.
Qed.

Lemma preserves_file_health : preserves R (FileStore.health host).
Proof. unfold FileStore.health. preserve. Qed.

Lemma preserves_file_step (o : FileStore.op) (w : World) :
  R w (FileStore.step host o w).
Proof.
  destruct o; simpl.
  - apply preserves_file_generate_video.
  - apply preserves_file_check_video_status.
  - apply preserves_file_health.
  - apply preserves_processVideoInBackground.
Qed.

Lemma preserves_file_steps (os : list FileStore.op) (w : World) :
  R w (FileStore.steps host os w).
Proof.
  revert w. induction os as [|o os IH]; intros w; simpl; [apply R_refl|].
  eapply R_trans; [apply preserves_file_step|apply IH].
Qed.
End WithWrites.
End Preservation.

(** ** The in-memory store as a running system *)

Section InMemorySystem.
Context (host : Host).
Import InMemory.

Lemma same_state_refl (w : World) : same_state w w.
Proof. by split. Qed.

Lemma same_state_trans (w1 w2 w3 : World) :
  same_state w1 w2 -> same_state w2 w3 -> same_state w1 w3.
Proof. intros [? ?] [? ?]. split; congruence. Qed.

Lemma same_state_record (e : event) (w : World) : same_state w (record e w).
Proof. by split. Qed.

Lemma handler_same_state (o : op) (w : World) :
  poller_of o = None -> same_state w (step host o w).
Proof.
  pose proof same_state_refl. pose proof same_state_trans.
  pose proof same_state_record.
  destruct o; simpl; try discriminate; intros _; unfold after.
  - by apply preserves_memory_generate_video.
  - by apply preserves_memory_check_video_status.
  - by apply preserves_download_video.
  - by apply preserves_get_video_info.
  - by apply preserves_memory_health.
  - apply same_state_refl.
Qed.

Lemma step_frame (o : op) (w : World) (k : jsval) :
  poller_of o <> Some k ->
  videoStore (step host o w) !! k = videoStore w !! k.
Proof.
  intros H. destruct (poller_of o) as [j|] eqn:E.
  - assert (k <> j) as Hne by congruence.
    destruct o; simpl in E; try discriminate; injection E as ->; simpl; unfold after.
    + by apply monitor_attempt_frame.
    + by apply monitor_loop_frame.
  - by destruct (handler_same_state o w E) as [-> _].
Qed.

Lemma step_keeps (o : op) (w : World) (k : jsval) :
  is_Some (videoStore w !! k) -> is_Some (videoStore (step host o w) !! k).
Proof.
  intros H. destruct (poller_of o) as [j|] eqn:E.
  - destruct o; simpl in E; try discriminate; injection E as ->; simpl; unfold after.
    + by apply monitor_attempt_frame.
    + by apply monitor_loop_frame.
  - by destruct (handler_same_state o w E) as [-> _].
Qed.

Lemma steps_frame (os : list op) (w : World) (k : jsval) :
  Forall (fun o => poller_of o <> Some k) os ->
  videoStore (steps host os w) !! k = videoStore w !! k.
Proof.
  intros H. revert w. induction H as [|o os Ho _ IH]; intros w; [done|].
  simpl. change (fold_left _ os (step host o w)) with (steps host os (step host o w)).
  rewrite IH. by apply step_frame.
Qed.

Lemma steps_keeps (os : list op) (w : World) (k : jsval) :
  is_Some (videoStore w !! k) -> is_Some (videoStore (steps host os w) !! k).
Proof.
  revert w. induction os as [|o os IH]; intros w H; [done|].
  simpl. apply IH. by apply step_keeps.
Qed.

Lemma checkVideoStatus_store (j : jsval) (w : World) :
  exists st, fst (checkVideoStatus host j w) = Return st
    /\ videoStore (snd (checkVideoStatus host j w)) = videoStore w.
Proof.
  rewrite checkVideoStatus_run. destruct (status_request host j); simpl; eauto.
Qed.

Lemma check_video_status_reply (j : jsval) (w : World) :
  exists reply,
    fst (check_video_status host j w) = Return reply
    /\ ((exists e, reply = res_json [("success", VBool false); ("error", VStr e)])
        \/ (exists s,
              let videoReady := ready (videoStore w !! j) in
              reply = res_json [("success", VBool true);
                                ("jobId", j);
                                ("status", s);
                                ("progress", getProgressFromStatus s);
                                ("videoReady", videoReady);
                                ("message", getStatusMessage s videoReady)])).
Proof.
  unfold check_video_status. run. destruct (negb (truthy j)); run; [eauto|].
  destruct (checkVideoStatus_store j w) as (st & H1 & H2).
  destruct (checkVideoStatus host j w) as [o w1]. simpl in *. subst o.
  destruct st as [s gens p|e]; run; [|eauto].
  unfold storeGet. simpl. rewrite H2. eauto.
Qed.

Lemma download_video_ready (j g p : jsval) (w : World) :
  videoStore w !! j = Some (ready_entry g p) ->
  exists reply,
    fst (download_video host j w) = Return reply
    /\ code reply <> 404
    /\ (forall e data,
          truthy j = true ->
          AZURE_VIDEO_ENDPOINT (process_env host) = Some e ->
          candidate_bytes
            (upstream host (S (length (trace w)))
               (get host (content_video_url host e g))) = Some data ->
          code reply = 200 /\ sent reply = Bytes data).
Proof.
  intros Hs. unfold download_video. run.
  destruct (truthy j) eqn:Hj; simpl; run.
  2:{ eexists. split; [reflexivity|]. split; [discriminate|]. discriminate. }
  unfold storeGet. rewrite Hs. simpl. run.
  destruct (AZURE_VIDEO_ENDPOINT (process_env host)) as [e|] eqn:He; run.
  2:{ eexists. split; [reflexivity|]. split; [discriminate|]. discriminate. }
  unfold candidate_bytes, content_video_url.
  destruct (upstream host _ _) as [m|r] eqn:Hu; run.
  { eexists. split; [reflexivity|]. split; [discriminate|].
    intros e' data _ [= <-]. simpl in Hu. rewrite Hu. discriminate. }
  destruct (ok r) eqn:Hok; simpl; run.
  2:{ eexists. split; [reflexivity|]. split; [discriminate|].
      intros e' data _ [= <-]. simpl in Hu. rewrite Hu, Hok. discriminate. }
  destruct (buffer r) as [m|d] eqn:Hb; run.
  { eexists. split; [reflexivity|]. split; [discriminate|].
    intros e' data _ [= <-]. simpl in Hu. rewrite Hu, Hok, Hb. discriminate. }
  eexists. split; [reflexivity|]. split; [discriminate|].
  intros e' data _ [= <-]. simpl in Hu. rewrite Hu, Hok, Hb. intros [= <-]. done.
Qed.
End InMemorySystem.

(** ** What a poller run observes *)

Section Observation.
Context (host : Host).
Import InMemory.

Lemma turn_trace (j : jsval) (st : status_result) (w : World) :
  exists tevs, trace (snd (turn j st w)) = (tevs ++ trace w)%list
    /\ Forall (fun e => is_fetch e = false) tevs.
Proof.
  destruct st as [s gens p|e]; simpl.
  - destruct (strict_eq_str s "succeeded").
    + destruct gens as [| |[|[|g] l]]; simpl;
        first [by exists [] | eexists [_]; split; [reflexivity|by repeat constructor]].
    + destruct (strict_eq_str s "failed"); simpl;
        eexists [_]; split; try reflexivity; by repeat constructor.
  - eexists [_]; split; [reflexivity|by repeat constructor].
Qed.

Lemma monitor_loop_extends (j : jsval) (n : nat) (w : World) :
  exists evs, trace (snd (monitor_loop host n j w)) = (evs ++ trace w)%list.
Proof.
  revert w. induction n as [|n IH]; intros w; [by exists []|].
  rewrite monitor_loop_S, monitor_attempt_effect.
  destruct (status_request host j) as [q|]; cbv zeta.
  - set (w1 := record _ w).
    destruct (turn_returns j (status_of (upstream host (length (trace w)) q)) w1)
      as (c & Hc & _).
    destruct (turn_trace j (status_of (upstream host (length (trace w)) q)) w1)
      as (tevs & Ht & _).
    destruct (turn j _ w1) as [o w2]. simpl in *. subst o.
    destruct c.
    + simpl. rewrite Ht. by eexists (tevs ++ [_])%list; rewrite <- app_assoc.
    + destruct (IH w2) as [evs ->]. rewrite Ht.
      eexists (evs ++ tevs ++ [_])%list. by rewrite <- !app_assoc.
  - destruct (IH (record (ESleep checkInterval) w)) as [evs ->].
    eexists (evs ++ [_])%list. by rewrite <- app_assoc.
Qed.

Lemma new_events_cons (evs : list event) (e : event) (w : World) :
  take (length (evs ++ e :: trace w)%list - length (trace w))
       (evs ++ e :: trace w)%list
  = (evs ++ [e])%list.
Proof.
  pose proof (new_events (evs ++ [e]) w) as H.
  by rewrite <- !app_assoc in H.
Qed.

Lemma observation_breaks (j : jsval) (r : response) (jb : job)
    (entry : VideoData) (w : World) :
  ok r = true ->
  json r = inr (JJob jb) ->
  observed_entry jb = Some entry ->
  turn j (status_of (Resolved r)) w = (Return Break, stored j entry w).
Proof.
  intros Hok Hj Ho. unfold status_of, turn, observed_entry in *.
  rewrite Hok, Hj. simpl.
  destruct (strict_eq_str (job_status jb) "succeeded").
  - destruct (job_generations jb) as [| |[|[|g] l]]; try discriminate.
    by injection Ho as <-.
  - destruct (strict_eq_str (job_status jb) "failed"); [|discriminate].
    by injection Ho as <-.
Qed.

(** What a poller run that observes a terminal status leaves in the
    store. *)
Lemma monitor_loop_observes (j : jsval) (n : nat) (w : World)
    (q : request) (r : response) (jb : job) (entry : VideoData) :
  EFetch q (Resolved r) ∈ events_of (monitor_loop host n j) w ->
  ok r = true ->
  json r = inr (JJob jb) ->
  observed_entry jb = Some entry ->
  videoStore (snd (monitor_loop host n j w)) !! j = Some entry.
Proof.
  intros Hin Hok Hj Ho. revert w Hin. induction n as [|n IH]; intros w Hin.
  { rewrite (events_of_eq _ w []) in Hin by reflexivity. by apply elem_of_nil in Hin. }
  unfold events_of in Hin. rewrite monitor_loop_S in *.
  rewrite monitor_attempt_effect in *.
  destruct (status_request host j) as [q0|]; cbv zeta in *.
  - set (a := upstream host (length (trace w)) q0) in *.
    set (w1 := record (EFetch q0 a) w) in *.
    assert (a = Resolved r ->
            videoStore (match turn j (status_of a) w1 with
                        | (Return Break, w2) => (Return tt, w2)
                        | (Return Continue, w2) => monitor_loop host n j w2
                        | (Throw e, w2) => (Throw e, w2)
                        end).2 !! j = Some entry) as Hhere.
    { intros ->. rewrite (observation_breaks j r jb entry w1 Hok Hj Ho).
      simpl. apply lookup_insert_eq. }
    destruct (turn_returns j (status_of a) w1) as (c & Hc & _).
    destruct (turn_trace j (status_of a) w1) as (tevs & Ht & Hnf).
    destruct (turn j (status_of a) w1) as [o w2] eqn:Et. simpl in Hc, Ht. subst o.
    destruct c.
    + simpl in Hin. rewrite Ht in Hin.
      rewrite new_events_cons in Hin.
      apply elem_of_app in Hin as [Hin|Hin].
      * rewrite Forall_forall in Hnf. by apply Hnf in Hin.
      * apply list_elem_of_singleton in Hin. apply Hhere. congruence.
    + destruct (monitor_loop_extends j n w2) as [evs He].
      rewrite He, Ht in Hin.
      rewrite app_assoc, new_events_cons in Hin.
      apply elem_of_app in Hin as [Hin|Hin].
      * apply elem_of_app in Hin as [Hin|Hin].
        -- apply IH. by rewrite (events_of_eq _ w2 evs He).
        -- rewrite Forall_forall in Hnf. by apply Hnf in Hin.
      * apply list_elem_of_singleton in Hin. apply Hhere. congruence.
  - set (w1 := record (ESleep checkInterval) w) in *.
    destruct (monitor_loop_extends j n w1) as [evs He].
    apply IH. rewrite (events_of_eq _ w1 evs He).
    rewrite He in Hin. simpl in Hin. rewrite new_events_cons in Hin.
    apply elem_of_app in Hin as [Hin|Hin]; [done|].
    apply list_elem_of_singleton in Hin. discriminate.
Qed.

(** A poller only ever sends the status request of its job. *)
Lemma monitor_loop_asks (j : jsval) (n : nat) (w : World)
    (q : request) (a : fetch_result) :
  EFetch q a ∈ events_of (monitor_loop host n j) w ->
  status_request host j = Some q.
Proof.
  revert w. induction n as [|n IH]; intros w Hin.
  { rewrite (events_of_eq _ w []) in Hin by reflexivity. by apply elem_of_nil in Hin. }
  unfold events_of in Hin. rewrite monitor_loop_S in Hin.
  rewrite monitor_attempt_effect in Hin.
  destruct (status_request host j) as [q0|] eqn:Hq; cbv zeta in Hin.
  - set (a0 := upstream host (length (trace w)) q0) in *.
    set (w1 := record (EFetch q0 a0) w) in *.
    destruct (turn_returns j (status_of a0) w1) as (c & Hc & _).
    destruct (turn_trace j (status_of a0) w1) as (tevs & Ht & Hnf).
    destruct (turn j (status_of a0) w1) as [o w2] eqn:Et. simpl in Hc, Ht. subst o.
    destruct c.
    + simpl in Hin. rewrite Ht in Hin.
      rewrite new_events_cons in Hin.
      apply elem_of_app in Hin as [Hin|Hin].
      * rewrite Forall_forall in Hnf. by apply Hnf in Hin.
      * apply list_elem_of_singleton in Hin. congruence.
    + destruct (monitor_loop_extends j n w2) as [evs He].
      rewrite He, Ht in Hin.
      rewrite app_assoc, new_events_cons in Hin.
      apply elem_of_app in Hin as [Hin|Hin].
      * apply elem_of_app in Hin as [Hin|Hin].
        -- apply (IH w2). by rewrite (events_of_eq _ w2 evs He).
        -- rewrite Forall_forall in Hnf. by apply Hnf in Hin.
      * apply list_elem_of_singleton in Hin. congruence.
  - set (w1 := record (ESleep checkInterval) w) in *.
    destruct (monitor_loop_extends j n w1) as [evs He].
    apply (IH w1). rewrite (events_of_eq _ w1 evs He).
    rewrite He in Hin. simpl in Hin. rewrite new_events_cons in Hin.
    apply elem_of_app in Hin as [Hin|Hin]; [done|].
    apply list_elem_of_singleton in Hin. discriminate.
Qed.
End Observation.

(** ** Entries written by a turn; files written by the background flow *)

Section EntriesAndFiles.
Context (host : Host).

Lemma turn_stores (j : jsval) (a : fetch_result) (w : World) :
  videoStore (snd (turn j (status_of a) w)) = videoStore w
  \/ exists r jb entry,
      a = Resolved r /\ ok r = true /\ json r = inr (JJob jb)
      /\ observed_entry jb = Some entry
      /\ turn j (status_of a) w = (Return InMemory.Break, stored j entry w).
Proof.
  destruct a as [m|r]; [by left|].
  destruct (ok r) eqn:Hok; [|left; unfold status_of; by rewrite Hok].
  destruct (json r) as [m|[|jb]] eqn:Hj;
    try (left; unfold status_of; by rewrite Hok, Hj).
  destruct (observed_entry jb) as [entry|] eqn:Ho.
  - right. exists r, jb, entry. repeat split; auto.
    by apply (observation_breaks j r jb).
  - left. unfold status_of, turn, observed_entry in *. rewrite Hok, Hj. simpl.
    destruct (strict_eq_str (job_status jb) "succeeded").
    + by destruct (job_generations jb) as [| |[|[|g] l]].
    + by destruct (strict_eq_str (job_status jb) "failed").
Qed.

Lemma file_checkVideoStatus_state (j : jsval) (w : World) :
  exists st, fst (FileStore.checkVideoStatus host j w) = Return st
    /\ files (snd (FileStore.checkVideoStatus host j w)) = files w.
Proof.
  rewrite file_checkVideoStatus_run. destruct (status_request host j); simpl; eauto.
Qed.

Lemma file_check_video_status_reply (j : jsval) (w : World) :
  exists reply,
    fst (FileStore.check_video_status host j w) = Return reply
    /\ ((exists e, reply = res_json [("success", VBool false); ("error", VStr e)])
        \/ (exists s g,
              let downloadUrl :=
                if bool_decide (is_Some (files w !! FileStore.videoPath host j))
                then VStr ("/videos/video-" +:+ ToString j +:+ ".mp4")
                else VNull in
              reply = res_json [("success", VBool true);
                                ("jobId", j);
                                ("status", s);
                                ("progress", getProgressFromStatus s);
                                ("downloadUrl", downloadUrl);
                                ("videoReady", VBool (truthy downloadUrl));
                                ("generationId", g);
                                ("message",
                                 FileStore.getStatusMessage s
                                   (VBool (truthy downloadUrl)))])).
Proof.
  unfold FileStore.check_video_status. run. destruct (negb (truthy j)); run; [eauto|].
  destruct (file_checkVideoStatus_state j w) as (st & H1 & H2).
  destruct (FileStore.checkVideoStatus host j w) as [o w1]. simpl in *. subst o.
  destruct st as [s g p c f|e]; run; [|eauto].
  unfold existsSync. run. rewrite H2.
  eexists. split; [reflexivity|]. right. by eexists _, _.
Qed.

Lemma flow_saves (j p s g : jsval) (e : string) (data : list Byte.byte) (w : World) :
  AZURE_VIDEO_ENDPOINT (process_env host) = Some e ->
  fst (FileStore.waitForVideoCompletion host j w) = Return (FileStore.WaitOk s g) ->
  let wa := snd (FileStore.waitForVideoCompletion host j w) in
  let candidates := FileStore.endpoints host (strip_trailing_slash e) j g in
  fst (FileStore.download_loop host candidates wa) = Return (Some data) ->
  let wb := snd (FileStore.download_loop host candidates wa) in
  writeFile_error host (length (trace wb)) (FileStore.videoPath host j) = None ->
  files (snd (FileStore.processVideoInBackground host j p w))
    !! FileStore.videoPath host j = Some data.
Proof.
  intros He Hw wa cands Hd wb Hdisk.
  unfold FileStore.processVideoInBackground, FileStore.downloadAndSaveVideo. run.
  subst wa wb cands.
  destruct (FileStore.waitForVideoCompletion host j w) as [o wa].
  cbn [fst snd] in *. subst o.
  rewrite He. run.
  destruct (FileStore.download_loop host _ wa) as [o wb].
  cbn [fst snd] in *. subst o.
  rewrite saveVideoToStorage_run. cbv zeta. rewrite Hdisk. cbn [files].
  apply lookup_insert_eq.
Qed.
End EntriesAndFiles.

Lemma observed_entry_failed (jb : job) :
  job_status jb = VStr "failed" -> observed_entry jb = Some failed_entry.
Proof. intros H. unfold observed_entry. by rewrite H. Qed.

Lemma observed_entry_succeeded (jb : job) (g : jsval) (rest : list generation) :
  job_status jb = VStr "succeeded" ->
  job_generations jb = GensArr (GenObj g :: rest) ->
  observed_entry jb = Some (ready_entry g (job_prompt jb)).
Proof. intros H1 H2. unfold observed_entry. by rewrite H1, H2. Qed.

(** ** Status checks, as equations *)

Section StatusCheckRuns.
Context (host : Host).

Lemma memory_check_run (j : jsval) (w : World) :
  truthy j = true ->
  InMemory.check_video_status host j w =
  match status_request host j with
  | None =>
      (Return (res_json [("success", VBool false);
                         ("error", VStr (cannot_read "undefined" "replace"))]), w)
  | Some q =>
      let a := upstream host (length (trace w)) q in
      match status_of a with
      | InMemory.StatusOk s _ _ =>
          let videoReady := InMemory.ready (videoStore w !! j) in
          (Return (res_json [("success", VBool true);
                             ("jobId", j);
                             ("status", s);
                             ("progress", getProgressFromStatus s);
                             ("videoReady", videoReady);
                             ("message", InMemory.getStatusMessage s videoReady)]),
           record (EStoreGet j) (record (EFetch q a) w))
      | InMemory.StatusError e =>
          (Return (res_json [("success", VBool false); ("error", VStr e)]),
           record (EFetch q a) w)
      end
  end.
Proof.
  intros Hj. unfold InMemory.check_video_status. run. rewrite Hj. cbn [negb]. run.
  rewrite checkVideoStatus_run.
  destruct (status_request host j) as [q|]; [|reflexivity]. cbv zeta.
  destruct (status_of _); reflexivity.
Qed.

Lemma file_check_run (j : jsval) (w : World) :
  truthy j = true ->
  FileStore.check_video_status host j w =
  match status_request host j with
  | None =>
      (Return (res_json [("success", VBool false);
                         ("error", VStr (cannot_read "undefined" "replace"))]), w)
  | Some q =>
      let a := upstream host (length (trace w)) q in
      match file_status_of a with
      | FileStore.StatusOk s g _ _ _ =>
          let downloadUrl :=
            if bool_decide (is_Some (files w !! FileStore.videoPath host j))
            then VStr ("/videos/video-" +:+ ToString j +:+ ".mp4")
            else VNull in
          (Return (res_json [("success", VBool true);
                             ("jobId", j);
                             ("status", s);
                             ("progress", getProgressFromStatus s);
                             ("downloadUrl", downloadUrl);
                             ("videoReady", VBool (truthy downloadUrl));
                             ("generationId", g);
                             ("message",
                              FileStore.getStatusMessage s
                                (VBool (truthy downloadUrl)))]),
           record (EExistsSync (FileStore.videoPath host j))
                  (record (EFetch q a) w))
      | FileStore.StatusError e =>
          (Return (res_json [("success", VBool false); ("error", VStr e)]),
           record (EFetch q a) w)
      end
  end.
Proof.
  intros Hj. unfold FileStore.check_video_status. run. rewrite Hj. cbn [negb]. run.
  rewrite file_checkVideoStatus_run.
  destruct (status_request host j) as [q|]; [|reflexivity]. cbv zeta.
  destruct (file_status_of _); reflexivity.
Qed.
End StatusCheckRuns.

(** ** Statuses reported after the poller has finished *)

(** C3, as the code has it: once the poller of a job has observed
    'failed', its store entry is [{status:'failed'}] and stays so through
    every later request and every turn or run of other jobs' pollers.  A
    later status check for the job sends the request the poller sent and
    never reports [videoReady:true]; what it reports is decided by the
    answer [a] to that request.  When the check obtains the upstream
    status (the request resolves with an [ok] response whose body is a
    job), it reports [success:true] and [videoReady:false]; when the
    upstream fails it, the reply is [{success:false, error}] with the
    failure's text and has no [videoReady] member at all.  A check whose
    job id is falsy is refused with "Job ID is required". *)
Theorem failed_job_never_reports_ready (host : Host) (j : jsval) (w : World)
    (q : request) (r : response) (jb : job) (os : list InMemory.op) :
  EFetch q (Resolved r) ∈ events_of (InMemory.monitorVideoGeneration host j) w ->
  ok r = true ->
  json r = inr (JJob jb) ->
  job_status jb = VStr "failed" ->
  Forall (fun o => InMemory.poller_of o <> Some j) os ->
  let w1 := snd (InMemory.monitorVideoGeneration host j w) in
  let w2 := InMemory.steps host os w1 in
  let a := upstream host (length (trace w2)) q in
  videoStore w1 !! j = Some failed_entry
  /\ videoStore w2 !! j = Some failed_entry
  /\ exists reply,
      fst (InMemory.check_video_status host j w2) = Return reply
      /\ reported "videoReady" reply <> Some (VBool true)
      /\ (truthy j = true ->
          (forall r' jb',
              a = Resolved r' -> ok r' = true -> json r' = inr (JJob jb') ->
              reply = res_json
                        [("success", VBool true);
                         ("jobId", j);
                         ("status", job_status jb');
                         ("progress", getProgressFromStatus (job_status jb'));
                         ("videoReady", VBool false);
                         ("message",
                          InMemory.getStatusMessage (job_status jb') (VBool false))]
              /\ reported "success" reply = Some (VBool true)
              /\ reported "videoReady" reply = Some (VBool false))
          /\ (forall e,
                status_of a = InMemory.StatusError e ->
                reply = res_json [("success", VBool false); ("error", VStr e)]
                /\ reported "videoReady" reply = None))
      /\ (truthy j = false ->
          reply = res_json [("success", VBool false);
                            ("error", VStr "Job ID is required")]).
Proof.
  intros Hin Hok Hj Hs Hos w1 w2 a.
  assert (status_request host j = Some q) as Hq
    by apply (monitor_loop_asks host j maxAttempts w q (Resolved r) Hin).
  assert (videoStore w1 !! j = Some failed_entry) as H1.
  { apply (monitor_loop_observes host j maxAttempts w q r jb); auto.
    by apply observed_entry_failed. }
  assert (videoStore w2 !! j = Some failed_entry) as H2.
  { unfold w2. by rewrite steps_frame. }
  split; [done|]. split; [done|].
  destruct (truthy j) eqn:Ht.
  - rewrite (memory_check_run host j w2 Ht). rewrite Hq. cbv zeta.
    fold a. rewrite H2.
    destruct (status_of a) as [s gens p|e0] eqn:Es.
    + eexists. split; [reflexivity|]. split; [discriminate|].
      split; [|discriminate]. intros _. split.
      * intros r' jb' Ha Hok' Hj'. unfold status_of in Es.
        rewrite Ha, Hok', Hj' in Es. injection Es as <- _ _. by repeat split.
      * discriminate.
    + eexists. split; [reflexivity|]. split; [discriminate|].
      split; [|discriminate]. intros _. split.
      * intros r' jb' Ha Hok' Hj'. unfold status_of in Es.
        rewrite Ha, Hok', Hj' in Es. discriminate.
      * intros e [= <-]. by split.
  - unfold InMemory.check_video_status, try_catch. rewrite Ht. cbn [negb].
    eexists. split; [reflexivity|]. split; [discriminate|].
    split; [discriminate|done].
Qed.

(** C3 fails as stated: the poller observes 'failed', then a status check
    made while the upstream is down answers [{success:false, error}],
    which carries no [videoReady] member (so it does not report
    [videoReady:false]). *)
Lemma failed_job_check_without_videoReady :
  let w1 := snd (InMemory.monitorVideoGeneration host_failed_then_down job1 w0) in
  videoStore w1 !! job1 = Some failed_entry
  /\ fst (InMemory.check_video_status host_failed_then_down job1 w1)
     = Return (res_json [("success", VBool false);
                         ("error", VStr "connect ECONNREFUSED")])
  /\ reported "videoReady"
       (res_json [("success", VBool false);
                  ("error", VStr "connect ECONNREFUSED")]) = None
  /\ reported "videoReady"
       (res_json [("success", VBool false);
                  ("error", VStr "connect ECONNREFUSED")]) <> Some (VBool false).
Proof. repeat split. discriminate. Qed.

Lemma failed_job_never_reports_ready_witness :
  let w1 := snd (InMemory.monitorVideoGeneration host_failed job1 w0) in
  let w2 := InMemory.steps host_failed
              [InMemory.GetHealth; InMemory.PollerRun (VStr "job-2")] w1 in
  videoStore w2 !! job1 = Some failed_entry
  /\ exists reply,
      fst (InMemory.check_video_status host_failed job1 w2) = Return reply
      /\ reported "success" reply = Some (VBool true)
      /\ reported "videoReady" reply = Some (VBool false).
Proof.
  assert (Forall (fun o => InMemory.poller_of o <> Some job1)
            [InMemory.GetHealth; InMemory.PollerRun (VStr "job-2")]) as Hos
    by (repeat constructor; discriminate).
  assert (EFetch status_request1 (Resolved failed_answer)
          ∈ events_of (InMemory.monitorVideoGeneration host_failed job1) w0) as Hin
    by (vm_compute; apply list_elem_of_further, list_elem_of_here).
  destruct (failed_job_never_reports_ready host_failed job1 w0 status_request1
              failed_answer (sample_job "failed" GensUndef)
              [InMemory.GetHealth; InMemory.PollerRun (VStr "job-2")]
              Hin eq_refl eq_refl eq_refl Hos)
    as (_ & H2 & reply & Hr & _ & Hc & _).
  split; [exact H2|]. exists reply. split; [exact Hr|].
  exact (proj2 (proj1 (Hc eq_refl) failed_answer (sample_job "failed" GensUndef)
                  eq_refl eq_refl eq_refl)).
Defined.

(** The steps of the third file's server that are not background flows
    leave the files as they are. *)
Lemma file_handler_files (host : Host) (o : FileStore.op) (w : World) :
  is_flow o = false -> files (FileStore.step host o w) = files w.
Proof.
  pose proof same_state_refl. pose proof same_state_trans.
  pose proof same_state_record.
  destruct o; simpl; try discriminate; intros _.
  - by apply (preserves_file_generate_video host same_state).
  - by apply (preserves_file_check_video_status host same_state).
  - by apply (preserves_file_health host same_state).
Qed.

Lemma file_handlers_files (host : Host) (os : list FileStore.op) (w : World) :
  Forall (fun o => is_flow o = false) os ->
  files (FileStore.steps host os w) = files w.
Proof.
  intros H. revert w. induction H as [|o os Ho _ IH]; intros w; [done|].
  simpl. change (fold_left _ os (FileStore.step host o w))
    with (FileStore.steps host os (FileStore.step host o w)).
  rewrite IH. by apply file_handler_files.
Qed.

(** A flow none of whose candidates delivers writes nothing. *)
Lemma flow_saves_nothing (host : Host) (j p s g : jsval) (e : string) (w : World) :
  AZURE_VIDEO_ENDPOINT (process_env host) = Some e ->
  fst (FileStore.waitForVideoCompletion host j w) = Return (FileStore.WaitOk s g) ->
  let wa := snd (FileStore.waitForVideoCompletion host j w) in
  let candidates := FileStore.endpoints host (strip_trailing_slash e) j g in
  fst (FileStore.download_loop host candidates wa) = Return None ->
  files (snd (FileStore.processVideoInBackground host j p w)) = files w.
Proof.
  intros He Hw wa cands Hd.
  unfold FileStore.processVideoInBackground, FileStore.downloadAndSaveVideo. run.
  subst wa cands.
  pose proof (wait_loop_frame host j maxAttempts w) as Hf. cbv zeta in Hf.
  change (FileStore.wait_loop host maxAttempts j w)
    with (FileStore.waitForVideoCompletion host j w) in Hf.
  destruct (FileStore.waitForVideoCompletion host j w) as [o wa].
  cbn [fst snd] in *. subst o. destruct Hf as (_ & _ & _ & Hfiles).
  rewrite He. run.
  destruct (download_loop_run host
              (FileStore.endpoints host (strip_trailing_slash e) j g) wa)
    as (evs & o & Hrun & _).
  rewrite Hrun in *. cbn [fst snd] in *. injection Hd as ->. exact Hfiles.
Qed.

(** The store, the status check and the download of the second file
    after a poller has observed success. *)
Lemma memory_succeeded_job (host : Host) (j : jsval) (w : World)
    (q : request) (r : response) (jb : job) (g : jsval) (rest : list generation)
    (os : list InMemory.op) :
  EFetch q (Resolved r) ∈ events_of (InMemory.monitorVideoGeneration host j) w ->
  ok r = true ->
  json r = inr (JJob jb) ->
  job_status jb = VStr "succeeded" ->
  job_generations jb = GensArr (GenObj g :: rest) ->
  Forall (fun o => InMemory.poller_of o <> Some j) os ->
  let w1 := snd (InMemory.monitorVideoGeneration host j w) in
  let w2 := InMemory.steps host os w1 in
  let a := upstream host (length (trace w2)) q in
  videoStore w1 !! j = Some (ready_entry g (job_prompt jb))
  /\ videoStore w2 !! j = Some (ready_entry g (job_prompt jb))
  /\ (exists reply,
        fst (InMemory.check_video_status host j w2) = Return reply
        /\ reported "downloadUrl" reply = None
        /\ reported "videoUrl" reply = None
        /\ (truthy j = true ->
            (forall r' jb',
                a = Resolved r' -> ok r' = true -> json r' = inr (JJob jb') ->
                reply = res_json
                          [("success", VBool true);
                           ("jobId", j);
                           ("status", job_status jb');
                           ("progress", getProgressFromStatus (job_status jb'));
                           ("videoReady", VBool true);
                           ("message",
                            InMemory.getStatusMessage (job_status jb') (VBool true))]
                /\ reported "success" reply = Some (VBool true)
                /\ reported "videoReady" reply = Some (VBool true))
            /\ (forall e,
                  status_of a = InMemory.StatusError e ->
                  reply = res_json [("success", VBool false); ("error", VStr e)]
                  /\ reported "videoReady" reply = None))
        /\ (truthy j = false ->
            reply = res_json [("success", VBool false);
                              ("error", VStr "Job ID is required")]))
  /\ (exists reply,
        fst (InMemory.download_video host j w2) = Return reply
        /\ code reply <> 404
        /\ (forall e data,
              truthy j = true ->
              AZURE_VIDEO_ENDPOINT (process_env host) = Some e ->
              candidate_bytes
                (upstream host (S (length (trace w2)))
                   (get host (content_video_url host e g))) = Some data ->
              code reply = 200 /\ sent reply = Bytes data)).
Proof.
  intros Hin Hok Hj Hs Hg Hos w1 w2 a.
  assert (status_request host j = Some q) as Hq
    by apply (monitor_loop_asks host j maxAttempts w q (Resolved r) Hin).
  assert (videoStore w1 !! j = Some (ready_entry g (job_prompt jb))) as H1.
  { apply (monitor_loop_observes host j maxAttempts w q r jb); auto.
    by apply (observed_entry_succeeded jb g rest). }
  assert (videoStore w2 !! j = Some (ready_entry g (job_prompt jb))) as H2.
  { unfold w2. by rewrite steps_frame. }
  split; [done|]. split; [done|].
  split; [|by apply (download_video_ready host j g (job_prompt jb))].
  destruct (truthy j) eqn:Ht.
  - rewrite (memory_check_run host j w2 Ht). rewrite Hq. cbv zeta.
    fold a. rewrite H2.
    destruct (status_of a) as [s gens p|e0] eqn:Es.
    + eexists. split; [reflexivity|]. split; [reflexivity|]. split; [reflexivity|].
      split; [|discriminate]. intros _. split.
      * intros r' jb' Ha Hok' Hj'. unfold status_of in Es.
        rewrite Ha, Hok', Hj' in Es. injection Es as <- _ _. by repeat split.
      * discriminate.
    + eexists. split; [reflexivity|]. split; [reflexivity|]. split; [reflexivity|].
      split; [|discriminate]. intros _. split.
      * intros r' jb' Ha Hok' Hj'. unfold status_of in Es.
        rewrite Ha, Hok', Hj' in Es. discriminate.
      * intros e [= <-]. by split.
  - unfold InMemory.check_video_status, try_catch. rewrite Ht. cbn [negb].
    eexists. split; [reflexivity|]. split; [reflexivity|]. split; [reflexivity|].
    split; [discriminate|done].
Qed.

(** What the third file's status check answers in a world [w2], given
    whether the job's file is there. *)
Lemma file_check_by_answer (host : Host) (j : jsval) (e : string) (w2 : World) :
  AZURE_VIDEO_ENDPOINT (process_env host) = Some e ->
  let a := upstream host (length (trace w2))
             (get host (statusEndpoint host (strip_trailing_slash e) j)) in
  let present := bool_decide (is_Some (files w2 !! FileStore.videoPath host j)) in
  exists reply,
    fst (FileStore.check_video_status host j w2) = Return reply
    /\ (truthy j = true ->
        (forall r' jb',
            a = Resolved r' -> ok r' = true -> json r' = inr (JJob jb') ->
            reported "success" reply = Some (VBool true)
            /\ reported "videoReady" reply = Some (VBool present)
            /\ reported "downloadUrl" reply
               = Some (if present
                       then VStr ("/videos/video-" +:+ ToString j +:+ ".mp4")
                       else VNull))
        /\ (forall e',
              file_status_of a = FileStore.StatusError e' ->
              reply = res_json [("success", VBool false); ("error", VStr e')]
              /\ reported "videoReady" reply = None))
    /\ (truthy j = false ->
        reply = res_json [("success", VBool false);
                          ("error", VStr "Job ID is required")]).
Proof.
  intros He a present.
  assert (status_request host j
          = Some (get host (statusEndpoint host (strip_trailing_slash e) j))) as Hq
    by (unfold status_request; by rewrite He).
  destruct (truthy j) eqn:Ht.
  - rewrite (file_check_run host j w2 Ht). rewrite Hq. cbv zeta. fold a.
    subst present.
    destruct (file_status_of a) as [s g p c f|e0] eqn:Es.
    + eexists. split; [reflexivity|]. split; [|discriminate]. intros _. split.
      * intros r' jb' Ha Hok' Hj'. unfold reported.
        cbn [sent res_json own_property String.eqb Ascii.eqb Bool.eqb].
        destruct (bool_decide _); cbn [truthy]; [|by repeat split].
        assert (negb ("/videos/video-" +:+ ToString j +:+ ".mp4" =? "")%string = true)
          as -> by reflexivity.
        by repeat split.
      * discriminate.
    + eexists. split; [reflexivity|]. split; [|discriminate]. intros _. split.
      * intros r' jb' Ha Hok' Hj'. unfold file_status_of in Es.
        rewrite Ha, Hok', Hj' in Es. discriminate.
      * intros e' [= <-]. by split.
  - unfold FileStore.check_video_status, try_catch. rewrite Ht. cbn [negb].
    eexists. split; [reflexivity|]. split; [discriminate|done].
Qed.

(** C2, as the code has it.

    In the second file, once the poller of a job has observed 'succeeded'
    with a first generation [g], the store maps the job to
    [{generationId:g, status:'ready', prompt}] through every later request
    and every turn or run of other jobs' pollers.  A later status check
    sends the request the poller sent, and the answer [a] to it decides
    the reply: when the check obtains the upstream status ([a] resolves
    with an [ok] response whose body is a job) it reports [success:true]
    and [videoReady:true]; when the upstream fails it, the reply is
    [{success:false, error}] with the failure's text.  In no case has the
    reply a [downloadUrl] or [videoUrl] member: the video is served by
    [/download-video], which for this job is never answered 404 and
    passes on the bytes of the generation's content whenever the upstream
    delivers them.

    In the third file, once the background flow has observed 'succeeded',
    fetched the bytes from a candidate and written them, the file exists
    from then on, and every status check that obtains the upstream status
    reports [videoReady:true] with [downloadUrl]
    "/videos/video-<jobId>.mp4".  When no candidate delivers, the flow
    writes nothing; if the job's file was not there before, then after
    any steps that are not background flows a status check that obtains
    the upstream status reports [videoReady:false] and
    [downloadUrl:null]. *)
Theorem succeeded_job_reports_ready (host : Host) (j : jsval) (w : World) :
  (forall q r jb g rest os,
      EFetch q (Resolved r) ∈ events_of (InMemory.monitorVideoGeneration host j) w ->
      ok r = true ->
      json r = inr (JJob jb) ->
      job_status jb = VStr "succeeded" ->
      job_generations jb = GensArr (GenObj g :: rest) ->
      Forall (fun o => InMemory.poller_of o <> Some j) os ->
      let w1 := snd (InMemory.monitorVideoGeneration host j w) in
      let w2 := InMemory.steps host os w1 in
      let a := upstream host (length (trace w2)) q in
      videoStore w1 !! j = Some (ready_entry g (job_prompt jb))
      /\ videoStore w2 !! j = Some (ready_entry g (job_prompt jb))
      /\ (exists reply,
            fst (InMemory.check_video_status host j w2) = Return reply
            /\ reported "downloadUrl" reply = None
            /\ reported "videoUrl" reply = None
            /\ (truthy j = true ->
                (forall r' jb',
                    a = Resolved r' -> ok r' = true -> json r' = inr (JJob jb') ->
                    reply = res_json
                              [("success", VBool true);
                               ("jobId", j);
                               ("status", job_status jb');
                               ("progress", getProgressFromStatus (job_status jb'));
                               ("videoReady", VBool true);
                               ("message",
                                InMemory.getStatusMessage (job_status jb')
                                  (VBool true))]
                    /\ reported "success" reply = Some (VBool true)
                    /\ reported "videoReady" reply = Some (VBool true))
                /\ (forall e,
                      status_of a = InMemory.StatusError e ->
                      reply = res_json [("success", VBool false); ("error", VStr e)]
                      /\ reported "videoReady" reply = None))
            /\ (truthy j = false ->
                reply = res_json [("success", VBool false);
                                  ("error", VStr "Job ID is required")]))
      /\ (exists reply,
            fst (InMemory.download_video host j w2) = Return reply
            /\ code reply <> 404
            /\ (forall e data,
                  truthy j = true ->
                  AZURE_VIDEO_ENDPOINT (process_env host) = Some e ->
                  candidate_bytes
                    (upstream host (S (length (trace w2)))
                       (get host (content_video_url host e g))) = Some data ->
                  code reply = 200 /\ sent reply = Bytes data)))
  /\ (forall p s g e os,
        AZURE_VIDEO_ENDPOINT (process_env host) = Some e ->
        fst (FileStore.waitForVideoCompletion host j w)
        = Return (FileStore.WaitOk s g) ->
        let wa := snd (FileStore.waitForVideoCompletion host j w) in
        let candidates := FileStore.endpoints host (strip_trailing_slash e) j g in
        let wb := snd (FileStore.download_loop host candidates wa) in
        let w1 := snd (FileStore.processVideoInBackground host j p w) in
        let w2 := FileStore.steps host os w1 in
        let a := upstream host (length (trace w2))
                   (get host (statusEndpoint host (strip_trailing_slash e) j)) in
        (* a candidate delivers and the write goes through *)
        (forall data,
            fst (FileStore.download_loop host candidates wa) = Return (Some data) ->
            writeFile_error host (length (trace wb)) (FileStore.videoPath host j)
            = None ->
            files w1 !! FileStore.videoPath host j = Some data
            /\ is_Some (files w2 !! FileStore.videoPath host j)
            /\ exists reply,
                fst (FileStore.check_video_status host j w2) = Return reply
                /\ (truthy j = true ->
                    (forall r' jb',
                        a = Resolved r' -> ok r' = true ->
                        json r' = inr (JJob jb') ->
                        reported "success" reply = Some (VBool true)
                        /\ reported "videoReady" reply = Some (VBool true)
                        /\ reported "downloadUrl" reply
                           = Some (VStr ("/videos/video-" +:+ ToString j
                                           +:+ ".mp4")))
                    /\ (forall e',
                          file_status_of a = FileStore.StatusError e' ->
                          reply = res_json [("success", VBool false);
                                            ("error", VStr e')]
                          /\ reported "videoReady" reply = None))
                /\ (truthy j = false ->
                    reply = res_json [("success", VBool false);
                                      ("error", VStr "Job ID is required")]))
        (* no candidate delivers *)
        /\ (fst (FileStore.download_loop host candidates wa) = Return None ->
            Forall (fun o => is_flow o = false) os ->
            files w1 = files w
            /\ files w2 = files w
            /\ (files w !! FileStore.videoPath host j = None ->
                exists reply,
                  fst (FileStore.check_video_status host j w2) = Return reply
                  /\ (truthy j = true ->
                      forall r' jb',
                        a = Resolved r' -> ok r' = true ->
                        json r' = inr (JJob jb') ->
                        reported "success" reply = Some (VBool true)
                        /\ reported "videoReady" reply = Some (VBool false)
                        /\ reported "downloadUrl" reply = Some VNull)))).
Proof.
  split.
  - intros q r jb g rest os. apply memory_succeeded_job.
  - intros p s g e os He Hw wa cands wb w1 w2 a. split.
    + intros data Hd Hdisk.
      assert (files w1 !! FileStore.videoPath host j = Some data) as H1.
      { by apply (flow_saves host j p s g e). }
      assert (is_Some (files w2 !! FileStore.videoPath host j)) as H2.
      { assert (files_kept w1 w2) as Hk.
        { apply (preserves_file_steps host files_kept).
          - by intros ? ?.
          - intros x y z Hxy Hyz f Hf. by apply Hyz, Hxy.
          - by intros ? ? ? ?.
          - intros f d x f' Hf. simpl.
            destruct (decide (f = f')) as [->|];
              [rewrite lookup_insert_eq|rewrite lookup_insert_ne]; eauto. }
        apply Hk. rewrite H1. eauto. }
      split; [done|]. split; [done|].
      destruct (file_check_by_answer host j e w2 He) as (reply & Hr & Hc & Hn).
      rewrite (bool_decide_eq_true_2 _ H2) in Hc.
      exists reply. split; [exact Hr|]. split; [exact Hc|exact Hn].
    + intros Hd Hos.
      assert (files w1 = files w) as H1 by by apply (flow_saves_nothing host j p s g e).
      assert (files w2 = files w) as H2.
      { unfold w2. by rewrite file_handlers_files. }
      split; [done|]. split; [done|]. intros Hnone.
      destruct (file_check_by_answer host j e w2 He) as (reply & Hr & Hc & _).
      rewrite H2, Hnone in Hc.
      rewrite bool_decide_eq_false_2 in Hc by (intros [? ?]; discriminate).
      exists reply. split; [exact Hr|]. intros Ht. exact (proj1 (Hc Ht)).
Qed.

(** C2 fails as stated.  In the second file the poller observes
    'succeeded' with generation "gen-1" and the next status check reports
    [videoReady:true], but its reply names no locator: it has neither a
    [downloadUrl] nor a [videoUrl] member.  In the third file the flow
    observes 'succeeded' with "gen-1", both content candidates are
    answered 404, no file is written, and the next status check reports
    [videoReady:false] with [downloadUrl:null]. *)
Lemma succeeded_job_without_locator :
  (let w1 := snd (InMemory.monitorVideoGeneration host_succeeded job1 w0) in
   videoStore w1 !! job1 = Some (ready_entry gen1 (VStr "a cat on a skateboard"))
   /\ exists reply,
       fst (InMemory.check_video_status host_succeeded job1 w1) = Return reply
       /\ reported "videoReady" reply = Some (VBool true)
       /\ reported "downloadUrl" reply = None
       /\ reported "videoUrl" reply = None)
  /\ (let w1 := snd (FileStore.processVideoInBackground host_content_missing
                       job1 (VStr "a cat on a skateboard") w0) in
      fst (FileStore.waitForVideoCompletion host_content_missing job1 w0)
      = Return (FileStore.WaitOk (VStr "succeeded") gen1)
      /\ files w1 = ∅
      /\ exists reply,
          fst (FileStore.check_video_status host_content_missing job1 w1)
          = Return reply
          /\ reported "success" reply = Some (VBool true)
          /\ reported "status" reply = Some (VStr "succeeded")
          /\ reported "videoReady" reply = Some (VBool false)
          /\ reported "downloadUrl" reply = Some VNull).
Proof.
  split.
  - split; [reflexivity|]. eexists. split; [reflexivity|]. repeat split.
  - split; [reflexivity|]. split; [reflexivity|].
    eexists. split; [reflexivity|]. repeat split.
Qed.

Lemma succeeded_job_reports_ready_witness :
  (let w1 := snd (InMemory.monitorVideoGeneration host_succeeded job1 w0) in
   let w2 := InMemory.steps host_succeeded
               [InMemory.GetVideoInfo job1; InMemory.PollerTurn (VStr "job-2")] w1 in
   exists reply,
     fst (InMemory.check_video_status host_succeeded job1 w2) = Return reply
     /\ reported "success" reply = Some (VBool true)
     /\ reported "videoReady" reply = Some (VBool true)
     /\ reported "downloadUrl" reply = None
     /\ reported "videoUrl" reply = None)
  /\ (let w1 := snd (InMemory.monitorVideoGeneration host_succeeded job1 w0) in
      exists reply,
        fst (InMemory.download_video host_succeeded job1 w1) = Return reply
        /\ code reply = 200 /\ sent reply = Bytes two_bytes)
  /\ (let w1 := snd (FileStore.processVideoInBackground host_succeeded job1
                       VUndef w0) in
      files w1 !! FileStore.videoPath host_succeeded job1 = Some two_bytes
      /\ exists reply,
          fst (FileStore.check_video_status host_succeeded job1 w1) = Return reply
          /\ reported "videoReady" reply = Some (VBool true)
          /\ reported "downloadUrl" reply = Some (VStr "/videos/video-job-1.mp4"))
  /\ (let w1 := snd (FileStore.processVideoInBackground host_content_missing job1
                       VUndef w0) in
      files w1 = files w0
      /\ exists reply,
          fst (FileStore.check_video_status host_content_missing job1 w1)
          = Return reply
          /\ reported "videoReady" reply = Some (VBool false)
          /\ reported "downloadUrl" reply = Some VNull).
Proof.
  destruct (succeeded_job_reports_ready host_succeeded job1 w0) as [HB HC].
  destruct (succeeded_job_reports_ready host_content_missing job1 w0) as [_ HD].
  assert (EFetch status_request1 (Resolved succeeded_answer)
          ∈ events_of (InMemory.monitorVideoGeneration host_succeeded job1) w0) as Hin
    by (vm_compute; apply list_elem_of_further, list_elem_of_here).
  split; [|split; [|split]].
  - assert (Forall (fun o => InMemory.poller_of o <> Some job1)
              [InMemory.GetVideoInfo job1; InMemory.PollerTurn (VStr "job-2")]) as Hos
      by (repeat constructor; discriminate).
    destruct (HB status_request1 succeeded_answer
                (sample_job "succeeded" one_generation) gen1 []
                [InMemory.GetVideoInfo job1; InMemory.PollerTurn (VStr "job-2")]
                Hin eq_refl eq_refl eq_refl eq_refl Hos)
      as (_ & _ & (reply & Hr & Hd & Hv & Hc & _) & _).
    exists reply. split; [exact Hr|].
    destruct (proj1 (Hc eq_refl) succeeded_answer
                (sample_job "succeeded" one_generation) eq_refl eq_refl eq_refl)
      as (_ & Hs & Hy).
    exact (conj Hs (conj Hy (conj Hd Hv))).
  - destruct (HB status_request1 succeeded_answer
                (sample_job "succeeded" one_generation) gen1 [] []
                Hin eq_refl eq_refl eq_refl eq_refl (List.Forall_nil _))
      as (_ & _ & _ & reply & Hr & _ & Hd).
    exists reply. split; [exact Hr|].
    exact (Hd "https://video.test/" two_bytes eq_refl eq_refl eq_refl).
  - destruct (proj1 (HC VUndef (VStr "succeeded") gen1 "https://video.test/" []
                       eq_refl eq_refl) two_bytes eq_refl eq_refl)
      as (H1 & _ & reply & Hr & Hc & _).
    split; [exact H1|]. exists reply. split; [exact Hr|].
    exact (proj2 (proj1 (Hc eq_refl) succeeded_answer
                    (sample_job "succeeded" one_generation)
                    eq_refl eq_refl eq_refl)).
  - destruct (proj2 (HD VUndef (VStr "succeeded") gen1 "https://video.test/" []
                       eq_refl eq_refl) eq_refl (List.Forall_nil _))
      as (H1 & _ & Hc).
    split; [exact H1|].
    destruct (Hc eq_refl) as (reply & Hr & Hc').
    exists reply. split; [exact Hr|].
    exact (proj2 (Hc' eq_refl succeeded_answer
                    (sample_job "succeeded" one_generation)
                    eq_refl eq_refl eq_refl)).
Defined.

(** ** The store's entries *)

(** C4, as the code has it: the entry of a job is created or changed only
    by a turn of that job's poller, and only when the turn observes
    'succeeded' with a first generation (the entry is then
    [{generationId, status:'ready', prompt}]) or 'failed' (the entry is
    then [{status:'failed'}]); that turn ends the poller, which therefore
    writes at most once.  No request handler and no turn or run of another
    job's poller creates, changes or removes the entry, and no step at all
    removes an entry. *)
Theorem store_entry_written_once (host : Host) (o : InMemory.op) (w : World)
    (k : jsval) :
  (InMemory.poller_of o <> Some k ->
   videoStore (InMemory.step host o w) !! k = videoStore w !! k)
  /\ (is_Some (videoStore w !! k) ->
      is_Some (videoStore (InMemory.step host o w) !! k))
  /\ (videoStore (snd (InMemory.monitor_attempt host k w)) = videoStore w
      \/ exists q r jb entry,
          status_request host k = Some q
          /\ upstream host (length (trace w)) q = Resolved r
          /\ ok r = true
          /\ json r = inr (JJob jb)
          /\ observed_entry jb = Some entry
          /\ (entry = failed_entry \/ exists g, entry = ready_entry g (job_prompt jb))
          /\ fst (InMemory.monitor_attempt host k w) = Return InMemory.Break
          /\ videoStore (snd (InMemory.monitor_attempt host k w))
             = <[k := entry]> (videoStore w))
  /\ (count is_store_set (snd (InMemory.monitorVideoGeneration host k w))
      <= count is_store_set w + 1)%nat.
Proof.
  split; [apply step_frame|]. split; [apply step_keeps|]. split.
  - rewrite monitor_attempt_effect.
    destruct (status_request host k) as [q|]; [|by left]. cbv zeta.
    destruct (turn_stores k (upstream host (length (trace w)) q)
                (record (EFetch q (upstream host (length (trace w)) q)) w))
      as [H|(r & jb & entry & Ha & Hok & Hj & Ho & Ht)]; [by left|].
    right. exists q, r, jb, entry. rewrite Ht. repeat split; auto.
    unfold observed_entry in Ho.
    destruct (strict_eq_str (job_status jb) "succeeded").
    + destruct (job_generations jb) as [| |[|[|g] l]]; try discriminate.
      injection Ho as <-. right. by exists g.
    + destruct (strict_eq_str (job_status jb) "failed"); [|discriminate].
      injection Ho as <-. by left.
  - pose proof (monitor_loop_frame host k maxAttempts w) as H. cbv zeta in H.
    unfold InMemory.monitorVideoGeneration. tauto.
Qed.

(** C4 fails as stated: against an upstream that only ever reports
    'failed', the poller creates an entry for the job. *)
Lemma entry_created_on_failure :
  videoStore w0 !! job1 = None
  /\ videoStore (snd (InMemory.monitorVideoGeneration host_failed job1 w0)) !! job1
     = Some failed_entry
  /\ (forall t q, exists r jb,
        upstream host_failed t q = Resolved r
        /\ json r = inr (JJob jb)
        /\ job_status jb = VStr "failed").
Proof.
  split; [reflexivity|]. split; [reflexivity|].
  intros t q. eexists _, _. repeat split.
Qed.

Lemma store_entry_written_once_witness :
  videoStore (InMemory.step host_failed (InMemory.PollerRun (VStr "job-2"))
                (snd (InMemory.monitorVideoGeneration host_failed job1 w0))) !! job1
  = videoStore (snd (InMemory.monitorVideoGeneration host_failed job1 w0)) !! job1
  /\ is_Some (videoStore
                (InMemory.step host_failed (InMemory.PollerRun job1)
                   (snd (InMemory.monitorVideoGeneration host_failed job1 w0)))
              !! job1).
Proof.
  split.
  - refine (proj1 (store_entry_written_once host_failed
                     (InMemory.PollerRun (VStr "job-2")) _ job1) _).
    discriminate.
  - refine (proj1 (proj2 (store_entry_written_once host_failed
                            (InMemory.PollerRun job1) _ job1)) _).
    by exists failed_entry.
Defined.

(** ** Content download *)

(** C7, as the code has it: [downloadAndSaveVideo] fetches its candidate
    URLs in the order of the array, stops at the first candidate that
    delivers (the fetch resolves with an [ok] response whose body is
    read), hands exactly those bytes to [saveVideoToStorage], and gives up
    without saving only when every candidate has been tried and none
    delivered.  The save step that follows a delivery stores those bytes
    under the job's path exactly when the disk does not refuse the write;
    when it does, the files are left as they were, although a candidate
    delivered. *)
Theorem content_download_first_success (host : Host) (j g : jsval) (w : World)
    (e : string) :
  AZURE_VIDEO_ENDPOINT (process_env host) = Some e ->
  let candidates :=
    map (get host) (FileStore.endpoints host (strip_trailing_slash e) j g) in
  exists evs o,
    tried_in_order candidates evs o
    /\ match o with
       | Some data =>
           (* the save step runs, on the bytes of the first delivery *)
           (exists before q a after misses,
               candidates = (before ++ q :: after)%list
               /\ evs = (misses ++ [EFetch q a])%list
               /\ Forall2 fruitless before misses
               /\ candidate_bytes a = Some data)
           /\ let error :=
                writeFile_error host (length (rev evs ++ trace w)%list)
                  (FileStore.videoPath host j) in
              FileStore.downloadAndSaveVideo host j g w
              = (Return tt,
                 mkWorld (EWriteFile (FileStore.videoPath host j) data error
                            :: rev evs ++ trace w)%list
                         (videoStore w)
                         (match error with
                          | None => <[FileStore.videoPath host j := data]> (files w)
                          | Some _ => files w
                          end))
       | None =>
           (* every candidate was tried and failed; nothing is saved *)
           Forall2 fruitless candidates evs
           /\ FileStore.downloadAndSaveVideo host j g w
              = (Return tt, mkWorld (rev evs ++ trace w)%list (videoStore w) (files w))
       end.
Proof.
  intros He candidates.
  destruct (download_loop_run host
              (FileStore.endpoints host (strip_trailing_slash e) j g) w)
    as (evs & o & Hrun & Ht).
  exists evs, o. split; [exact Ht|].
  unfold FileStore.downloadAndSaveVideo. run. rewrite He. run. rewrite Hrun.
  destruct o as [data|].
  - split.
    + destruct (tried_in_order_some _ _ _ Ht)
        as (before & q & a & after & H1 & H2 & misses & H3 & H4).
      by exists before, q, a, after, misses.
    + rewrite saveVideoToStorage_run. reflexivity.
  - split; [by apply tried_in_order_none|reflexivity].
Qed.

(** C7 fails as stated, on two paths the code handles in a [catch].
    First, the disk refuses the write: the first candidate answers 200
    and its two bytes are read, they are handed to the save step, the
    write fails, and no file is saved although a candidate returned an
    HTTP success.  Second, the first candidate answers 200 but its body
    cannot be read: the error is caught, the second candidate is fetched,
    and it is the second candidate's bytes that are saved, not those of
    the first candidate that returned an HTTP success. *)
Lemma http_success_neither_used_nor_saved :
  (let first := get host_disk_full
                  (nth 0 (FileStore.endpoints host_disk_full "https://video.test"
                            job1 gen1) "") in
   FileStore.downloadAndSaveVideo host_disk_full job1 gen1 w0
   = (Return tt,
      mkWorld [EWriteFile (FileStore.videoPath host_disk_full job1) two_bytes
                 (Some "ENOSPC: no space left on device");
               EFetch first (Resolved succeeded_answer)]
              ∅ ∅)
   /\ status succeeded_answer = 200
   /\ ok succeeded_answer = true
   /\ buffer succeeded_answer = inr two_bytes)
  /\ (let first := get host_unreadable_first
                     (nth 0 (FileStore.endpoints host_unreadable_first
                               "https://video.test" job1 gen1) "") in
      let second := get host_unreadable_first
                      (nth 1 (FileStore.endpoints host_unreadable_first
                                "https://video.test" job1 gen1) "") in
      FileStore.downloadAndSaveVideo host_unreadable_first job1 gen1 w0
      = (Return tt,
         mkWorld [EWriteFile (FileStore.videoPath host_unreadable_first job1)
                    two_bytes None;
                  EFetch second (Resolved succeeded_answer);
                  EFetch first (Resolved unreadable)]
                 ∅
                 {[ FileStore.videoPath host_unreadable_first job1 := two_bytes ]})
      /\ status unreadable = 200
      /\ ok unreadable = true
      /\ buffer unreadable = inl "Premature close"
      /\ first <> second).
Proof.
  split.
  - repeat split.
  - split; [reflexivity|]. repeat split. discriminate.
Qed.

Lemma content_download_first_success_witness :
  AZURE_VIDEO_ENDPOINT (process_env host_second_candidate)
  = Some "https://video.test/"
  /\ files (snd (FileStore.downloadAndSaveVideo host_second_candidate job1 gen1 w0))
     !! FileStore.videoPath host_second_candidate job1 = Some two_bytes
  /\ exists evs o,
      tried_in_order
        (map (get host_second_candidate)
           (FileStore.endpoints host_second_candidate "https://video.test" job1 gen1))
        evs o.
Proof.
  split; [reflexivity|]. split; [reflexivity|].
  destruct (content_download_first_success host_second_candidate job1 gen1 w0
              "https://video.test/" eq_refl) as (evs & o & H & _).
  by exists evs, o.
Defined.

(** * Further properties *)

Lemma unset_falsy (o : option string) : unset o <-> truthy (env_val o) = false.
Proof.
  unfold unset. destruct o as [s|]; simpl; [|by split; auto].
  destruct (String.eqb_spec s ""); simpl; split; intros H;
    first [done | by right; f_equal | destruct H as [H|[= H]]; congruence].
Qed.

(** ** Configuration *)

(** X1: a submission with a prompt is refused without any effect when
    [AZURE_VIDEO_ENDPOINT] or [AZURE_VIDEO_KEY] is not set or is the empty
    string: all three files answer with status code 200 and
    [success: false]; the first two say "Video service configuration
    missing", the third "Azure Video configuration missing". *)
Theorem configuration_missing_refused (host : Host) (b : generate_body) (w : World) :
  truthy (req_prompt b) = true ->
  unset (AZURE_VIDEO_ENDPOINT (process_env host))
  \/ unset (AZURE_VIDEO_KEY (process_env host)) ->
  Direct.generate_video host b w
  = (Return (res_json [("success", VBool false);
                       ("error", VStr "Video service configuration missing")]), w)
  /\ InMemory.generate_video host b w
     = (Return (res_json [("success", VBool false);
                          ("error", VStr "Video service configuration missing")]), w)
  /\ FileStore.generate_video host b w
     = (Return (res_json [("success", VBool false);
                          ("error", VStr "Azure Video configuration missing")]), w).
Proof.
  intros Hp Hc.
  assert (negb (truthy (endpoint host)) || negb (truthy (key host)) = true) as H.
  { unfold endpoint, key. destruct Hc as [Hc|Hc]; apply unset_falsy in Hc;
      rewrite Hc; [done|apply orb_true_r]. }
  unfold Direct.generate_video, InMemory.generate_video, FileStore.generate_video,
    try_catch.
  rewrite Hp, H. by repeat split.
Qed.

Lemma configuration_missing_refused_witness :
  InMemory.generate_video host_unconfigured body1 w0
  = (Return (res_json [("success", VBool false);
                       ("error", VStr "Video service configuration missing")]), w0).
Proof.
  exact (proj1 (proj2 (configuration_missing_refused host_unconfigured body1 w0
                         eq_refl (or_introl (or_introl eq_refl))))).
Defined.

(** ** Exceptions stay inside *)

Lemma try_catch_never_throws {A} (body : M A) (handler : string -> M A) :
  (forall e, never_throws (handler e)) -> never_throws (try_catch body handler).
Proof.
  intros H w. unfold try_catch. destruct (body w) as [[a|e] w1]; [by exists a|].
  apply H.
Qed.

Lemma ret_never_throws {A} (a : A) : never_throws (ret a).
Proof. intros w. by exists a. Qed.

(** X2: no exception escapes a request handler or one of the helpers that
    turn failures into values: each of them returns, whatever the
    upstream, the disk and the request are. *)
Theorem handlers_never_throw (host : Host) :
  (forall b, never_throws (Direct.generate_video host b))
  /\ (forall u, never_throws (DirectProxy.proxy_video host u))
  /\ (forall b, never_throws (InMemory.generate_video host b))
  /\ (forall j, never_throws (InMemory.check_video_status host j))
  /\ (forall j, never_throws (InMemory.download_video host j))
  /\ (forall j, never_throws (InMemory.get_video_info j))
  /\ never_throws (InMemory.health host)
  /\ (forall j, never_throws (InMemory.checkVideoStatus host j))
  /\ (forall b, never_throws (FileStore.generate_video host b))
  /\ (forall j, never_throws (FileStore.check_video_status host j))
  /\ never_throws (FileStore.health host)
  /\ (forall j, never_throws (FileStore.checkVideoStatus host j))
  /\ (forall j d, never_throws (FileStore.saveVideoToStorage host j d))
  /\ (forall j g, never_throws (FileStore.downloadAndSaveVideo host j g))
  /\ (forall j p, never_throws (FileStore.processVideoInBackground host j p)).
Proof.
  repeat split; intros;
    try (apply try_catch_never_throws; intros; apply ret_never_throws).
  - intros w. by eexists.
  - intros w. by eexists.
Qed.

(** ** Status checks *)

Section StatusChecks.
Context (host : Host).

(** X3: [/check-video-status] of the second and of the third file, given
    a [jobId] that is falsy (absent, [null], the empty string, [0] or
    [false]), answers with status code 200, [success: false] and "Job ID
    is required", and performs no effect at all: no upstream request and
    no read of the store or of the disk. *)
Theorem status_check_needs_job_id (j : jsval) (w : World) :
  truthy j = false ->
  InMemory.check_video_status host j w
  = (Return (Reply 200 [] (Json [("success", VBool false);
                                 ("error", VStr "Job ID is required")])), w)
  /\ FileStore.check_video_status host j w
     = (Return (Reply 200 [] (Json [("success", VBool false);
                                    ("error", VStr "Job ID is required")])), w).
Proof.
  intros Hj. unfold InMemory.check_video_status, FileStore.check_video_status,
    try_catch. by rewrite Hj.
Qed.

(** X4: when the upstream fails a status check, [/check-video-status]
    makes exactly that one request and answers [success: false] with the
    text of the failure.  For a response that is not [ok] the second file
    reports "Status check failed: <status>" and the third file adds the
    status text; for a request that is rejected both report the rejection
    message as it is.  The handler's own "Status check failed: " prefix is
    not added, the failure having been turned into a value by
    [checkVideoStatus]. *)
Theorem status_check_upstream_failure (j : jsval) (w : World) (q : request) :
  truthy j = true ->
  status_request host j = Some q ->
  (forall r,
      upstream host (length (trace w)) q = Resolved r ->
      ok r = false ->
      InMemory.check_video_status host j w
      = (Return (res_json [("success", VBool false);
                           ("error", VStr ("Status check failed: "
                                             +:+ pretty (status r)))]),
         record (EFetch q (Resolved r)) w)
      /\ FileStore.check_video_status host j w
         = (Return (res_json [("success", VBool false);
                              ("error", VStr ("Status check failed: "
                                                +:+ pretty (status r) +:+ " "
                                                +:+ statusText r))]),
            record (EFetch q (Resolved r)) w))
  /\ (forall message,
        upstream host (length (trace w)) q = Rejected message ->
        InMemory.check_video_status host j w
        = (Return (res_json [("success", VBool false); ("error", VStr message)]),
           record (EFetch q (Rejected message)) w)
        /\ FileStore.check_video_status host j w
           = (Return (res_json [("success", VBool false); ("error", VStr message)]),
              record (EFetch q (Rejected message)) w)).
Proof.
  intros Hj Hq. split.
  - intros r Hu Hok. rewrite memory_check_run, file_check_run, Hq by done.
    cbv zeta. rewrite Hu. unfold status_of, file_status_of. by rewrite Hok.
  - intros m Hu. rewrite memory_check_run, file_check_run, Hq by done.
    cbv zeta. by rewrite Hu.
Qed.

(** X5: a status check changes neither the store nor the files, and
    what it adds to the trace is nothing, one upstream request, or one
    upstream request followed by one read: of the store entry of the job
    in the second file, of the presence of the job's file in the third. *)
Theorem status_check_reads_only (j : jsval) (w : World) :
  (exists evs,
      snd (InMemory.check_video_status host j w)
      = mkWorld (evs ++ trace w)%list (videoStore w) (files w)
      /\ (evs = [] \/ exists q a, evs = [EFetch q a]
                                 \/ evs = [EStoreGet j; EFetch q a]))
  /\ (exists evs,
        snd (FileStore.check_video_status host j w)
        = mkWorld (evs ++ trace w)%list (videoStore w) (files w)
        /\ (evs = [] \/ exists q a,
                 evs = [EFetch q a]
                 \/ evs = [EExistsSync (FileStore.videoPath host j); EFetch q a])).
Proof.
  destruct (truthy j) eqn:Hj.
  - rewrite memory_check_run, file_check_run by done.
    destruct (status_request host j) as [q|].
    + cbv zeta. split.
      * destruct (status_of _);
          [eexists [_; _]|eexists [_]]; (split; [reflexivity|]); right; eauto.
      * destruct (file_status_of _);
          [eexists [_; _]|eexists [_]]; (split; [reflexivity|]); right; eauto.
    + split; exists []; (split; [by destruct w|by left]).
  - unfold InMemory.check_video_status, FileStore.check_video_status, try_catch.
    rewrite Hj. split; exists []; (split; [by destruct w|by left]).
Qed.
End StatusChecks.

(** ** Reading the store back *)

Section StoreReads.
Context (host : Host).

Lemma strict_eq_str_true (v : jsval) (lit : string) :
  strict_eq_str v lit = true <-> v = VStr lit.
Proof.
  destruct v; simpl; try (split; [discriminate|discriminate]).
  destruct (String.eqb_spec s lit); split; intros H; try done; congruence.
Qed.

Lemma download_video_run (j : jsval) (w : World) :
  truthy j = true ->
  InMemory.download_video host j w =
  let w1 := record (EStoreGet j) w in
  match videoStore w !! j with
  | None => (Return not_ready, w1)
  | Some d =>
      if strict_eq_str (vd_status d) "ready" then
        match AZURE_VIDEO_ENDPOINT (process_env host) with
        | None => (Return (download_failed (cannot_read "undefined" "replace")), w1)
        | Some e =>
            let q := get host (content_video_url host e (vd_generationId d)) in
            let a := upstream host (S (length (trace w))) q in
            (Return (download_reply j a), record (EFetch q a) w1)
        end
      else (Return not_ready, w1)
  end.
Proof.
  intros Hj. unfold InMemory.download_video. run. rewrite Hj. cbn [negb]. run.
  unfold storeGet. cbv zeta.
  destruct (videoStore w !! j) as [d|]; [|reflexivity].
  destruct (strict_eq_str (vd_status d) "ready"); cbn [negb]; run; [|reflexivity].
  destruct (AZURE_VIDEO_ENDPOINT (process_env host)) as [e|]; run; [|reflexivity].
  unfold download_reply, content_video_url, record. cbn [trace length].
  destruct (upstream host _ _) as [m|r]; run; [reflexivity|].
  destruct (ok r); cbn [negb]; run; [|reflexivity].
  destruct (buffer r); reflexivity.
Qed.

(** X6: [/download-video] asks the upstream for content only when the
    store holds an entry for the job whose status is 'ready'; the request
    is then the content URL of the generation recorded in that entry, and
    the reply is decided by the answer to that request alone. *)
Theorem download_fetches_only_ready (j : jsval) (w : World)
    (q : request) (a : fetch_result) :
  EFetch q a ∈ events_of (InMemory.download_video host j) w ->
  exists d e,
    videoStore w !! j = Some d
    /\ vd_status d = VStr "ready"
    /\ AZURE_VIDEO_ENDPOINT (process_env host) = Some e
    /\ q = get host (content_video_url host e (vd_generationId d))
    /\ fst (InMemory.download_video host j w) = Return (download_reply j a).
Proof.
  intros H.
  destruct (truthy j) eqn:Hj.
  2:{ rewrite (events_of_eq _ w []) in H; [by apply elem_of_nil in H|].
      unfold InMemory.download_video, try_catch. by rewrite Hj. }
  pose proof (download_video_run j w Hj) as Hrun. cbv zeta in Hrun.
  destruct (videoStore w !! j) as [d|].
  2:{ rewrite (events_of_eq _ w [EStoreGet j]) in H by (by rewrite Hrun).
      apply list_elem_of_singleton in H. discriminate. }
  destruct (strict_eq_str (vd_status d) "ready") eqn:Hr.
  2:{ rewrite (events_of_eq _ w [EStoreGet j]) in H by (by rewrite Hrun).
      apply list_elem_of_singleton in H. discriminate. }
  destruct (AZURE_VIDEO_ENDPOINT (process_env host)) as [e|].
  2:{ rewrite (events_of_eq _ w [EStoreGet j]) in H by (by rewrite Hrun).
      apply list_elem_of_singleton in H. discriminate. }
  rewrite (events_of_eq _ w [EFetch _ _; EStoreGet j]) in H by (by rewrite Hrun).
  apply elem_of_cons in H as [H|H].
  - injection H as -> ->. exists d, e. rewrite Hrun. repeat split; auto.
    by apply strict_eq_str_true.
  - apply list_elem_of_singleton in H. discriminate.
Qed.
End StoreReads.

Section StoreReads2.
Context (host : Host).

(** X7: for a job whose store entry is ready, [/download-video] sends
    the bytes of the upstream content with the four download headers (the
    length being that of the bytes, the file name "ai-video-<jobId>.mp4")
    when the content request succeeds and its body can be read; in every
    other case it answers 500 with "Download failed: " followed by the
    cause, which for a response that is not [ok] is "Download failed with
    status: <status>", so that the words "Download failed" appear twice. *)
Theorem download_outcomes (j : jsval) (d : VideoData) (e : string) (w : World) :
  truthy j = true ->
  videoStore w !! j = Some d ->
  vd_status d = VStr "ready" ->
  AZURE_VIDEO_ENDPOINT (process_env host) = Some e ->
  let a := upstream host (S (length (trace w)))
             (get host (content_video_url host e (vd_generationId d))) in
  let reply := fst (InMemory.download_video host j w) in
  (forall r data,
      a = Resolved r -> ok r = true -> buffer r = inr data ->
      reply = Return (Reply 200
                        [("Content-Type", "video/mp4");
                         ("Content-Disposition",
                          "attachment; filename=" +:+ dquote +:+ "ai-video-"
                            +:+ ToString j +:+ ".mp4" +:+ dquote);
                         ("Content-Length", pretty (length data));
                         ("Cache-Control", "no-cache")]
                        (Bytes data)))
  /\ (forall r,
        a = Resolved r -> ok r = false ->
        reply = Return (res_status_json 500
                          [("error", VStr ("Download failed: Download failed with status: "
                                             +:+ pretty (status r)))]))
  /\ (forall r message,
        a = Resolved r -> ok r = true -> buffer r = inl message ->
        reply = Return (res_status_json 500
                          [("error", VStr ("Download failed: " +:+ message))]))
  /\ (forall message,
        a = Rejected message ->
        reply = Return (res_status_json 500
                          [("error", VStr ("Download failed: " +:+ message))])).
Proof.
  intros Hj Hs Hr He a reply. subst reply.
  rewrite download_video_run by done. cbv zeta. rewrite Hs, Hr, He. simpl.
  fold a. unfold download_reply. repeat split.
  - intros r data -> -> ->. reflexivity.
  - intros r -> ->. reflexivity.
  - intros r m -> -> ->. reflexivity.
  - intros m ->. reflexivity.
Qed.

Lemma get_video_info_run (j : jsval) (w : World) :
  truthy j = true ->
  InMemory.get_video_info j w =
  (Return match videoStore w !! j with
          | None => res_status_json 404 [("error", VStr "Video data not found")]
          | Some d => res_json [("success", VBool true);
                                ("jobId", j);
                                ("status", vd_status d);
                                ("generationId", vd_generationId d);
                                ("prompt", vd_prompt d)]
          end,
   record (EStoreGet j) w).
Proof.
  intros Hj. unfold InMemory.get_video_info. run. rewrite Hj. cbn [negb]. run.
  unfold storeGet. cbv zeta. by destruct (videoStore w !! j).
Qed.

(** X8: the entry that a poller run writes on observing a finished job
    is the one [/get-video-info] reports afterwards, whatever steps that
    are not pollers of the same job come in between; and when the job was
    observed as failed, [/download-video] answers 404 "Video not ready or
    not found" after reading the store, without asking the upstream. *)
Theorem poller_entry_read_back (j : jsval) (w : World) (q : request)
    (r : response) (jb : job) (entry : VideoData) (os : list InMemory.op) :
  EFetch q (Resolved r) ∈ events_of (InMemory.monitorVideoGeneration host j) w ->
  ok r = true ->
  json r = inr (JJob jb) ->
  observed_entry jb = Some entry ->
  Forall (fun o => InMemory.poller_of o <> Some j) os ->
  truthy j = true ->
  let w2 := InMemory.steps host os
              (snd (InMemory.monitorVideoGeneration host j w)) in
  fst (InMemory.get_video_info j w2)
  = Return (res_json [("success", VBool true);
                      ("jobId", j);
                      ("status", vd_status entry);
                      ("generationId", vd_generationId entry);
                      ("prompt", vd_prompt entry)])
  /\ (job_status jb = VStr "failed" ->
      entry = failed_entry
      /\ InMemory.download_video host j w2
         = (Return (res_status_json 404
                      [("error", VStr "Video not ready or not found")]),
            record (EStoreGet j) w2)).
Proof.
  intros Hin Hok Hj Ho Hos Ht w2.
  assert (videoStore w2 !! j = Some entry) as Hs.
  { unfold w2. rewrite steps_frame by done.
    by apply (monitor_loop_observes host j maxAttempts w q r jb). }
  split.
  - rewrite get_video_info_run by done. by rewrite Hs.
  - intros Hf. unfold observed_entry in Ho. rewrite Hf in Ho. simpl in Ho.
    injection Ho as <-. split; [done|].
    rewrite download_video_run by done. cbv zeta. by rewrite Hs.
Qed.

Lemma observed_entry_shape (jb : job) (entry : VideoData) :
  observed_entry jb = Some entry -> entry_shape entry.
Proof.
  unfold observed_entry, entry_shape.
  destruct (strict_eq_str (job_status jb) "succeeded").
  - destruct (job_generations jb) as [| |[|[|g] l]]; try discriminate.
    intros [= <-]. right. eauto.
  - destruct (strict_eq_str (job_status jb) "failed"); [|discriminate].
    intros [= <-]. by left.
Qed.

Lemma monitor_attempt_store (j : jsval) (w : World) :
  videoStore (snd (InMemory.monitor_attempt host j w)) = videoStore w
  \/ exists entry,
      entry_shape entry
      /\ fst (InMemory.monitor_attempt host j w) = Return InMemory.Break
      /\ videoStore (snd (InMemory.monitor_attempt host j w))
         = <[j := entry]> (videoStore w).
Proof.
  rewrite monitor_attempt_effect.
  destruct (status_request host j) as [q|]; [|by left]. cbv zeta.
  destruct (turn_stores j (upstream host (length (trace w)) q)
              (record (EFetch q (upstream host (length (trace w)) q)) w))
    as [H|(r & jb & entry & Ha & Hok & Hj & Ho & Ht)]; [by left|].
  right. exists entry. rewrite Ht. split; [by eapply observed_entry_shape|done].
Qed.

Lemma monitor_loop_store (j : jsval) (n : nat) (w : World) :
  videoStore (snd (InMemory.monitor_loop host n j w)) = videoStore w
  \/ exists entry,
      entry_shape entry
      /\ videoStore (snd (InMemory.monitor_loop host n j w))
         = <[j := entry]> (videoStore w).
Proof.
  revert w. induction n as [|n IH]; intros w; [by left|].
  rewrite monitor_loop_S.
  destruct (monitor_attempt_store j w) as [H|(entry & Hsh & Hb & Hst)].
  - destruct (monitor_attempt_returns host j w) as (c & Hc & _).
    destruct (InMemory.monitor_attempt host j w) as [o w1]. simpl in *. subst o.
    destruct c; [by left|]. rewrite <- H. apply IH.
  - destruct (InMemory.monitor_attempt host j w) as [o w1]. simpl in *. subst o.
    right. by exists entry.
Qed.

Lemma step_store (o : InMemory.op) (w : World) :
  videoStore (InMemory.step host o w) = videoStore w
  \/ exists j entry,
      InMemory.poller_of o = Some j
      /\ entry_shape entry
      /\ videoStore (InMemory.step host o w) = <[j := entry]> (videoStore w).
Proof.
  destruct (InMemory.poller_of o) as [j|] eqn:E.
  - destruct o; simpl in E; try discriminate; injection E as ->; simpl;
      unfold InMemory.after.
    + destruct (monitor_attempt_store j w) as [H|(entry & Hsh & _ & Hst)];
        [by left|right; eauto].
    + destruct (monitor_loop_store j maxAttempts w) as [H|(entry & Hsh & Hst)];
        [by left|right; eauto].
  - left. by destruct (handler_same_state host o w E).
Qed.

(** X9: every entry of [videoStore] is either the failed entry (status
    'failed', no generation id, no prompt) or a ready entry (status
    'ready' with a generation id and a prompt); no step of the second
    file's server breaks this. *)
Theorem store_keeps_its_shapes (os : list InMemory.op) (w : World) :
  store_shapes w -> store_shapes (InMemory.steps host os w).
Proof.
  revert w. induction os as [|o os IH]; intros w H; [done|].
  simpl. apply IH. intros k d.
  destruct (step_store o w) as [->|(j & entry & _ & Hsh & ->)]; [apply H|].
  destruct (decide (j = k)) as [->|Hne].
  - rewrite lookup_insert_eq. by intros [= <-].
  - rewrite lookup_insert_ne by done. apply H.
Qed.

Lemma step_size (o : InMemory.op) (w : World) :
  (size (videoStore w) <= size (videoStore (InMemory.step host o w))
   <= size (videoStore w) + 1)%nat.
Proof.
  destruct (step_store o w) as [->|(j & entry & _ & _ & ->)]; [lia|].
  rewrite map_size_insert. destruct (videoStore w !! j); simpl; lia.
Qed.

Lemma steps_size (os : list InMemory.op) (w : World) :
  (size (videoStore w) <= size (videoStore (InMemory.steps host os w))
   <= size (videoStore w) + length os)%nat.
Proof.
  revert w. induction os as [|o os IH]; intros w; simpl; [lia|].
  change (fold_left _ os (InMemory.step host o w))
    with (InMemory.steps host os (InMemory.step host o w)).
  pose proof (step_size o w). pose proof (IH (InMemory.step host o w)). lia.
Qed.

(** X10: [active_jobs] of [/health] is the number of entries in the
    store; no step of the second file's server lowers that number, and a
    step raises it by at most one, so the number reported after a
    sequence of steps lies between the number before and that number plus
    the length of the sequence. *)
Theorem active_jobs_never_decreases (os : list InMemory.op) (w : World) :
  let before := Z.of_nat (size (videoStore w)) in
  let after := Z.of_nat (size (videoStore (InMemory.steps host os w))) in
  (exists reply, fst (InMemory.health host w) = Return reply
                 /\ reported "active_jobs" reply = Some (VNum before))
  /\ (exists reply, fst (InMemory.health host (InMemory.steps host os w)) = Return reply
                    /\ reported "active_jobs" reply = Some (VNum after))
  /\ before <= after <= before + Z.of_nat (length os).
Proof.
  cbv zeta. split; [eexists; split; reflexivity|].
  split; [eexists; split; reflexivity|].
  pose proof (steps_size os w). lia.
Qed.
End StoreReads2.

(** ** A job reported done without a usable generation *)

(** X11: a poller turn that observes 'succeeded' without a usable
    generation.  When [generations] is absent, [null] or empty, the
    poller stops at once and leaves the store as it was.  When the first generation is [null], reading its [id] throws
    inside the turn; the error is caught and the remaining turns follow
    at once, without the pause and without a write. *)
Theorem succeeded_without_generation (host : Host) (j : jsval) (n : nat)
    (w : World) (gens : generations) (p : jsval) :
  fst (InMemory.checkVideoStatus host j w)
  = Return (InMemory.StatusOk (VStr "succeeded") gens p) ->
  let w1 := snd (InMemory.checkVideoStatus host j w) in
  (gens = GensUndef \/ gens = GensNull \/ gens = GensArr [] ->
   InMemory.monitor_loop host (S n) j w = (Return tt, w1)
   /\ videoStore w1 = videoStore w)
  /\ (forall rest,
        gens = GensArr (GenNull :: rest) ->
        InMemory.monitor_loop host (S n) j w = InMemory.monitor_loop host n j w1
        /\ videoStore w1 = videoStore w
        /\ total_pause w1 = total_pause w).
Proof.
  intros H w1. subst w1.
  rewrite monitor_loop_S, monitor_attempt_run.
  destruct (checkVideoStatus_store host j w) as (st & _ & Hst).
  assert (total_pause (snd (InMemory.checkVideoStatus host j w)) = total_pause w) as Hp.
  { rewrite checkVideoStatus_run. by destruct (status_request host j). }
  destruct (InMemory.checkVideoStatus host j w) as [o w1]. simpl in *. subst o.
  split.
  - intros [->|[->| ->]]; by split.
  - intros rest ->. by repeat split.
Qed.

Lemma succeeded_without_generation_witness :
  (InMemory.monitor_loop host_no_generation 60 job1 w0
   = (Return tt, snd (InMemory.checkVideoStatus host_no_generation job1 w0)))
  /\ (InMemory.monitor_loop host_null_generation 60 job1 w0
      = InMemory.monitor_loop host_null_generation 59 job1
          (snd (InMemory.checkVideoStatus host_null_generation job1 w0))).
Proof.
  split.
  - refine (proj1 (proj1 (succeeded_without_generation host_no_generation job1 59 w0
                            (GensArr []) (VStr "a cat on a skateboard") eq_refl) _)).
    auto.
  - exact (proj1 (proj2 (succeeded_without_generation host_null_generation job1 59 w0
                           (GensArr [GenNull]) (VStr "a cat on a skateboard") eq_refl)
                    [] eq_refl)).
Defined.

(** ** The time spent pausing *)

Section Pauses.
Context (host : Host).

Lemma total_pause_record (e : event) (w : World) :
  total_pause (record e w) = pause e + total_pause w.
Proof. reflexivity. Qed.

Lemma total_pause_stored (j : jsval) (d : VideoData) (w : World) :
  total_pause (stored j d w) = total_pause w.
Proof. reflexivity. Qed.

Lemma turn_pause (j : jsval) (st : InMemory.status_result) (w : World) :
  total_pause w <= total_pause (snd (turn j st w)) <= total_pause w + checkInterval.
Proof.
  assert (0 <= checkInterval) by (unfold checkInterval; lia).
  assert (total_pause (record (ESleep checkInterval) w)
          = checkInterval + total_pause w) as Hs by reflexivity.
  destruct st as [s gens p|e]; cbn [turn].
  - destruct (strict_eq_str s "succeeded").
    + destruct gens as [| |[|[|g] l]]; cbn [snd];
        rewrite ?total_pause_stored; lia.
    + destruct (strict_eq_str s "failed"); cbn [snd];
        rewrite ?total_pause_stored, ?Hs; lia.
  - cbn [snd]. rewrite Hs. lia.
Qed.

Lemma monitor_loop_pause (j : jsval) (n : nat) (w : World) :
  total_pause w <= total_pause (snd (InMemory.monitor_loop host n j w))
  <= total_pause w + checkInterval * Z.of_nat n.
Proof.
  revert w. induction n as [|n IH]; intros w; [simpl; lia|].
  rewrite monitor_loop_S, monitor_attempt_effect.
  assert (0 <= checkInterval) by (unfold checkInterval; lia).
  destruct (status_request host j) as [q|]; cbv zeta.
  - set (w1 := record _ w).
    assert (total_pause w1 = total_pause w) as H1 by reflexivity.
    pose proof (turn_pause j (status_of (upstream host (length (trace w)) q)) w1) as Ht.
    destruct (turn_returns j (status_of (upstream host (length (trace w)) q)) w1)
      as (c & Hc & _).
    destruct (turn j _ w1) as [o w2]. simpl in *. subst o.
    destruct c; simpl; [nia|]. specialize (IH w2). nia.
  - specialize (IH (record (ESleep checkInterval) w)).
    rewrite total_pause_record in IH. simpl in IH. nia.
Qed.

Lemma wait_turn_pause (st : FileStore.status_result) (w : World) :
  match fst (wait_turn st w) with
  | Return None => total_pause (snd (wait_turn st w)) = total_pause w + checkInterval
  | Return (Some (FileStore.WaitError e)) =>
      e = "Video generation failed" /\ snd (wait_turn st w) = w
  | Return (Some (FileStore.WaitOk _ _)) => snd (wait_turn st w) = w
  | Throw _ => False
  end.
Proof.
  destruct st as [s g p c f|e]; simpl.
  - destruct (strict_eq_str s "succeeded"); [done|].
    destruct (strict_eq_str s "failed"); simpl; [done|].
    unfold total_pause; simpl; lia.
  - unfold total_pause; simpl; lia.
Qed.

Lemma wait_attempt_pause (j : jsval) (w : World) :
  match fst (FileStore.wait_attempt host j w) with
  | Return None =>
      total_pause (snd (FileStore.wait_attempt host j w))
      = total_pause w + checkInterval
  | Return (Some (FileStore.WaitError e)) =>
      e = "Video generation failed"
      /\ total_pause (snd (FileStore.wait_attempt host j w)) = total_pause w
  | Return (Some (FileStore.WaitOk _ _)) =>
      total_pause (snd (FileStore.wait_attempt host j w)) = total_pause w
  | Throw _ => False
  end.
Proof.
  rewrite wait_attempt_effect.
  destruct (status_request host j) as [q|]; cbv zeta.
  - set (w1 := record _ w).
    pose proof (wait_turn_pause (file_status_of (upstream host (length (trace w)) q)) w1) as H.
    destruct (wait_turn _ w1) as [[[[s g|e]|]|m] w2]; simpl in *; try done.
    + by subst w2.
    + destruct H as [-> ->]. done.
  - simpl. unfold total_pause; simpl; lia.
Qed.

Lemma wait_loop_pause (j : jsval) (n : nat) (w : World) :
  total_pause w <= total_pause (snd (FileStore.wait_loop host n j w))
  <= total_pause w + checkInterval * Z.of_nat n
  /\ (fst (FileStore.wait_loop host n j w)
      = Return (FileStore.WaitError "Video generation timeout after 10 minutes") ->
      total_pause (snd (FileStore.wait_loop host n j w))
      = total_pause w + checkInterval * Z.of_nat n).
Proof.
  revert w. induction n as [|n IH]; intros w; [simpl; lia|].
  rewrite wait_loop_S.
  assert (0 <= checkInterval) by (unfold checkInterval; lia).
  pose proof (wait_attempt_pause j w) as Ha.
  destruct (FileStore.wait_attempt host j w) as [[[[s g|e]|]|m] w1]; simpl in *;
    try done.
  - split; [nia|]. discriminate.
  - destruct Ha as [-> Ha]. split; [nia|]. discriminate.
  - specialize (IH w1). split; [nia|]. intros Hr. destruct IH as [_ IH].
    rewrite (IH Hr). nia.
Qed.

(** X12: the poller of the second file and the waiting loop of the third
    pause for at most 600000 ms in all (60 turns of 10000 ms), and the
    waiting loop reports "Video generation timeout after 10 minutes" only
    after pausing for exactly that long. *)
Theorem pause_budget (j : jsval) (w : World) :
  (total_pause w
   <= total_pause (snd (InMemory.monitorVideoGeneration host j w))
   <= total_pause w + 600000)
  /\ (total_pause w
      <= total_pause (snd (FileStore.waitForVideoCompletion host j w))
      <= total_pause w + 600000)
  /\ (fst (FileStore.waitForVideoCompletion host j w)
      = Return (FileStore.WaitError "Video generation timeout after 10 minutes") ->
      total_pause (snd (FileStore.waitForVideoCompletion host j w))
      = total_pause w + 600000).
Proof.
  pose proof (monitor_loop_pause j maxAttempts w) as H1.
  pose proof (wait_loop_pause j maxAttempts w) as [H2 H3].
  unfold InMemory.monitorVideoGeneration, FileStore.waitForVideoCompletion,
    checkInterval, maxAttempts in *.
  simpl Z.of_nat in *. repeat split; try lia. intros H. rewrite (H3 H). lia.
Qed.
End Pauses.

Lemma pause_budget_witness :
  fst (FileStore.waitForVideoCompletion host_running job1 w0)
  = Return (FileStore.WaitError "Video generation timeout after 10 minutes")
  /\ total_pause (snd (FileStore.waitForVideoCompletion host_running job1 w0))
     = total_pause w0 + 600000.
Proof.
  split; [reflexivity|].
  exact (proj2 (proj2 (pause_budget host_running job1 w0)) eq_refl).
Defined.

(** ** The footprint of the background flow *)

Section Footprint.
Context (host : Host).

Lemma wait_loop_writes (j : jsval) (n : nat) (w : World) :
  count is_write (snd (FileStore.wait_loop host n j w)) = count is_write w.
Proof.
  revert w. induction n as [|n IH]; intros w; [reflexivity|].
  rewrite wait_loop_S, wait_attempt_effect.
  destruct (status_request host j) as [q|]; cbv zeta.
  - set (a := upstream host (length (trace w)) q).
    assert (count is_write (record (EFetch q a) w) = count is_write w) as H1
      by (rewrite count_record; simpl; lia).
    destruct (file_status_of a) as [s g p c f|e]; cbn [wait_turn].
    + destruct (strict_eq_str s "succeeded"); [done|].
      destruct (strict_eq_str s "failed"); [done|].
      rewrite IH, count_record. simpl. lia.
    + rewrite IH, count_record. simpl. lia.
  - rewrite IH, count_record. simpl. lia.
Qed.

Lemma tried_in_order_fetches (qs : list request) (evs : list event)
    (o : option (list Byte.byte)) :
  tried_in_order qs evs o ->
  (length evs <= length qs)%nat /\ Forall (fun e => is_fetch e = true) evs.
Proof.
  induction 1 as [|q qs a data _|q qs a evs o _ _ [IH1 IH2]]; simpl.
  - split; [lia|constructor].
  - split; [lia|]. by repeat constructor.
  - split; [lia|]. by constructor.
Qed.

Lemma count_fetches (evs : list event) (w : World)
    (s : gmap jsval VideoData) (f : gmap string (list Byte.byte)) :
  Forall (fun e => is_fetch e = true) evs ->
  count is_fetch (mkWorld (rev evs ++ trace w)%list s f)
  = (count is_fetch w + length evs)%nat
  /\ count is_write (mkWorld (rev evs ++ trace w)%list s f) = count is_write w.
Proof.
  intros H. revert w. induction H as [|e evs He _ IH]; intros w.
  - simpl. split; [unfold count; simpl; lia|done].
  - simpl. rewrite <- app_assoc. simpl.
    destruct (IH (record e w)) as [I1 I2]. simpl in I1, I2.
    rewrite I1, I2, !count_record, He. destruct e; try discriminate. simpl. lia.
Qed.

(** X13: [processVideoInBackground] always returns, leaves the store as
    it was, changes no file other than the one of its own job, makes at
    most 62 upstream requests (60 status checks and two content
    candidates) and at most one write; and when the waiting loop ends in
    an error, nothing is done after it: no content request and no write. *)
Theorem background_flow_footprint (j p : jsval) (w : World) :
  let w' := snd (FileStore.processVideoInBackground host j p w) in
  fst (FileStore.processVideoInBackground host j p w) = Return tt
  /\ videoStore w' = videoStore w
  /\ (forall path, path <> FileStore.videoPath host j ->
                   files w' !! path = files w !! path)
  /\ (count is_fetch w' <= count is_fetch w + 62)%nat
  /\ (count is_write w' <= count is_write w + 1)%nat
  /\ (forall e,
        fst (FileStore.waitForVideoCompletion host j w)
        = Return (FileStore.WaitError e) ->
        w' = snd (FileStore.waitForVideoCompletion host j w)).
Proof.
  cbv zeta.
  pose proof (wait_loop_frame host j maxAttempts w) as Hf. cbv zeta in Hf.
  pose proof (wait_loop_writes j maxAttempts w) as Hw.
  change (FileStore.wait_loop host maxAttempts j w)
    with (FileStore.waitForVideoCompletion host j w) in Hf, Hw.
  unfold FileStore.processVideoInBackground, FileStore.downloadAndSaveVideo. run.
  destruct (FileStore.waitForVideoCompletion host j w) as [o w1].
  cbn [fst snd] in *. destruct Hf as ([r ->] & F1 & F2 & F3).
  unfold maxAttempts in F1.
  destruct r as [s g|e]; cbv beta iota.
  - destruct (AZURE_VIDEO_ENDPOINT (process_env host)) as [e|]; run.
    + destruct (download_loop_run host
                  (FileStore.endpoints host (strip_trailing_slash e) j g) w1)
        as (evs & o & -> & Ht).
      apply tried_in_order_fetches in Ht as [Hl Hfs]. simpl in Hl.
      destruct (count_fetches evs w1 (videoStore w1) (files w1) Hfs) as [C1 C2].
      destruct o as [data|]; cbv beta iota.
      * rewrite saveVideoToStorage_run. cbv zeta. cbn [fst snd trace videoStore files].
        set (w2 := mkWorld _ (videoStore w1) (files w1)) in *.
        set (err := writeFile_error host _ _).
        repeat split; auto.
        -- intros path Hp.
           destruct err; [by rewrite F3|].
           rewrite lookup_insert_ne by done. by rewrite F3.
        -- pose proof (count_record is_fetch
                         (EWriteFile (FileStore.videoPath host j) data err) w2) as Hc.
           unfold count in *. simpl in *. lia.
        -- pose proof (count_record is_write
                         (EWriteFile (FileStore.videoPath host j) data err) w2) as Hc.
           unfold count in *. simpl in *. lia.
        -- discriminate.
      * cbn [fst snd].
        repeat split; auto; try lia; try discriminate; intros path _; by rewrite F3.
    + repeat split; auto; try lia; try discriminate; intros path _; by rewrite F3.
  - repeat split; auto; try lia; try discriminate; intros path _; by rewrite F3.
Qed.
End Footprint.

(** ** Readiness in the file-backed server *)

(** X14: in the third file, when the upstream answers a status check
    with a job body, [videoReady] is [true] exactly when the job's file
    exists in the videos directory and [false] exactly when it does not,
    whatever status the upstream reports; [downloadUrl] is
    "/videos/video-<jobId>.mp4" in the first case and [null] in the
    second. *)
Theorem file_readiness_is_file_presence (host : Host) (j : jsval) (w : World)
    (q : request) (r : response) (jb : job) :
  truthy j = true ->
  status_request host j = Some q ->
  upstream host (length (trace w)) q = Resolved r ->
  ok r = true ->
  json r = inr (JJob jb) ->
  let present := files w !! FileStore.videoPath host j in
  exists reply,
    fst (FileStore.check_video_status host j w) = Return reply
    /\ code reply = 200
    /\ (reported "videoReady" reply = Some (VBool true) <-> is_Some present)
    /\ (reported "videoReady" reply = Some (VBool false) <-> present = None)
    /\ (reported "downloadUrl" reply
        = Some (VStr ("/videos/video-" +:+ ToString j +:+ ".mp4"))
        <-> is_Some present)
    /\ (reported "downloadUrl" reply = Some VNull <-> present = None).
Proof.
  intros Hj Hq Ha Hok Hjson present. subst present.
  rewrite (file_check_run host j w Hj), Hq. cbv zeta.
  rewrite Ha. unfold file_status_of. rewrite Hok, Hjson. cbn [negb].
  eexists. split; [reflexivity|]. split; [reflexivity|].
  unfold reported. cbn [sent res_json own_property String.eqb Ascii.eqb Bool.eqb].
  destruct (files w !! FileStore.videoPath host j) as [data|] eqn:E.
  - rewrite bool_decide_eq_true_2 by eauto. cbn [truthy].
    assert (negb ("/videos/video-" +:+ ToString j +:+ ".mp4" =? "")%string = true)
      as -> by reflexivity.
    repeat split; intros; eauto; discriminate.
  - rewrite bool_decide_eq_false_2 by (intros [? ?]; discriminate). cbn [truthy].
    repeat split; intros H; auto; try discriminate; by destruct H.
Qed.

Lemma file_readiness_is_file_presence_witness :
  exists reply,
    fst (FileStore.check_video_status host_failed job1 w_saved) = Return reply
    /\ reported "status" reply = Some (VStr "failed")
    /\ reported "videoReady" reply = Some (VBool true).
Proof.
  destruct (file_readiness_is_file_presence host_failed job1 w_saved
              (Request "https://video.test/openai/v1/video/generations/jobs/job-1?api-version=preview"
                 "GET" [("Api-key", VStr "secret")] None)
              (Response 200 "" (inr (JJob (sample_job "failed" GensUndef))) (inr []))
              (sample_job "failed" GensUndef)
              eq_refl eq_refl eq_refl eq_refl eq_refl)
    as (reply & Hr & _ & Hv & _).
  exists reply. split; [exact Hr|].
  vm_compute in Hr. injection Hr as <-. split; reflexivity.
Defined.

(** ** The base endpoint *)

Lemma strip_trailing_slash_app (s : string) :
  strip_trailing_slash (s +:+ "/") = s.
Proof.
  induction s as [|c s IH]; [reflexivity|].
  destruct s as [|c' s']; [reflexivity|].
  transitivity (String c (strip_trailing_slash (String c' s' +:+ "/")));
    [reflexivity|by rewrite IH].
Qed.

Lemma strip_trailing_slash_id (s : string) :
  (forall t, s <> t +:+ "/") -> strip_trailing_slash s = s.
Proof.
  induction s as [|c s IH]; intros H; [done|].
  destruct s as [|c' s'].
  - simpl. destruct (Ascii.eqb_spec c (Ascii.ascii_of_nat 47)) as [->|]; [|done].
    by destruct (H "").
  - transitivity (String c (strip_trailing_slash (String c' s'))); [reflexivity|].
    rewrite IH; [done|]. intros t Ht. apply (H (String c t)). simpl. by rewrite Ht.
Qed.

(** X15: the base endpoint is [AZURE_VIDEO_ENDPOINT] without one slash
    at its end: a configured value [s/] gives [s], a value that does not
    end in a slash is used as it is, and of two slashes at the end only
    the last is removed. *)
Theorem one_trailing_slash_removed (host : Host) (s : string) (w : World) :
  (AZURE_VIDEO_ENDPOINT (process_env host) = Some (s +:+ "/") ->
   baseEndpoint host w = (Return s, w))
  /\ (AZURE_VIDEO_ENDPOINT (process_env host) = Some s ->
      (forall t, s <> t +:+ "/") ->
      baseEndpoint host w = (Return s, w))
  /\ (AZURE_VIDEO_ENDPOINT (process_env host) = Some (s +:+ "//") ->
      baseEndpoint host w = (Return (s +:+ "/"), w)).
Proof.
  unfold baseEndpoint. repeat split; intros ->.
  - by rewrite strip_trailing_slash_app.
  - intros H. by rewrite strip_trailing_slash_id.
  - replace (s +:+ "//") with ((s +:+ "/") +:+ "/").
    + by rewrite strip_trailing_slash_app.
    + clear. induction s as [|c s IH]; [done|].
      transitivity (String c ((s +:+ "/") +:+ "/")); [reflexivity|].
      rewrite IH. reflexivity.
Qed.

Lemma one_trailing_slash_removed_witness :
  baseEndpoint host_running w0 = (Return "https://video.test", w0).
Proof.
  exact (proj1 (one_trailing_slash_removed host_running "https://video.test" w0)
           eq_refl).
Defined.

(** ** Progress *)

(** X16: [getProgressFromStatus] is 100 for the status 'succeeded' and
    for no other string; and for every string that is not the name of an
    inherited member of the table, it is one of 10, 20, 30, 60, 85 and
    100. *)
Theorem progress_complete_only_when_succeeded (s : string) :
  (getProgressFromStatus (VStr s) = VNum 100 <-> s = "succeeded")
  /\ (Object_prototype s = VUndef ->
      getProgressFromStatus (VStr s)
      ∈ [VNum 10; VNum 20; VNum 30; VNum 60; VNum 85; VNum 100]).
Proof.
  unfold getProgressFromStatus, js_get, progress. cbn [ToString own_property].
  repeat match goal with
         | |- context [String.eqb ?a s] =>
             destruct (String.eqb_spec a s) as [<-|?]
         end;
    try (split; [split; [discriminate|done] | intros _; set_solver]);
    try (split; [split; [done|done] | intros _; set_solver]).
  split.
  - split; [|intros ->; done].
    unfold Object_prototype.
    repeat match goal with
           | |- context [if ?b then _ else _] => destruct b
           end; discriminate.
  - intros ->. set_solver.
Qed.

Lemma progress_complete_only_when_succeeded_witness :
  getProgressFromStatus (VStr "cancelled")
  ∈ [VNum 10; VNum 20; VNum 30; VNum 60; VNum 85; VNum 100].
Proof.
  exact (proj2 (progress_complete_only_when_succeeded "cancelled") eq_refl).
Defined.

(** ** The streaming proxy *)

(** X17: [/proxy-video] of the first file.  Without a [url] it answers
    400 "URL parameter required" and makes no request.  With one, it makes
    exactly one request, a GET of the given URL, whatever its host,
    carrying the [Api-key] header with [AZURE_VIDEO_KEY]; when the
    response is [ok] it sets the two video headers and pipes the body, and
    when the response is not [ok] or the request is rejected it answers
    500 with the fixed text "Video streaming failed". *)
Theorem proxy_video_contract (host : Host) (u : jsval) (w : World) :
  (truthy u = false ->
   DirectProxy.proxy_video host u w
   = (Return (DirectProxy.Answered
                (Reply 400 [] (Json [("error", VStr "URL parameter required")]))), w))
  /\ (truthy u = true ->
      let q := Request (ToString u) "GET"
                 [("Api-key", env_val (AZURE_VIDEO_KEY (process_env host)))] None in
      let a := upstream host (length (trace w)) q in
      snd (DirectProxy.proxy_video host u w) = record (EFetch q a) w
      /\ ((forall r, a = Resolved r -> ok r = true ->
             fst (DirectProxy.proxy_video host u w)
             = Return (DirectProxy.Piped [("Content-Type", "video/mp4");
                                          ("Cache-Control", "public, max-age=3600")]
                         (buffer r)))
          /\ ((forall r, a = Resolved r -> ok r = false) ->
              fst (DirectProxy.proxy_video host u w)
              = Return (DirectProxy.Answered
                          (Reply 500 [] (Json [("error", VStr "Video streaming failed")])))))).
Proof.
  unfold DirectProxy.proxy_video, get, key. run. split; intros ->; [done|].
  cbn [negb]. cbv beta iota.
  destruct (upstream host _ _) as [m|r]; cbv beta iota.
  - split; [done|]. split; [discriminate|done].
  - destruct (ok r) eqn:E; cbn [negb]; cbv beta iota.
    + split; [done|]. split; [by intros ? [= <-] _|].
      intros H. specialize (H r eq_refl). congruence.
    + split; [done|]. split; [|done]. intros ? [= <-]. congruence.
Qed.

Lemma proxy_video_contract_witness :
  fst (DirectProxy.proxy_video host_not_found (VStr "https://elsewhere.test/v.mp4") w0)
  = Return (DirectProxy.Answered
              (Reply 500 [] (Json [("error", VStr "Video streaming failed")]))).
Proof.
  refine (proj2 (proj2 (proj2 (proxy_video_contract host_not_found
                                 (VStr "https://elsewhere.test/v.mp4") w0)
                          eq_refl)) _).
  intros r [= <-]. reflexivity.
Defined.

(** ** Submissions *)

Section Submissions.
Context (host : Host).

(** X18: in the second file, a submission whose [duration] is [null]
    (which the default does not replace) fails on [duration.toString()]
    before any upstream request and is answered with "Video generation
    failed: " and the TypeError's message; with any other [duration] the
    submission is sent, [n_seconds] being the string form of the duration,
    or "5" when it is absent. *)
Theorem null_duration_fails_locally (b : generate_body) (w : World) (e : string) :
  truthy (req_prompt b) = true ->
  AZURE_VIDEO_ENDPOINT (process_env host) = Some e ->
  truthy (endpoint host) = true ->
  truthy (key host) = true ->
  (req_duration b = VNull ->
   InMemory.generate_video host b w
   = (Return (res_json
                [("success", VBool false);
                 ("error", VStr ("Video generation failed: "
                                 +:+ cannot_read "null" "toString"))]), w))
  /\ (req_duration b <> VNull ->
      let n_seconds := match req_duration b with
                       | VUndef => "5"
                       | d => ToString d
                       end in
      let q := submit host (strip_trailing_slash e)
                 (InMemory.requestBody (req_prompt b)
                    (default_to (VStr "720") (req_quality b)) n_seconds) in
      exists evs,
        trace (snd (InMemory.generate_video host b w))
        = (evs ++ [EFetch q (upstream host (length (trace w)) q)] ++ trace w)%list).
Proof.
  intros Hp He Hen Hk.
  unfold InMemory.generate_video, InMemory.toString. run.
  rewrite Hp, Hen, Hk, He. cbn [negb orb]. cbv beta iota.
  split.
  - intros ->. reflexivity.
  - intros Hd. cbv zeta.
    destruct (req_duration b) eqn:E; try done; cbn [default_to]; cbv beta iota;
      (destruct (upstream host _ _) as [m|r]; cbv beta iota; [by exists []|];
       destruct (json r) as [m|data]; cbv beta iota; [by exists []|];
       destruct ((status r =? 201) || (status r =? 202)); cbv beta iota;
         [|by exists []];
       destruct data; cbv beta iota; [by exists []|by eexists [_]]).
Qed.

Lemma memory_submission_cases (b : generate_body) (w : World) :
  (events_of (InMemory.generate_video host b) w = []
   /\ exists m, fst (InMemory.generate_video host b w)
                = Return (res_json [("success", VBool false); ("error", VStr m)]))
  \/ exists q,
      let a := upstream host (length (trace w)) q in
      fst (InMemory.generate_video host b w)
      = Return (submission_reply host "Video service error: "
                  "Video will be ready in 2-5 minutes." a)
      /\ events_of (InMemory.generate_video host b) w
         = submission_events q a monitorVideoGeneration_task.
Proof.
  unfold events_of, InMemory.generate_video, endpoint, key, submission_reply,
    submission_events, accepted_id, missing_prompt, generation_failed. run.
  destruct (negb (truthy (req_prompt b))); run.
  { left. split; [apply (new_events [] w)|by eexists]. }
  destruct (_ || _); run.
  { left. split; [apply (new_events [] w)|by eexists]. }
  destruct (AZURE_VIDEO_ENDPOINT (process_env host)) as [e|]; run.
  2:{ left. split; [apply (new_events [] w)|by eexists]. }
  unfold InMemory.toString.
  destruct (default_to (VStr "5") (req_duration b)); run;
    try (left; split; [apply (new_events [] w)|by eexists]);
    (right; match goal with |- context [upstream host _ ?q] => exists q end; run;
     destruct (upstream host _ _) as [m|r]; run;
       [split; [reflexivity|]; apply (new_events [_] w)|];
     destruct (json r) as [m|data]; run;
       [split; [reflexivity|]; apply (new_events [_] w)|];
     destruct ((status r =? 201) || (status r =? 202)); run;
       [destruct data; run; (split; [reflexivity|]);
          [apply (new_events [_] w)|apply (new_events [_; _] w)]
       |split; [reflexivity|]; destruct data; apply (new_events [_] w)]).
Qed.

Lemma file_submission_cases (b : generate_body) (w : World) :
  (events_of (FileStore.generate_video host b) w = []
   /\ exists m, fst (FileStore.generate_video host b w)
                = Return (res_json [("success", VBool false); ("error", VStr m)]))
  \/ exists q,
      let a := upstream host (length (trace w)) q in
      fst (FileStore.generate_video host b w)
      = Return (submission_reply host "Azure API error: "
                  "Video will be ready in 2-5 minutes. Please check status periodically."
                  a)
      /\ events_of (FileStore.generate_video host b) w
         = submission_events q a
             (fun id => processVideoInBackground_task id (req_prompt b)).
Proof.
  unfold events_of, FileStore.generate_video, endpoint, key, submission_reply,
    submission_events, accepted_id, missing_prompt, generation_failed. run.
  destruct (negb (truthy (req_prompt b))); run.
  { left. split; [apply (new_events [] w)|by eexists]. }
  destruct (_ || _); run.
  { left. split; [apply (new_events [] w)|by eexists]. }
  destruct (AZURE_VIDEO_ENDPOINT (process_env host)) as [e|]; run.
  2:{ left. split; [apply (new_events [] w)|by eexists]. }
  right. match goal with |- context [upstream host _ ?q] => exists q end. run.
  destruct (upstream host _ _) as [m|r]; run.
  { split; [reflexivity|]. apply (new_events [_] w). }
  destruct (json r) as [m|data]; run.
  { split; [reflexivity|]. apply (new_events [_] w). }
  destruct ((status r =? 201) || (status r =? 202)); run.
  - destruct data; run; (split; [reflexivity|]);
      [apply (new_events [_] w)|apply (new_events [_; _] w)].
  - split; [reflexivity|]. destruct data; apply (new_events [_] w).
Qed.

Lemma spawned_iff_started (prefix note : string) (q : request) (a : fetch_result)
    (t : jsval -> task) (o : task) :
  (forall x y, t x = t y -> x = y) ->
  ESpawn o ∈ submission_events q a t
  <-> exists id st, o = t id
                    /\ submission_reply host prefix note a = started id st note.
Proof.
  intros Hinj. unfold submission_events, submission_reply, accepted_id.
  destruct a as [m|r].
  { split; [intros H; apply list_elem_of_singleton in H; discriminate|].
    intros (id & st & _ & H). discriminate. }
  destruct (json r) as [m|[|jb]].
  - split; [intros H; apply list_elem_of_singleton in H; discriminate|].
    intros (id & st & _ & H). discriminate.
  - destruct (_ || _);
      (split; [intros H; apply list_elem_of_singleton in H; discriminate|];
       intros (id & st & _ & H); discriminate).
  - destruct (_ || _).
    + split.
      * intros H. apply elem_of_cons in H as [[= ->]|H];
          [by eexists _, _|apply list_elem_of_singleton in H; discriminate].
      * intros (id & st & -> & [= <- _]). apply list_elem_of_here.
    + split; [intros H; apply list_elem_of_singleton in H; discriminate|].
      intros (id & st & _ & H). discriminate.
Qed.

(** X19: a submission starts a background task exactly when it is
    answered with [success: true], and the task is then the one for the
    job id of the reply: the poller in the second file, the background
    flow (with the prompt of the request) in the third.  The first file
    never starts one. *)
Theorem task_started_iff_accepted (b : generate_body) (w : World) :
  (forall t,
     ESpawn t ∈ events_of (InMemory.generate_video host b) w
     <-> exists id st,
           t = monitorVideoGeneration_task id
           /\ fst (InMemory.generate_video host b w)
              = Return (started id st "Video will be ready in 2-5 minutes."))
  /\ (forall t,
        ESpawn t ∈ events_of (FileStore.generate_video host b) w
        <-> exists id st,
              t = processVideoInBackground_task id (req_prompt b)
              /\ fst (FileStore.generate_video host b w)
                 = Return (started id st
                     "Video will be ready in 2-5 minutes. Please check status periodically."))
  /\ (forall t, ESpawn t ∉ events_of (Direct.generate_video host b) w).
Proof.
  split; [|split]; intros t.
  - destruct (memory_submission_cases b w) as [[-> [m ->]]|(q & Hr & ->)].
    + split; [intros H; by apply elem_of_nil in H|].
      intros (id & st & _ & H). discriminate.
    + cbv zeta in Hr. rewrite Hr.
      rewrite (spawned_iff_started "Video service error: "
                 "Video will be ready in 2-5 minutes."); [|by intros ? ? [= ->]].
      split; intros (id & st & -> & H); exists id, st; (split; [done|]); congruence.
  - destruct (file_submission_cases b w) as [[-> [m ->]]|(q & Hr & ->)].
    + split; [intros H; by apply elem_of_nil in H|].
      intros (id & st & _ & H). discriminate.
    + cbv zeta in Hr. rewrite Hr.
      rewrite (spawned_iff_started "Azure API error: "
                 "Video will be ready in 2-5 minutes. Please check status periodically.");
        [|by intros ? ? [= ->]].
      split; intros (id & st & -> & H); exists id, st; (split; [done|]); congruence.
  - destruct (direct_generate_video_run host b w) as [->|(q & _ & ->)].
    + apply not_elem_of_nil.
    + intros H. apply list_elem_of_singleton in H. discriminate.
Qed.
End Submissions.

(** ** Instances *)

Lemma status_check_needs_job_id_witness :
  InMemory.check_video_status host_running VUndef w0
  = (Return (Reply 200 [] (Json [("success", VBool false);
                                 ("error", VStr "Job ID is required")])), w0).
Proof.
  exact (proj1 (status_check_needs_job_id host_running VUndef w0 eq_refl)).
Defined.

Lemma status_check_upstream_failure_witness :
  exists reply w',
    FileStore.check_video_status host_not_found job1 w0 = (Return reply, w')
    /\ reported "error" reply = Some (VStr "Status check failed: 404 Not Found").
Proof.
  eexists _, _. split.
  - exact (proj2 (proj1 (status_check_upstream_failure host_not_found job1 w0
                           status_request1 eq_refl eq_refl)
                    not_found eq_refl eq_refl)).
  - reflexivity.
Defined.

Lemma download_fetches_only_ready_witness :
  exists d, videoStore w_ready !! job1 = Some d /\ vd_status d = VStr "ready".
Proof.
  assert (EFetch (get host_succeeded
                    (content_video_url host_succeeded "https://video.test/" gen1))
                 (answer 200 "succeeded" one_generation two_bytes)
          ∈ events_of (InMemory.download_video host_succeeded job1) w_ready) as H.
  { rewrite (events_of_eq _ _ [EFetch (get host_succeeded
                    (content_video_url host_succeeded "https://video.test/" gen1))
                 (answer 200 "succeeded" one_generation two_bytes); EStoreGet job1]);
      [apply list_elem_of_here|reflexivity]. }
  destruct (download_fetches_only_ready host_succeeded job1 w_ready _ _ H)
    as (d & e & H1 & H2 & _).
  exists d. exact (conj H1 H2).
Defined.

Lemma download_outcomes_witness :
  exists reply,
    fst (InMemory.download_video host_succeeded job1 w_ready) = Return reply
    /\ sent reply = Bytes two_bytes.
Proof.
  eexists. split.
  - exact (proj1 (download_outcomes host_succeeded job1
                    (ready_entry gen1 (VStr "a cat on a skateboard"))
                    "https://video.test/" w_ready eq_refl eq_refl eq_refl eq_refl)
             (Response 200 "" (inr (JJob (sample_job "succeeded" one_generation)))
                       (inr two_bytes))
             two_bytes eq_refl eq_refl eq_refl).
  - reflexivity.
Defined.

Lemma poller_entry_read_back_witness :
  fst (InMemory.get_video_info job1
         (InMemory.steps host_failed [InMemory.GetHealth]
            (snd (InMemory.monitorVideoGeneration host_failed job1 w0))))
  = Return (res_json [("success", VBool true);
                      ("jobId", job1);
                      ("status", vd_status failed_entry);
                      ("generationId", vd_generationId failed_entry);
                      ("prompt", vd_prompt failed_entry)]).
Proof.
  refine (proj1 (poller_entry_read_back host_failed job1 w0 status_request1
                   failed_answer (sample_job "failed" GensUndef) failed_entry
                   [InMemory.GetHealth] _ eq_refl eq_refl eq_refl _ eq_refl)).
  - vm_compute. apply list_elem_of_further, list_elem_of_here.
  - constructor; [discriminate|constructor].
Defined.

Lemma store_keeps_its_shapes_witness :
  store_shapes (InMemory.steps host_failed [InMemory.PollerRun job1] w0).
Proof.
  apply (store_keeps_its_shapes host_failed [InMemory.PollerRun job1] w0).
  intros k d H. simpl in H. rewrite lookup_empty in H. discriminate.
Defined.

Lemma background_flow_footprint_witness :
  snd (FileStore.processVideoInBackground host_failed job1 VUndef w0)
  = snd (FileStore.waitForVideoCompletion host_failed job1 w0).
Proof.
  exact (proj2 (proj2 (proj2 (proj2 (proj2
           (background_flow_footprint host_failed job1 VUndef w0)))))
           "Video generation failed" eq_refl).
Defined.

Lemma null_duration_fails_locally_witness :
  InMemory.generate_video host_running body_null_duration w0
  = (Return (res_json
               [("success", VBool false);
                ("error", VStr ("Video generation failed: "
                                +:+ cannot_read "null" "toString"))]), w0).
Proof.
  exact (proj1 (null_duration_fails_locally host_running body_null_duration w0
                  "https://video.test/" eq_refl eq_refl eq_refl eq_refl) eq_refl).
Defined.

Lemma task_started_iff_accepted_witness :
  ESpawn (monitorVideoGeneration_task (VStr "job-1"))
  ∈ events_of (InMemory.generate_video host_accepted body1) w0.
Proof.
  exact (proj2 (proj1 (task_started_iff_accepted host_accepted body1 w0) _)
           (ex_intro _ (VStr "job-1")
              (ex_intro _ (VStr "queued") (conj eq_refl eq_refl)))).
Defined.
